(** * Drop scanner: rate-limited batch analysis pipeline

    A shallow embedding of [rate_limit_config.py], [fortune5000-analysis.py]
    and [sp500-analysis.py].

    Conventions of the embedding:
    - price data, ratios and indicator values are IEEE binary64 numbers
      (Rocq's primitive [float]), computed with exactly the operations the
      Python code performs; [None] is [None];
    - wall-clock time, sleeps and delay ranges are exact rationals (seconds);
    - Python exceptions are values of [result];
    - the mutable analyzer object is an explicit [Analyzer] record threaded
      through every method; what the process prints, logs, sleeps and writes
      is appended to its [trace];
    - the data provider, the random generator and the runtime functions that
      are not part of the repository are fields of a [World]. *)

From Stdlib Require Import ZArith QArith Floats Ascii String List Bool Lia Lqa.
From Stdlib Require Import Sorted Permutation.
From stdpp Require Import base option gmap strings sorting.
Import ListNotations.

Local Open Scope string_scope.
Local Open Scope list_scope.
Local Open Scope bool_scope.

(** ** Python values and exceptions *)

(** Outcome of a Python call: a value, or a raised [Exception] carrying
    the text of [str(e)]. *)
Inductive result (A : Type) : Type :=
| Ok (a : A)
| Raise (msg : string).
Arguments Ok {A} a.
Arguments Raise {A} msg.

Module Py.

(** *** [str] methods used by the code, on ASCII text *)

Definition code (c : ascii) : nat := nat_of_ascii c.

(** [c.isspace()]: tab, LF, VT, FF, CR, the separators FS..US, space. *)
Definition isspace (c : ascii) : bool :=
  let n := code c in
  ((9 <=? n)%nat && (n <=? 13)%nat) || ((28 <=? n)%nat && (n <=? 32)%nat).

Definition isdigit (c : ascii) : bool :=
  let n := code c in (48 <=? n)%nat && (n <=? 57)%nat.

Definition isupper (c : ascii) : bool :=
  let n := code c in (65 <=? n)%nat && (n <=? 90)%nat.

Definition islower (c : ascii) : bool :=
  let n := code c in (97 <=? n)%nat && (n <=? 122)%nat.

Definition isalpha_char (c : ascii) : bool := isupper c || islower c.

Definition isalnum_char (c : ascii) : bool := isalpha_char c || isdigit c.

Fixpoint all_chars (p : ascii -> bool) (s : string) : bool :=
  match s with
  | EmptyString => true
  | String c r => p c && all_chars p r
  end.

Definition is_empty (s : string) : bool :=
  match s with EmptyString => true | _ => false end.

(** [s.isalnum()]: every character alphanumeric and at least one. *)
Definition isalnum (s : string) : bool :=
  negb (is_empty s) && all_chars isalnum_char s.

(** [s[0].isalpha()]; the code evaluates it only after [isalnum] has
    shown that [s] is not empty, so the [IndexError] of the empty string
    cannot occur and is mapped to [false]. *)
Definition first_isalpha (s : string) : bool :=
  match s with
  | EmptyString => false
  | String c _ => isalpha_char c
  end.

Fixpoint lstrip (s : string) : string :=
  match s with
  | EmptyString => EmptyString
  | String c r => if isspace c then lstrip r else s
  end.

Fixpoint rstrip (s : string) : string :=
  match s with
  | EmptyString => EmptyString
  | String c r =>
      let r' := rstrip r in
      if is_empty r' && isspace c then EmptyString else String c r'
  end.

(** [s.strip()] *)
Definition strip (s : string) : string := rstrip (lstrip s).

(** [s.endswith(suffix)] *)
Fixpoint endswith (s suffix : string) : bool :=
  if String.eqb s suffix then true
  else match s with
       | EmptyString => false
       | String _ r => endswith r suffix
       end.

(** [sub in s] *)
Fixpoint contains (sub s : string) : bool :=
  if String.prefix sub s then true
  else match s with
       | EmptyString => false
       | String _ r => contains sub r
       end.

(** [s.replace(old, new)] for a one-character [old]. *)
Fixpoint replace_char (old : ascii) (new : string) (s : string) : string :=
  match s with
  | EmptyString => EmptyString
  | String c r =>
      if Ascii.eqb c old then new ++ replace_char old new r
      else String c (replace_char old new r)
  end.

Definition lower_char (c : ascii) : ascii :=
  if isupper c then ascii_of_nat (code c + 32) else c.

(** [s.lower()] *)
Fixpoint lower (s : string) : string :=
  match s with
  | EmptyString => EmptyString
  | String c r => String (lower_char c) (lower r)
  end.

(** *** Numbers *)

(** Truth value of a Python or NumPy float: everything but [0.0] and
    [-0.0] is true, [nan] included. *)
Definition truthy (x : float) : bool := negb (PrimFloat.eqb x 0%float).

(** [pd.isna(x)] on a float scalar. *)
Definition isna (x : float) : bool := PrimFloat.is_nan x.

Definition pow10 (n : nat) : Z := (10 ^ Z.of_nat n)%Z.

(** A non-negative integer below [2^53] as a float (exact). *)
Definition float_of_Z (z : Z) : float := PrimFloat.of_uint63 (Uint63.of_Z z).

(** Quotient [a / b] rounded to the nearest integer, ties to even
    ([0 <= a], [0 < b]). *)
Definition div_half_even (a b : Z) : Z :=
  let q := (a / b)%Z in
  let r := (a mod b)%Z in
  match (2 * r ?= b)%Z with
  | Lt => q
  | Gt => (q + 1)%Z
  | Eq => if Z.even q then q else (q + 1)%Z
  end.

(** The builtin [round(x, ndigits)] on a Python [float], [ndigits >= 0]:
    the exact value of [x] is rounded to [ndigits] decimals, ties to even,
    and the double nearest to that decimal is returned; infinities and
    nan round to themselves. *)
Definition round (x : float) (ndigits : nat) : float :=
  match Prim2SF x with
  | S754_finite s m e =>
      let p := pow10 ndigits in
      let q := if (0 <=? e)%Z then (Zpos m * 2 ^ e * p)%Z
               else div_half_even (Zpos m * p) (2 ^ (- e)) in
      match q with
      | Zpos qm =>
          SF2Prim (SFdiv prec emax (S754_finite s qm 0)
                                   (S754_finite false (Z.to_pos p) 0))
      | _ => if s then (-0)%float else 0%float
      end
  | _ => x
  end.

(** [int(x)] on a float: truncation towards zero; [OverflowError] on an
    infinity and [ValueError] on nan. *)
Definition int (x : float) : result Z :=
  match Prim2SF x with
  | S754_zero _ => Ok 0%Z
  | S754_finite s m e =>
      let a := if (0 <=? e)%Z then (Zpos m * 2 ^ e)%Z else (Zpos m / 2 ^ (- e))%Z in
      Ok (if s then (- a)%Z else a)
  | S754_infinity _ => Raise "cannot convert float infinity to integer"
  | S754_nan => Raise "cannot convert float NaN to integer"
  end.

End Py.

(** NumPy scalars: [hist['Close'].iloc[-1]] and the indicator values are
    [numpy.float64]. *)
Module Np.

Definition two52 : float := 4503599627370496%float.

(** [numpy.rint]: nearest integer, ties to even, sign kept. *)
Definition rint (y : float) : float :=
  if PrimFloat.ltb (PrimFloat.abs y) two52 then
    let r := if PrimFloat.ltb y 0 then ((y - two52) + two52)%float
             else ((y + two52) - two52)%float in
    if PrimFloat.eqb r 0 then (y * 0)%float else r
  else y.

(** [round(x, decimals)] on a [numpy.float64], [decimals >= 0]: NumPy
    multiplies by [10**decimals], applies [rint] and divides again. *)
Definition round (x : float) (decimals : nat) : float :=
  let f := Py.float_of_Z (Py.pow10 decimals) in
  (rint (x * f) / f)%float.

End Np.

(** ** [rate_limit_config.py] *)

Module Config.

Record Preset := {
  max_workers : nat;
  batch_size : nat;
  delay_range : Q * Q;
  inter_batch_delay : Q * Q
}.

(** The entries of [RATE_LIMIT_CONFIG] that the analyzer reads. *)
Definition max_retries : nat := 3.
Definition exponential_backoff_base : Q := 1%Q.

Definition aggressive : Preset :=
  {| max_workers := 5; batch_size := 100;
     delay_range := (1#5, 1)%Q; inter_batch_delay := (1, 3)%Q |}.
Definition balanced : Preset :=
  {| max_workers := 3; batch_size := 50;
     delay_range := (1#2, 2)%Q; inter_batch_delay := (2, 5)%Q |}.
Definition conservative : Preset :=
  {| max_workers := 1; batch_size := 20;
     delay_range := (1, 3)%Q; inter_batch_delay := (5, 10)%Q |}.
Definition ultra_conservative : Preset :=
  {| max_workers := 1; batch_size := 10;
     delay_range := (2, 5)%Q; inter_batch_delay := (10, 20)%Q |}.

Definition PRESETS : gmap string Preset :=
  <["aggressive" := aggressive]>
  (<["balanced" := balanced]>
  (<["conservative" := conservative]>
  (<["ultra_conservative" := ultra_conservative]> ∅))).

(** [get_config(preset)] *)
Definition get_config (preset : string) : Preset :=
  match PRESETS !! preset with
  | Some c => c
  | None => balanced
  end.

End Config.

(** ** Ticker universe: the filter of [get_fortune5000_tickers] *)

Module Tickers.

Definition excluded_suffixes : list string :=
  [".W"; ".U"; ".R"; "$"; "#"; ".A"; ".B"; ".C"; ".D"; ".E"; ".F"; ".G";
   ".H"; ".I"; ".J"; ".K"; ".L"; ".M"; ".N"; ".O"; ".P"; ".Q"; ".R"; ".S";
   ".T"; ".U"; ".V"; ".W"; ".X"; ".Y"; ".Z"].

(** One pass of the loop body over a raw [Symbol] cell: [None] when the
    body reaches a [continue] or skips the [append], [Some t] when it
    appends [t]. *)
Definition clean_ticker (raw : string) : option string :=
  let ticker := Py.strip raw in
  if Py.is_empty ticker || String.eqb ticker "nan"
     || (6 <? String.length ticker)%nat then None
  else if existsb (Py.endswith ticker) excluded_suffixes then None
  else if Py.contains "$" ticker || Py.contains "#" ticker then None
  else
    let ticker :=
      if Py.contains "." ticker && negb (Py.endswith ticker ".")
      then Py.replace_char "." "-" ticker else ticker in
    if Py.isalnum (Py.replace_char "." "" (Py.replace_char "-" "" ticker))
       && Py.first_isalpha ticker
    then Some ticker else None.

Definition valid_tickers (all_tickers : list string) : list string :=
  omap clean_ticker all_tickers.

(** [sorted(xs)] on strings: insertion sort by code-point order. *)
Fixpoint insert_sorted (x : string) (l : list string) : list string :=
  match l with
  | [] => [x]
  | y :: r => if String.ltb y x then y :: insert_sorted x r else x :: l
  end.

Definition sorted (l : list string) : list string :=
  fold_right insert_sorted [] l.

(** [sorted(list(set(xs)))] *)
Definition sorted_set (l : list string) : list string :=
  sorted (elements (list_to_set l : gset string)).

(** The characters a kept ticker is made of: letters, digits, hyphen
    and dot. *)
Definition ticker_char (c : ascii) : bool :=
  Py.isalnum_char c || Ascii.eqb c "-" || Ascii.eqb c ".".

(** The filter applied to the [Symbol] column. *)
Definition filter_tickers (all_tickers : list string) : list string :=
  sorted_set (valid_tickers all_tickers).

(** [get_fortune5000_tickers()]: [csv] is what reading the file and
    taking [df['Symbol'].dropna().tolist()] gives (each cell as [str]),
    or the exception it raises. *)
Definition get_fortune5000_tickers (csv : result (list string))
  : option (list string) :=
  match csv with
  | Ok all_tickers => Some (filter_tickers all_tickers)
  | Raise _ => None
  end.

End Tickers.

(** ** Data model *)

(** One daily bar of [ticker.history]. *)
Record Bar := {
  bar_open : float;
  bar_high : float;
  bar_low : float;
  bar_close : float;
  bar_volume : float
}.

(** A price history window, oldest bar first. *)
Definition History := list Bar.

Definition closes (hist : History) : list float := map bar_close hist.
Definition volumes (hist : History) : list float := map bar_volume hist.

(** A numeric attribute of [ticker.info]: a number or JSON [null]. *)
Inductive pyval :=
| PyNone
| PyFloat (f : float).

(** [ticker.info]: a sparse mapping; text attributes ([longName],
    [sector]) and numeric attributes are kept apart by type. *)
Record Info := {
  info_text : gmap string string;
  info_num : gmap string pyval
}.

(** [info.get(key, d)] on a numeric attribute. *)
Definition get_num (info : Info) (key : string) (d : pyval) : pyval :=
  match info_num info !! key with
  | Some v => v
  | None => d
  end.

(** [info.get(key, d)] on a text attribute. *)
Definition get_text (info : Info) (key : string) (d : string) : string :=
  match info_text info !! key with
  | Some v => v
  | None => d
  end.

(** Truth value of a numeric attribute in [if x]. *)
Definition truthy (v : pyval) : bool :=
  match v with
  | PyNone => false
  | PyFloat f => Py.truthy f
  end.

Record TechnicalIndicators := {
  rsi : option float;
  macd : option float;
  macd_signal : option float;
  macd_histogram : option float;
  obv : option Z
}.

Record FundamentalRatios := {
  pe_ratio : option float;
  forward_pe : option float;
  peg_ratio : option float;
  debt_to_equity : option float;
  free_cash_flow : option float;
  dividend_yield : option float;
  book_value : option float;
  price_to_book : option float;
  return_on_equity : option float
}.

Record AnalysisRecord := {
  symbol : string;
  company_name : string;
  sector : string;
  current_price : float;
  previous_close : float;
  percent_change : float;
  market_cap : pyval;
  fifty_two_week_high : pyval;
  fifty_two_week_low : pyval;
  distance_from_high : float;
  volume : float;
  avg_volume : float;
  technical : TechnicalIndicators;
  fundamental : FundamentalRatios
}.

(** ** Third-party numeric libraries

    The [ta] package and pandas' [Series.mean] are not part of the
    repository; the analyzer is parameterised by what they return. A series
    is the list of its values, oldest first. *)
Class Libs := {
  (** [ta.momentum.RSIIndicator(close, window=w).rsi()] *)
  ta_rsi : list float -> nat -> result (list float);
  (** [m = ta.trend.MACD(close)]: [m.macd()], [m.macd_signal()],
      [m.macd_diff()] *)
  ta_macd : list float -> result (list float * list float * list float);
  (** [ta.volume.OnBalanceVolumeIndicator(close, volume).on_balance_volume()] *)
  ta_obv : list float -> list float -> result (list float);
  (** [series.mean()] *)
  series_mean : list float -> float
}.

(** [series.iloc[-k]] for [k >= 1]. *)
Definition iloc_neg (k : nat) (xs : list float) : result float :=
  if ((k =? 0)%nat || (length xs <? k)%nat) then
    Raise "single positional indexer is out-of-bounds"
  else match nth_error xs (length xs - k) with
       | Some x => Ok x
       | None => Raise "single positional indexer is out-of-bounds"
       end.

(** ** Indicator and ratio functions *)

Definition null_indicators : TechnicalIndicators :=
  {| rsi := None; macd := None; macd_signal := None;
     macd_histogram := None; obv := None |}.

(** [round(x, n) if not pd.isna(x) else None] *)
Definition round_unless_na (x : float) (n : nat) : option float :=
  if Py.isna x then None else Some (Np.round x n).

Section Indicators.
Context {libs : Libs}.

(** The [try] block of [calculate_technical_indicators]. *)
Definition technical_indicators_body (hist_data : History)
  : result TechnicalIndicators :=
  if (length hist_data <? 14)%nat then Ok null_indicators
  else
    match ta_rsi (closes hist_data) 14 with
    | Raise m => Raise m
    | Ok rsi_series =>
    match iloc_neg 1 rsi_series with
    | Raise m => Raise m
    | Ok rsi_v =>
    match ta_macd (closes hist_data) with
    | Raise m => Raise m
    | Ok (macd_series, signal_series, diff_series) =>
    match iloc_neg 1 macd_series with
    | Raise m => Raise m
    | Ok macd_v =>
    match iloc_neg 1 signal_series with
    | Raise m => Raise m
    | Ok macd_signal_v =>
    match iloc_neg 1 diff_series with
    | Raise m => Raise m
    | Ok macd_histogram_v =>
    match ta_obv (closes hist_data) (volumes hist_data) with
    | Raise m => Raise m
    | Ok obv_series =>
    match iloc_neg 1 obv_series with
    | Raise m => Raise m
    | Ok obv_v =>
    match (if Py.isna obv_v then Ok None
           else match Py.int obv_v with
                | Ok z => Ok (Some z)
                | Raise m => Raise m
                end) with
    | Raise m => Raise m
    | Ok obv_out =>
        Ok {| rsi := round_unless_na rsi_v 2;
              macd := round_unless_na macd_v 4;
              macd_signal := round_unless_na macd_signal_v 4;
              macd_histogram := round_unless_na macd_histogram_v 4;
              obv := obv_out |}
    end end end end end end end end end.

(** [calculate_technical_indicators(hist_data)]: the [except] branch
    returns the all-[None] dictionary. *)
Definition calculate_technical_indicators (hist_data : History)
  : TechnicalIndicators :=
  match technical_indicators_body hist_data with
  | Ok t => t
  | Raise _ => null_indicators
  end.

End Indicators.

Definition null_ratios : FundamentalRatios :=
  {| pe_ratio := None; forward_pe := None; peg_ratio := None;
     debt_to_equity := None; free_cash_flow := None; dividend_yield := None;
     book_value := None; price_to_book := None; return_on_equity := None |}.

(** [x != 0] *)
Definition ne_zero (v : pyval) : bool :=
  match v with
  | PyNone => true
  | PyFloat f => negb (PrimFloat.eqb f 0)
  end.

(** [a / b] on attribute values; [None] as an operand is a [TypeError],
    a zero divisor a [ZeroDivisionError]. *)
Definition py_div (a b : pyval) : result pyval :=
  match a, b with
  | PyFloat x, PyFloat y =>
      if PrimFloat.eqb y 0 then Raise "float division by zero"
      else Ok (PyFloat (x / y))
  | _, _ => Raise "unsupported operand type(s) for /"
  end.

(** [if x: x = x * 100] *)
Definition to_percentage (v : pyval) : pyval :=
  match v with
  | PyFloat f => if Py.truthy f then PyFloat (f * 100) else v
  | PyNone => v
  end.

(** [round(x, 2) if x else None] *)
Definition round_if_truthy (v : pyval) : option float :=
  match v with
  | PyFloat f => if Py.truthy f then Some (Py.round f 2) else None
  | PyNone => None
  end.

(** A value stored in the result unchanged. *)
Definition as_option (v : pyval) : option float :=
  match v with
  | PyFloat f => Some f
  | PyNone => None
  end.

(** The [try] block of [calculate_fundamental_ratios]. *)
Definition fundamental_ratios_body (info : Info) : result FundamentalRatios :=
  let pe := get_num info "trailingPE" PyNone in
  let fwd := get_num info "forwardPE" PyNone in
  let peg := get_num info "pegRatio" PyNone in
  let total_debt := get_num info "totalDebt" (PyFloat 0) in
  let total_equity := get_num info "totalStockholderEquity" (PyFloat 0) in
  match (if truthy total_equity && ne_zero total_equity
         then py_div total_debt total_equity else Ok PyNone) with
  | Raise m => Raise m
  | Ok d2e =>
      let fcf := get_num info "freeCashflow" PyNone in
      let dy := to_percentage (get_num info "dividendYield" PyNone) in
      let bv := get_num info "bookValue" PyNone in
      let ptb := get_num info "priceToBook" PyNone in
      let roe := to_percentage (get_num info "returnOnEquity" PyNone) in
      Ok {| pe_ratio := round_if_truthy pe;
            forward_pe := round_if_truthy fwd;
            peg_ratio := round_if_truthy peg;
            debt_to_equity := round_if_truthy d2e;
            free_cash_flow := as_option fcf;
            dividend_yield := round_if_truthy dy;
            book_value := round_if_truthy bv;
            price_to_book := round_if_truthy ptb;
            return_on_equity := round_if_truthy roe |}
  end.

(** [calculate_fundamental_ratios(info)] *)
Definition calculate_fundamental_ratios (info : Info) : FundamentalRatios :=
  match fundamental_ratios_body info with
  | Ok r => r
  | Raise _ => null_ratios
  end.

(** ** The analysis of one window (shared by both analyzers) *)

(** [((current_close - previous_close) / previous_close) * 100] on
    [numpy.float64]: a zero divisor gives an infinity or nan, no exception. *)
Definition pct_change (current_close previous_close : float) : float :=
  ((current_close - previous_close) / previous_close * 100)%float.

(** [((current_close - high) / high) * 100 if high else 0] *)
Definition distance_from_52w_high (current_close : float) (high : pyval) : float :=
  match high with
  | PyFloat h => if Py.truthy h then ((current_close - h) / h * 100)%float else 0%float
  | PyNone => 0%float
  end.

Section Window.
Context {libs : Libs}.

(** The body of the [if percent_change <= self.drop_threshold] branch. *)
Definition build_record (ticker_symbol : string) (hist : History) (info : Info)
    (previous_close current_close percent_change : float)
  : result AnalysisRecord :=
  let high := get_num info "fiftyTwoWeekHigh" (PyFloat 0) in
  match iloc_neg 1 (volumes hist) with
  | Raise m => Raise m
  | Ok last_volume =>
      Ok {| symbol := ticker_symbol;
            company_name := get_text info "longName" ticker_symbol;
            sector := get_text info "sector" "Unknown";
            current_price := current_close;
            previous_close := previous_close;
            percent_change := percent_change;
            market_cap := get_num info "marketCap" (PyFloat 0);
            fifty_two_week_high := high;
            fifty_two_week_low := get_num info "fiftyTwoWeekLow" (PyFloat 0);
            distance_from_high := distance_from_52w_high current_close high;
            volume := last_volume;
            avg_volume := series_mean (volumes hist);
            technical := calculate_technical_indicators hist;
            fundamental := calculate_fundamental_ratios info |}
  end.

End Window.

(** ** Process environment *)

Record NewsItem := {
  title : string;
  link : string;
  publisher : string;
  published : string
}.

(** What the process does that is visible from outside. Of the log lines
    only those about retries and failures are kept. *)
Inductive Event :=
| EvUniform (lo hi v : Q)           (* random.uniform(lo, hi) returned v *)
| EvSleep (d : Q)                   (* time.sleep(d) *)
| EvRequest (t : Q)                 (* a wrapped call passes the throttle at time t *)
| EvRateLimited (attempt : nat) (delay : Q)   (* "Rate limited on attempt .." *)
| EvFailedAfter (attempts : nat)    (* "Failed after .. attempts" *)
| EvErrorAnalyzing (sym msg : string)         (* "Error analyzing ..: .." *)
| EvNoDrops                         (* "No stocks found with significant drops" *)
| EvPrintRow (r : AnalysisRecord)   (* one line of the ranked table *)
| EvPrintDetail (r : AnalysisRecord) (news : list NewsItem)
| EvSaveCsv (rows : list AnalysisRecord)      (* df.to_csv(filename) *)
| EvFailureReport (failed : list string)      (* "Failed to process .. tickers" *)
| EvNoTickers                       (* "Failed to retrieve ticker list" *)
| EvInvalidPreset (preset : string) (* "Invalid preset: .." *)
| EvUnexpectedError (msg : string). (* "An error occurred: .." *)

(** The data provider and the sources of non-determinism. A provider
    answer may differ from one attempt of a wrapped call to the next, so it
    is indexed by the attempt number. *)
Record World := {
  (** [yf.Ticker(symbol).history(period="30d")] *)
  history : string -> nat -> result History;
  (** [yf.Ticker(symbol).info] *)
  info : string -> nat -> result Info;
  (** [yf.Ticker(symbol).news], each item already in the shape the
      comprehension of [get_stock_news] gives it *)
  news : string -> nat -> result (list NewsItem);
  (** duration of the provider request number [n] *)
  elapsed : nat -> Q;
  (** the successive values of [random.random()] *)
  random : nat -> Q;
  (** the order in which the worker pool completes the tickers submitted
      together *)
  schedule : list string -> list string
}.

(** The attributes of the analyzer that are assigned in [__init__] only. *)
Record Analyzer := {
  drop_threshold : float;
  max_workers : nat;
  batch_size : nat;
  delay_range : Q * Q;
  inter_batch_delay : Q * Q;
  rate_limit_preset : string
}.

(** The mutable attributes ([request_count], [last_request_time],
    [failed_requests]) together with the clock, the number of random values
    drawn and the events so far (oldest first). *)
Record State := {
  request_count : nat;
  last_request_time : Q;
  failed_requests : list string;
  clock : Q;
  draws : nat;
  trace : list Event
}.

(** [Fortune5000Analyzer.__init__] *)
Definition new_analyzer (drop_threshold : float) (rate_limit_preset : string)
  : Analyzer :=
  let config := Config.get_config rate_limit_preset in
  {| drop_threshold := drop_threshold;
     max_workers := Config.max_workers config;
     batch_size := Config.batch_size config;
     delay_range := Config.delay_range config;
     inter_batch_delay := Config.inter_batch_delay config;
     rate_limit_preset := rate_limit_preset |}.

Definition initial_state (now : Q) : State :=
  {| request_count := 0; last_request_time := 0%Q; failed_requests := [];
     clock := now; draws := 0; trace := [] |}.

(** Arithmetic on seconds: exact, results kept in lowest terms. *)
Definition qplus (a b : Q) : Q := Qred (a + b).
Definition qminus (a b : Q) : Q := Qred (a - b).
Definition qmult (a b : Q) : Q := Qred (a * b).

Definition emit (e : Event) (st : State) : State :=
  {| request_count := request_count st;
     last_request_time := last_request_time st;
     failed_requests := failed_requests st;
     clock := clock st; draws := draws st;
     trace := trace st ++ [e] |}.

Definition advance (d : Q) (st : State) : State :=
  {| request_count := request_count st;
     last_request_time := last_request_time st;
     failed_requests := failed_requests st;
     clock := qplus (clock st) d; draws := draws st;
     trace := trace st |}.

(** [time.sleep(d)] *)
Definition sleep (d : Q) (st : State) : State := emit (EvSleep d) (advance d st).

(** [self.failed_requests.append(sym)] *)
Definition record_failure (sym : string) (st : State) : State :=
  {| request_count := request_count st;
     last_request_time := last_request_time st;
     failed_requests := failed_requests st ++ [sym];
     clock := clock st; draws := draws st;
     trace := trace st |}.

(** [self.last_request_time = time.time(); self.request_count += 1] *)
Definition stamp_request (st : State) : State :=
  {| request_count := S (request_count st);
     last_request_time := clock st;
     failed_requests := failed_requests st;
     clock := clock st; draws := draws st;
     trace := trace st ++ [EvRequest (clock st)] |}.

Definition Qltb (a b : Q) : bool := negb (Qle_bool b a).

Section Pipeline.
Context {libs : Libs}.
Variable w : World.

(** [random.uniform(lo, hi)] = [lo + (hi - lo) * random.random()] *)
Definition uniform (range : Q * Q) (st : State) : Q * State :=
  let '(lo, hi) := range in
  let v := qplus lo (qmult (qminus hi lo) (random w (draws st))) in
  (v, emit (EvUniform lo hi v)
        {| request_count := request_count st;
           last_request_time := last_request_time st;
           failed_requests := failed_requests st;
           clock := clock st; draws := S (draws st);
           trace := trace st |}).

Variable self : Analyzer.

(** *** [rate_limited_request] *)

(** The throttle at the head of each attempt, from [current_time =
    time.time()] to [self.request_count += 1]. [throttle_wait] is its
    first part, up to the test [time_since_last < min_delay]: it gives the
    [sleep_time] the caller is about to sleep, if any. *)
Definition throttle_wait (st : State) : option Q * State :=
  let current_time := clock st in
  let time_since_last := qminus current_time (last_request_time st) in
  let '(min_delay, st) := uniform (delay_range self) st in
  (if Qltb time_since_last min_delay
   then Some (qminus min_delay time_since_last) else None, st).

Definition throttle (st : State) : State :=
  let '(wait, st) := throttle_wait st in
  let st := match wait with
            | Some sleep_time => sleep sleep_time st
            | None => st
            end in
  stamp_request st.

(** An attempt up to the return or exception of the wrapped function:
    the throttle, then the time the provider takes to answer. *)
Definition before_call (st : State) : State :=
  let st := throttle st in
  advance (elapsed w (request_count st)) st.

(** ["429" in str(e) or "rate limit" in str(e).lower()] *)
Definition is_rate_limit_error (msg : string) : bool :=
  Py.contains "429" msg || Py.contains "rate limit" (Py.lower msg).

(** The rate-limit branch of the [except] clause: exponential backoff
    with jitter. *)
Definition back_off (attempt : nat) (st : State) : State :=
  let '(jitter, st) := uniform (0, 1)%Q st in
  let delay :=
    qplus (qmult Config.exponential_backoff_base
                 (inject_Z (2 ^ Z.of_nat attempt))) jitter in
  sleep delay (emit (EvRateLimited (S attempt) delay) st).

(** The [for attempt in range(max_retries)] loop of [wrapper], with
    [remaining] iterations left; [func k] is the outcome of the call of
    the wrapped function made at attempt [k]. *)
Fixpoint attempts {A} (func : nat -> result (option A))
    (remaining attempt : nat) (st : State) : result (option A) * State :=
  match remaining with
  | O => (Ok None, emit (EvFailedAfter Config.max_retries) st)
  | S remaining' =>
      let st := before_call st in
      match func attempt with
      | Ok v => (Ok v, st)
      | Raise msg =>
          if is_rate_limit_error msg
          then attempts func remaining' (S attempt) (back_off attempt st)
          else (Raise msg, st)
      end
  end.

(** [self.rate_limited_request(func)(...)] *)
Definition rate_limited_request {A} (func : nat -> result (option A))
    (st : State) : result (option A) * State :=
  attempts func Config.max_retries 0 st.

(** *** [analyze_single_stock] *)

(** The wrapped [fetch_stock_data(symbol)]. *)
Definition fetch_stock_data (sym : string) (attempt : nat)
  : result (option (History * Info)) :=
  match history w sym attempt with
  | Raise m => Raise m
  | Ok hist =>
      if (length hist =? 0)%nat || (length hist <? 2)%nat then Ok None
      else match info w sym attempt with
           | Raise m => Raise m
           | Ok i => Ok (Some (hist, i))
           end
  end.

(** The part of the [try] block after the fetch. *)
Definition analyze_window (ticker_symbol : string) (hist : History) (i : Info)
  : result (option AnalysisRecord) :=
  match iloc_neg 2 (closes hist) with
  | Raise m => Raise m
  | Ok previous_close =>
  match iloc_neg 1 (closes hist) with
  | Raise m => Raise m
  | Ok current_close =>
      let percent_change := pct_change current_close previous_close in
      if PrimFloat.leb percent_change (drop_threshold self) then
        match build_record ticker_symbol hist i
                previous_close current_close percent_change with
        | Raise m => Raise m
        | Ok r => Ok (Some r)
        end
      else Ok None
  end end.

(** The [except Exception] handler. *)
Definition on_error (ticker_symbol msg : string) (st : State) : State :=
  record_failure ticker_symbol (emit (EvErrorAnalyzing ticker_symbol msg) st).

Definition analyze_single_stock (ticker_symbol : string) (st : State)
  : option AnalysisRecord * State :=
  match rate_limited_request (fetch_stock_data ticker_symbol) st with
  | (Raise msg, st) => (None, on_error ticker_symbol msg st)
  | (Ok None, st) => (None, st)
  | (Ok (Some (hist, i)), st) =>
      match analyze_window ticker_symbol hist i with
      | Raise msg => (None, on_error ticker_symbol msg st)
      | Ok r => (r, st)
      end
  end.

(** *** [get_stock_news] *)

Definition fetch_news (sym : string) (attempt : nat)
  : result (option (list NewsItem)) :=
  match news w sym attempt with
  | Raise m => Raise m
  | Ok items => Ok (Some items)
  end.

Definition get_stock_news (ticker_symbol : string) (max_news : nat) (st : State)
  : list NewsItem * State :=
  match rate_limited_request (fetch_news ticker_symbol) st with
  | (Ok (Some items), st) => (firstn max_news items, st)
  | (Ok None, st) => ([], st)
  | (Raise _, st) => ([], st)
  end.

(** *** [process_batch] *)

(** The pool runs [analyze_single_stock] on every submitted ticker; the
    calls are taken one at a time, in the order [order] in which they
    complete, and [batch_results] collects the results that are not
    [None]. This is the execution of a pool of one worker. With more
    workers the results of the symbols and the symbols appended to
    [failed_requests] are the same, but [self.request_count += 1] and the
    throttle run unsynchronized, so what is proved of [request_count] and
    of the spacing of the calls is stated for one worker (see [Pool] for
    workers inside the throttle together). *)
Fixpoint run_tasks (order : list string) (st : State)
  : list AnalysisRecord * State :=
  match order with
  | [] => ([], st)
  | ticker :: rest =>
      let '(r, st) := analyze_single_stock ticker st in
      let '(rs, st) := run_tasks rest st in
      (match r with Some x => x :: rs | None => rs end, st)
  end.

Definition process_batch (ticker_batch : list string) (st : State)
  : list AnalysisRecord * State :=
  run_tasks (schedule w ticker_batch) st.

End Pipeline.

(** ** What happens to one symbol

    The result of a wrapped call and of the analysis of a symbol do not
    depend on the state of the analyzer, only on the answers of the
    provider; [wrapped_outcome] and [symbol_outcome] give them without the
    state. A symbol whose processing ends in the [except] handler of
    [analyze_single_stock] is one whose outcome is [Raise]. *)

Fixpoint wrapped_outcome {A} (func : nat -> result (option A))
    (remaining attempt : nat) : result (option A) :=
  match remaining with
  | O => Ok None
  | S remaining' =>
      match func attempt with
      | Ok v => Ok v
      | Raise msg =>
          if is_rate_limit_error msg
          then wrapped_outcome func remaining' (S attempt)
          else Raise msg
      end
  end.

Section Outcome.
Context {libs : Libs}.
Variables (w : World) (self : Analyzer).

Definition symbol_outcome (sym : string) : result (option AnalysisRecord) :=
  match wrapped_outcome (fetch_stock_data w sym) Config.max_retries 0 with
  | Raise msg => Raise msg
  | Ok None => Ok None
  | Ok (Some (hist, i)) => analyze_window self sym hist i
  end.

(** The processing of [sym] raises an error that is not retried. *)
Definition raises_error (sym : string) : bool :=
  match symbol_outcome sym with
  | Raise _ => true
  | Ok _ => false
  end.

(** The record [sym] contributes, if any. *)
Definition record_of (sym : string) : option AnalysisRecord :=
  match symbol_outcome sym with
  | Ok r => r
  | Raise _ => None
  end.

End Outcome.

(** ** [display_results] and [save_results_to_csv] (the same code in both
    analyzers, up to the number of detailed entries and the news call) *)

(** [dropped_stocks.sort(key=lambda x: x['percent_change'])]: a stable sort
    that compares keys with [<]; written as a stable insertion sort, which
    returns what every stable comparison sort returns when the keys are
    totally ordered. *)
Fixpoint insert_by_change (x : AnalysisRecord) (l : list AnalysisRecord)
  : list AnalysisRecord :=
  match l with
  | [] => [x]
  | y :: r =>
      if PrimFloat.ltb (percent_change y) (percent_change x)
      then y :: insert_by_change x r
      else x :: l
  end.

Definition sort_by_change (l : list AnalysisRecord) : list AnalysisRecord :=
  fold_right insert_by_change [] l.

(** Formatting a numeric attribute ([format_market_cap(v)], [f"{v:.2f}"])
    raises [TypeError] on [None]; the text produced is not modelled. *)
Definition format_number (v : pyval) : result unit :=
  match v with
  | PyNone => Raise "TypeError: unsupported operand or format for NoneType"
  | PyFloat _ => Ok tt
  end.

(** The prints of one detailed entry up to the news call: they raise
    [TypeError] on a [None] market cap or 52-week bound, on [f"{obv:,}"] with
    [obv] [None], and on [rsi < 30] with [rsi] [None]. *)
Definition format_detail (r : AnalysisRecord) : result unit :=
  match format_number (market_cap r) with
  | Raise m => Raise m
  | Ok _ =>
  match format_number (fifty_two_week_low r) with
  | Raise m => Raise m
  | Ok _ =>
  match format_number (fifty_two_week_high r) with
  | Raise m => Raise m
  | Ok _ =>
  match obv (technical r) with
  | None => Raise "TypeError: unsupported format string passed to NoneType.__format__"
  | Some _ =>
  match rsi (technical r) with
  | None => Raise "TypeError: '<' not supported between instances of 'NoneType' and 'int'"
  | Some _ => Ok tt
  end end end end end.

Section Display.
(** [self.get_stock_news(symbol)] of the analyzer at hand. *)
Variable get_news : string -> State -> list NewsItem * State.
(** 5 in [fortune5000-analysis.py], 3 in [sp500-analysis.py]. *)
Variable top_n : nat.

Fixpoint print_rows (rows : list AnalysisRecord) (st : State)
  : result unit * State :=
  match rows with
  | [] => (Ok tt, st)
  | r :: rest =>
      match format_number (market_cap r) with
      | Raise m => (Raise m, st)
      | Ok _ => print_rows rest (emit (EvPrintRow r) st)
      end
  end.

Fixpoint print_details (rows : list AnalysisRecord) (st : State)
  : result unit * State :=
  match rows with
  | [] => (Ok tt, st)
  | r :: rest =>
      match format_detail r with
      | Raise m => (Raise m, st)
      | Ok _ =>
          let '(items, st) := get_news (symbol r) st in
          print_details rest (emit (EvPrintDetail r items) st)
      end
  end.

(** [display_results(dropped_stocks)]: the list object is sorted in
    place, so the value returned here is what the caller's
    [dropped_stocks] holds afterwards. *)
Definition display_results (dropped_stocks : list AnalysisRecord) (st : State)
  : result (list AnalysisRecord) * State :=
  match dropped_stocks with
  | [] => (Ok dropped_stocks, emit EvNoDrops st)
  | _ =>
      let dropped_stocks := sort_by_change dropped_stocks in
      match print_rows dropped_stocks st with
      | (Raise m, st) => (Raise m, st)
      | (Ok _, st) =>
          match print_details (firstn top_n dropped_stocks) st with
          | (Raise m, st) => (Raise m, st)
          | (Ok _, st) => (Ok dropped_stocks, st)
          end
      end
  end.

(** [save_results_to_csv(dropped_stocks)]; [writable] tells whether
    [df.to_csv] succeeds (its exception is caught and logged). *)
Definition save_results_to_csv (writable : bool)
    (dropped_stocks : list AnalysisRecord) (st : State) : State :=
  if writable then emit (EvSaveCsv dropped_stocks) st else st.

End Display.

(** ** [Fortune5000Analyzer.analyze_us_stocks] *)

Section Orchestrator.
Context {libs : Libs}.
Variable w : World.
Variable self : Analyzer.
(** whether the CSV file of results can be written *)
Variable writable : bool.

(** [if current_batch < total_batches: time.sleep(random.uniform(2.0, 5.0))] *)
Definition inter_batch_pause (current_batch total_batches : nat) (st : State)
  : State :=
  if (current_batch <? total_batches)%nat then
    let '(d, st) := uniform w (2, 5)%Q st in
    sleep d st
  else st.

(** The [for batch_num in range(0, len(tickers), self.batch_size)] loop;
    [indices] are the iteration numbers left, [batch_num] being
    [k * batch_size] at iteration [k]. *)
Fixpoint batch_loop (tickers : list string) (total_batches : nat)
    (indices : list nat) (dropped_stocks : list AnalysisRecord) (st : State)
  : list AnalysisRecord * State :=
  match indices with
  | [] => (dropped_stocks, st)
  | k :: rest =>
      let batch_num := k * batch_size self in
      let batch_tickers := firstn (batch_size self) (skipn batch_num tickers) in
      let current_batch := batch_num / batch_size self + 1 in
      let '(batch_results, st) := process_batch w self batch_tickers st in
      let dropped_stocks := dropped_stocks ++ batch_results in
      let st := inter_batch_pause current_batch total_batches st in
      batch_loop tickers total_batches rest dropped_stocks st
  end.

Definition analyze_us_stocks (csv : result (list string)) (st : State)
  : result unit * State :=
  match Tickers.get_fortune5000_tickers csv with
  | None | Some [] => (Ok tt, emit EvNoTickers st)
  | Some tickers =>
      if (batch_size self =? 0)%nat then
        (Raise "integer division or modulo by zero", st)
      else
        let total_batches :=
          (length tickers + batch_size self - 1) / batch_size self in
        let '(dropped_stocks, st) :=
          batch_loop tickers total_batches (seq 0 total_batches) [] st in
        match display_results (fun sym => get_stock_news w self sym 3) 5
                dropped_stocks st with
        | (Raise m, st) => (Raise m, st)
        | (Ok dropped_stocks, st) =>
            let st := match dropped_stocks with
                      | [] => st
                      | _ => save_results_to_csv writable dropped_stocks st
                      end in
            let st := match failed_requests st with
                      | [] => st
                      | failed => emit (EvFailureReport failed) st
                      end in
            (Ok tt, st)
        end
  end.

End Orchestrator.

(** ** [main()], from [sys.argv]; [now] is the time at which the analyzer
    is created. *)

Definition valid_presets : list string :=
  ["aggressive"; "balanced"; "conservative"; "ultra_conservative"].

Section Main.
Context {libs : Libs}.
Variable w : World.

Definition run_preset (preset : string) (writable : bool)
    (csv : result (list string)) (now : Q) : State :=
  let analyzer := new_analyzer (-1)%float preset in
  match analyze_us_stocks w analyzer writable csv (initial_state now) with
  | (Ok _, st) => st
  | (Raise m, st) => emit (EvUnexpectedError m) st
  end.

Definition main (argv : list string) (writable : bool)
    (csv : result (list string)) (now : Q) : State :=
  match argv with
  | _ :: arg :: _ =>
      let preset := Py.lower arg in
      if existsb (String.eqb preset) valid_presets
      then run_preset preset writable csv now
      else emit (EvInvalidPreset preset) (initial_state now)
  | _ => run_preset "balanced" writable csv now
  end.

End Main.

(** ** [sp500-analysis.py]: the analyzer without throttle *)

Module SP500.
Section SP500.
Context {libs : Libs}.
Variable w : World.
Variable drop_threshold : float.

Definition analyze_body (ticker_symbol : string)
  : result (option AnalysisRecord) :=
  match history w ticker_symbol 0 with
  | Raise m => Raise m
  | Ok hist =>
      if (length hist =? 0)%nat || (length hist <? 2)%nat then Ok None
      else
        match iloc_neg 2 (closes hist) with
        | Raise m => Raise m
        | Ok previous_close =>
        match iloc_neg 1 (closes hist) with
        | Raise m => Raise m
        | Ok current_close =>
            let percent_change := pct_change current_close previous_close in
            if PrimFloat.leb percent_change drop_threshold then
              match info w ticker_symbol 0 with
              | Raise m => Raise m
              | Ok i =>
                  match build_record ticker_symbol hist i
                          previous_close current_close percent_change with
                  | Raise m => Raise m
                  | Ok r => Ok (Some r)
                  end
              end
            else Ok None
        end end
  end.

(** [SP500Analyzer.analyze_single_stock]: any exception gives [None]. *)
Definition analyze_single_stock (ticker_symbol : string)
  : option AnalysisRecord :=
  match analyze_body ticker_symbol with
  | Ok r => r
  | Raise _ => None
  end.

Definition get_stock_news (ticker_symbol : string) (max_news : nat)
  : list NewsItem :=
  match news w ticker_symbol 0 with
  | Ok items => firstn max_news items
  | Raise _ => []
  end.

(** The [as_completed] loop: one result per completed ticker, then
    [time.sleep(0.1)]. *)
Fixpoint collect (order : list string) (dropped_stocks : list AnalysisRecord)
    (st : State) : list AnalysisRecord * State :=
  match order with
  | [] => (dropped_stocks, st)
  | ticker :: rest =>
      let dropped_stocks :=
        match analyze_single_stock ticker with
        | Some r => dropped_stocks ++ [r]
        | None => dropped_stocks
        end in
      collect rest dropped_stocks (sleep (1 # 10) st)
  end.

(** [analyze_sp500_stocks], from the outcome of [get_sp500_tickers()]. *)
Definition analyze_sp500_stocks (writable : bool)
    (tickers : option (list string)) (st : State) : result unit * State :=
  match tickers with
  | None | Some [] => (Ok tt, emit EvNoTickers st)
  | Some tickers =>
      let '(dropped_stocks, st) := collect (schedule w tickers) [] st in
      match display_results (fun sym st => (get_stock_news sym 3, st)) 3
              dropped_stocks st with
      | (Raise m, st) => (Raise m, st)
      | (Ok dropped_stocks, st) =>
          (Ok tt, match dropped_stocks with
                  | [] => st
                  | _ => save_results_to_csv writable dropped_stocks st
                  end)
      end
  end.

End SP500.
End SP500.

(** ** Workers sharing one throttle

    Inside a batch up to [max_workers] threads run [wrapper] on the same
    analyzer object, and the code takes no lock. A thread that sleeps in the
    throttle lets the others run, so the throttle of one call is two atomic
    parts around its sleep: [throttle_wait] (read the clock and
    [last_request_time], draw [min_delay]) and [stamp_request]. *)

Module Pool.

Inductive Worker :=
| Outside                 (* not in the throttle *)
| Asleep (until : Q)      (* in [time.sleep], to resume at time [until] *)
| Awake.                  (* past the sleep, about to write [last_request_time] *)

Record Config := {
  shared : State;
  workers : list Worker
}.

Inductive Action :=
| Begin (i : nat)         (* worker [i] enters the throttle *)
| Wake (i : nat)          (* its sleep is over *)
| Stamp (i : nat)         (* it records the call time and starts the call *)
| Tick (d : Q).           (* time passes *)

Definition set_worker (i : nat) (x : Worker) (c : Config) (st : State) : Config :=
  {| shared := st; workers := <[i := x]> (workers c) |}.

Section Step.
Variable w : World.
Variable self : Analyzer.

Definition step (a : Action) (c : Config) : option Config :=
  match a with
  | Begin i =>
      match workers c !! i with
      | Some Outside =>
          match throttle_wait w self (shared c) with
          | (Some sleep_time, st) =>
              Some (set_worker i (Asleep (qplus (clock st) sleep_time)) c
                      (emit (EvSleep sleep_time) st))
          | (None, st) => Some (set_worker i Awake c st)
          end
      | _ => None
      end
  | Wake i =>
      match workers c !! i with
      | Some (Asleep until) =>
          if Qle_bool until (clock (shared c))
          then Some (set_worker i Awake c (shared c)) else None
      | _ => None
      end
  | Stamp i =>
      match workers c !! i with
      | Some Awake => Some (set_worker i Outside c (stamp_request (shared c)))
      | _ => None
      end
  | Tick d =>
      if Qle_bool 0 d
      then Some {| shared := advance d (shared c); workers := workers c |}
      else None
  end.

Fixpoint run (actions : list Action) (c : Config) : option Config :=
  match actions with
  | [] => Some c
  | a :: rest =>
      match step a c with
      | Some c' => run rest c'
      | None => None
      end
  end.

End Step.

Definition start (n : nat) (st : State) : Config :=
  {| shared := st; workers := replicate n Outside |}.

End Pool.

(** The times at which wrapped calls pass the throttle (the stamp
    [self.last_request_time = time.time()] that precedes [func(..)]), oldest
    first. One pass covers every provider call the wrapped function makes:
    [ticker.history] and then [ticker.info] for [fetch_stock_data]. *)
Fixpoint request_times (tr : list Event) : list Q :=
  match tr with
  | [] => []
  | EvRequest t :: rest => t :: request_times rest
  | _ :: rest => request_times rest
  end.

(** Consecutive elements are at least [gap] apart. *)
Fixpoint spaced (gap : Q) (ts : list Q) : Prop :=
  match ts with
  | t1 :: ((t2 :: _) as rest) => (t1 + gap <= t2)%Q /\ spaced gap rest
  | _ => True
  end.

(** The calls so far are [gap] apart and [last_request_time] is the time
    of the latest one. *)
Definition throttle_inv (gap : Q) (st : State) : Prop :=
  spaced gap (request_times (trace st))
  /\ match last (request_times (trace st)) with
     | Some t => last_request_time st = t
     | None => True
     end.

(** The rows of the ranked table and the rows written to CSV files. *)
Fixpoint printed_rows (tr : list Event) : list AnalysisRecord :=
  match tr with
  | [] => []
  | EvPrintRow r :: rest => r :: printed_rows rest
  | _ :: rest => printed_rows rest
  end.

Fixpoint saved_files (tr : list Event) : list (list AnalysisRecord) :=
  match tr with
  | [] => []
  | EvSaveCsv rows :: rest => rows :: saved_files rest
  | _ :: rest => saved_files rest
  end.

Fixpoint sleeps (tr : list Event) : list Q :=
  match tr with
  | [] => []
  | EvSleep d :: rest => d :: sleeps rest
  | _ :: rest => sleeps rest
  end.

Fixpoint uniform_ranges (tr : list Event) : list (Q * Q) :=
  match tr with
  | [] => []
  | EvUniform lo hi _ :: rest => (lo, hi) :: uniform_ranges rest
  | _ :: rest => uniform_ranges rest
  end.

(** Events other than a table row or a CSV file. *)
Definition quiet (e : Event) : bool :=
  match e with
  | EvPrintRow _ | EvSaveCsv _ => false
  | _ => true
  end.

(** [st'] comes after [st] and nothing was displayed or saved in between. *)
Definition extends_quietly (st st' : State) : Prop :=
  exists evs, trace st' = trace st ++ evs /\ forallb quiet evs = true.

(** Ascending by percent change: [a.percent_change <= b.percent_change]
    for adjacent [a], [b]. *)
Definition change_le (a b : AnalysisRecord) : Prop :=
  PrimFloat.leb (percent_change a) (percent_change b) = true.

(** The record passed the test [percent_change <= threshold]. *)
Definition qualified (threshold : float) (r : AnalysisRecord) : Prop :=
  PrimFloat.leb (percent_change r) threshold = true.

(** The percent change is a number. *)
Definition comparable (r : AnalysisRecord) : Prop :=
  PrimFloat.is_nan (percent_change r) = false.

(** Between [st] and [st'] the rows displayed and the files saved are in
    ascending order of percent change. *)
Definition adds_sorted_output (st st' : State) : Prop :=
  exists p fs,
    printed_rows (trace st') = printed_rows (trace st) ++ p
    /\ Sorted change_le p
    /\ saved_files (trace st') = saved_files (trace st) ++ fs
    /\ Forall (Sorted change_le) fs.

(** ** A model of the numeric libraries

    The computations of the [ta] indicators and of pandas' moving averages,
    after their implementation: exponentially weighted means with
    [adjust=False] whose first [min_periods - 1] values are nan (the warm-up
    of the average). It serves to run the analyzer on concrete windows and
    to say how long the warm-up of the MACD lasts; the other theorems about
    the analyzer hold for every [Libs]. *)

Module TaModel.

Local Open Scope float_scope.

Record Ewm := { weighted : float; old_wt : float; nobs : nat }.

(** [x == x]: [x] is an observation, not nan. *)
Definition is_obs (x : float) : bool := PrimFloat.eqb x x.

Definition ewm_out (minp : nat) (s : Ewm) : float :=
  if (Nat.max minp 1 <=? nobs s)%nat then weighted s else nan.

Definition ewm_first (x : float) : Ewm :=
  {| weighted := x; old_wt := 1; nobs := if is_obs x then 1 else 0 |}.

Definition ewm_step (alpha : float) (s : Ewm) (cur : float) : Ewm :=
  let n := if is_obs cur then S (nobs s) else nobs s in
  if is_obs (weighted s) then
    let ow := old_wt s * (1 - alpha) in
    if is_obs cur then
      {| weighted := if PrimFloat.eqb (weighted s) cur then weighted s
                     else (ow * weighted s + alpha * cur) / (ow + alpha);
         old_wt := 1; nobs := n |}
    else {| weighted := weighted s; old_wt := ow; nobs := n |}
  else
    {| weighted := if is_obs cur then cur else weighted s;
       old_wt := old_wt s; nobs := n |}.

Fixpoint ewm_run (alpha : float) (minp : nat) (s : Ewm) (xs : list float)
  : list float :=
  match xs with
  | [] => []
  | x :: r => let s' := ewm_step alpha s x in
              ewm_out minp s' :: ewm_run alpha minp s' r
  end.

(** [xs.ewm(alpha=alpha, min_periods=minp, adjust=False).mean()] *)
Definition ewm_mean (alpha : float) (minp : nat) (xs : list float) : list float :=
  match xs with
  | [] => []
  | x :: r => ewm_out minp (ewm_first x) :: ewm_run alpha minp (ewm_first x) r
  end.

(** [ta.utils._ema(xs, periods)]: [xs.ewm(span=periods,
    min_periods=periods, adjust=False).mean()] *)
Definition ema (periods : nat) (xs : list float) : list float :=
  let span := Py.float_of_Z (Z.of_nat periods) in
  ewm_mean (1 / (1 + (span - 1) / 2)) periods xs.

(** [xs.diff(1)] *)
Fixpoint diff_from (prev : float) (xs : list float) : list float :=
  match xs with
  | [] => []
  | x :: r => (x - prev) :: diff_from x r
  end.

Definition diff (xs : list float) : list float :=
  match xs with
  | [] => []
  | x :: r => nan :: diff_from x r
  end.

(** [RSIIndicator(close, window).rsi()] *)
Definition rsi_series (close : list float) (window : nat) : list float :=
  let d := diff close in
  let up := map (fun x => if PrimFloat.ltb 0 x then x else 0) d in
  let down := map (fun x => - (if PrimFloat.ltb x 0 then x else 0)) d in
  let alpha := 1 / Py.float_of_Z (Z.of_nat window) in
  let emaup := ewm_mean alpha window up in
  let emadn := ewm_mean alpha window down in
  map (fun '(u, dn) => if PrimFloat.eqb dn 0 then 100
                       else 100 - 100 / (1 + u / dn))
      (combine emaup emadn).

Definition sub_series (xs ys : list float) : list float :=
  map (fun '(x, y) => x - y) (combine xs ys).

(** [MACD(close)] with the default windows 26, 12 and 9 *)
Definition macd_series (close : list float)
  : list float * list float * list float :=
  let line := sub_series (ema 12 close) (ema 26 close) in
  let signal := ema 9 line in
  (line, signal, sub_series line signal).

(** [OnBalanceVolumeIndicator(close, volume).on_balance_volume()] *)
Fixpoint obv_from (prev acc : float) (cv : list (float * float)) : list float :=
  match cv with
  | [] => []
  | (c, v) :: r =>
      let signed := if PrimFloat.ltb c prev then - v else v in
      if is_obs signed then (acc + signed) :: obv_from c (acc + signed) r
      else nan :: obv_from c acc r
  end.

Definition obv_series (close volume : list float) : list float :=
  obv_from nan 0 (combine close volume).

(** [xs.mean()]: nan values are skipped. *)
Definition mean (xs : list float) : float :=
  let obs := List.filter is_obs xs in
  fold_left PrimFloat.add obs 0 / Py.float_of_Z (Z.of_nat (length obs)).

Definition libs : Libs :=
  {| ta_rsi := fun close window => Ok (rsi_series close window);
     ta_macd := fun close => Ok (macd_series close);
     ta_obv := fun close volume => Ok (obv_series close volume);
     series_mean := mean |}.

End TaModel.

(** ** More observations on a trace *)

(** The retries announced by ["Rate limited on attempt .., waiting ..s"]:
    attempt number (from 1) and delay. *)
Fixpoint rate_limited_delays (tr : list Event) : list (nat * Q) :=
  match tr with
  | [] => []
  | EvRateLimited attempt delay :: rest => (attempt, delay) :: rate_limited_delays rest
  | _ :: rest => rate_limited_delays rest
  end.

(** Events that are no draw, no sleep and no throttle pass: what the
    process prints, logs or writes. *)
Definition passive (e : Event) : bool :=
  match e with
  | EvUniform _ _ _ | EvSleep _ | EvRequest _ => false
  | _ => true
  end.

(** The events after those of [st] in [st']. *)
Definition events_since (st st' : State) (evs : list Event) : Prop :=
  trace st' = trace st ++ evs.

(** [time.sleep] accepts the duration: a negative one is a [ValueError]. *)
Definition sleep_accepted (e : Event) : Prop :=
  match e with
  | EvSleep d => (0 < d)%Q
  | _ => True
  end.

(** Between [st] and [st'] every [time.sleep] got a positive duration. *)
Definition sleeps_accepted (st st' : State) : Prop :=
  exists evs, events_since st st' evs /\ Forall sleep_accepted evs.

(** A record whose detailed entry prints without a [TypeError]. *)
Definition prints_in_detail (r : AnalysisRecord) : Prop := format_detail r = Ok tt.

(** At the end of a run that shows [top_n] records in detail: at most
    one CSV file was written, holding exactly the rows of the table shown; a
    file is written only by a run that ends normally, can write, and found
    records whose first [top_n] print in detail and whose market caps are
    numbers; such a run does write the file; and a run that ends on an
    exception writes none. *)
Definition saves_what_it_shows (top_n : nat) (writable : bool)
    (res : result unit) (st : State) : Prop :=
  let shown := printed_rows (trace st) in
  let saved := saved_files (trace st) in
  (saved = [] \/ saved = [shown])
  /\ (saved <> [] ->
      res = Ok tt /\ writable = true /\ shown <> []
      /\ Forall prints_in_detail (firstn top_n shown)
      /\ Forall (fun r => market_cap r <> PyNone) shown)
  /\ (res = Ok tt -> writable = true -> shown <> [] -> saved = [shown])
  /\ (forall m, res = Raise m -> saved = []).

(** ** [SP500Analyzer.get_sp500_tickers] and [sp500-analysis.py]'s [main] *)

Module SP500Tickers.

(** A cell of the [Symbol] column as [tolist()] gives it: a [str], or the
    float nan that stands for a missing value. *)
Inductive Cell :=
| Text (s : string)
| Missing.

(** [[ticker.replace('.', '-') for ticker in tickers if ticker]]: the
    empty string is skipped; nan is true and has no [replace]. *)
Fixpoint clean_symbols (tickers : list Cell) : result (list string) :=
  match tickers with
  | [] => Ok []
  | Text s :: rest =>
      if Py.is_empty s then clean_symbols rest
      else match clean_symbols rest with
           | Ok l => Ok (Py.replace_char "." "-" s :: l)
           | Raise m => Raise m
           end
  | Missing :: _ => Raise "'float' object has no attribute 'replace'"
  end.

Section Scrape.
(** [pd.read_html(url)[0]['Symbol'].tolist()] at each attempt. *)
Variable symbol_column : nat -> result (list Cell).

(** The inner [try] block. *)
Definition fetch_symbols (attempt : nat) : result (list string) :=
  match symbol_column attempt with
  | Raise m => Raise m
  | Ok cells => clean_symbols cells
  end.

(** The [for attempt in range(3)] loop inside the outer [try], whose
    handler turns the exception re-raised at the last attempt into [None]. *)
Fixpoint scrape_attempts (remaining attempt : nat) (st : State)
  : option (list string) * State :=
  match remaining with
  | O => (None, st)
  | S remaining' =>
      match fetch_symbols attempt with
      | Ok tickers => (Some tickers, st)
      | Raise _ =>
          if (attempt <? 2)%nat
          then scrape_attempts remaining' (S attempt) (sleep 2 st)
          else (None, st)
      end
  end.

Definition get_sp500_tickers (st : State) : option (list string) * State :=
  scrape_attempts 3 0 st.

Context {libs : Libs}.
Variable w : World.

(** [main()]: [SP500Analyzer(drop_threshold=-1.0, max_workers=10)], then
    [analyze_sp500_stocks()], which starts with [get_sp500_tickers()]. *)
Definition main (writable : bool) (now : Q) : State :=
  let '(tickers, st) := get_sp500_tickers (initial_state now) in
  match SP500.analyze_sp500_stocks w (-1)%float writable tickers st with
  | (Ok _, st) => st
  | (Raise m, st) => emit (EvUnexpectedError m) st
  end.

End Scrape.
End SP500Tickers.

(** ** [get_last_trading_day] (the same code in both analyzers) *)

Module Calendar.

(** A [datetime]: the proleptic Gregorian ordinal of its date (day 1 is
    0001-01-01, a Monday) and the time of day in microseconds. *)
Record datetime := {
  toordinal : Z;
  microsecond_of_day : Z
}.

(** [date.max.toordinal()], 9999-12-31 *)
Definition max_ordinal : Z := 3652059.

(** [d.weekday()]: Monday is 0 and Sunday is 6. *)
Definition weekday (d : datetime) : Z := ((toordinal d + 6) mod 7)%Z.

(** [d - timedelta(days=n)]: [OverflowError] outside the years 1 to 9999. *)
Definition minus_days (d : datetime) (n : Z) : result datetime :=
  let o := (toordinal d - n)%Z in
  if (o <? 1)%Z || (max_ordinal <? o)%Z then Raise "date value out of range"
  else Ok {| toordinal := o; microsecond_of_day := microsecond_of_day d |}.

(** [get_last_trading_day()], [today] being [datetime.now()]. *)
Definition get_last_trading_day (today : datetime) : result datetime :=
  if (weekday today =? 0)%Z then minus_days today 3
  else if (weekday today =? 6)%Z then minus_days today 2
  else minus_days today 1.

End Calendar.

(** ** [run_analysis.py] *)

Module RunAnalysis.

(** What [input()] gives: a line, or a [KeyboardInterrupt]. *)
Inductive Input :=
| Line (s : string)
| Interrupt.

(** What the script prints and starts, in order. *)
Inductive Output :=
| Title                               (* the two title lines *)
| Running (preset : string)           (* "Running analysis with '..' preset..." *)
| Subprocess (argv : list string)     (* subprocess.run([sys.executable] + argv) *)
| Help                                (* print_help() *)
| UnknownPreset (preset : string)     (* "Unknown preset: .." *)
| Menu                                (* the seven lines of the menu *)
| Starting (preset : string)          (* the three lines at the head of run_analysis *)
| ConfigInfo                          (* print_config_info() *)
| Exiting                             (* "Exiting..." *)
| InvalidChoice.                      (* "Invalid choice. Please enter 1-6." *)

Definition script : string := "fortune5000-analysis.py".

(** [run_analysis(preset)], the child running to its end. *)
Definition run_analysis (preset : string) : list Output :=
  [Starting preset; Subprocess [script; preset]].

(** The [while True] loop of the interactive mode. At the end of the
    input [input()] raises [EOFError], which the loop does not catch. *)
Fixpoint interactive (inputs : list Input) : list Output * result unit :=
  match inputs with
  | [] => ([], Raise "EOF when reading a line")
  | Interrupt :: _ => ([Exiting], Ok tt)
  | Line s :: rest =>
      let choice := Py.strip s in
      if String.eqb choice "1" then (run_analysis "aggressive", Ok tt)
      else if String.eqb choice "2" then (run_analysis "balanced", Ok tt)
      else if String.eqb choice "3" then (run_analysis "conservative", Ok tt)
      else if String.eqb choice "4" then (run_analysis "ultra_conservative", Ok tt)
      else if String.eqb choice "5" then
        let '(out, r) := interactive rest in (ConfigInfo :: out, r)
      else if String.eqb choice "6" then ([Exiting], Ok tt)
      else let '(out, r) := interactive rest in (InvalidChoice :: out, r)
  end.

(** [main()], from [sys.argv] and the lines typed. *)
Definition main (argv : list string) (inputs : list Input)
  : list Output * result unit :=
  match argv with
  | _ :: arg :: _ =>
      let preset := Py.lower arg in
      match Config.PRESETS !! preset with
      | Some _ => ([Title; Running preset; Subprocess [script; preset]], Ok tt)
      | None =>
          if existsb (String.eqb preset) ["help"; "-h"; "--help"]
          then ([Title; Help], Ok tt)
          else ([Title; UnknownPreset preset; Help], Ok tt)
      end
  | _ =>
      let '(out, r) := interactive inputs in (Title :: Menu :: out, r)
  end.

(** The command lines of the children started. *)
Fixpoint subprocesses (out : list Output) : list (list string) :=
  match out with
  | [] => []
  | Subprocess argv :: rest => argv :: subprocesses rest
  | _ :: rest => subprocesses rest
  end.

End RunAnalysis.

(** ** [comparison-analysis.py]: market-cap bands *)

Module Comparison.

(** [categorize_market_cap(market_cap)] *)
Definition categorize_market_cap (market_cap : float) : string :=
  if PrimFloat.leb 200000000000 market_cap then "Mega Cap (>$200B)"
  else if PrimFloat.leb 10000000000 market_cap then "Large Cap ($10B-$200B)"
  else if PrimFloat.leb 2000000000 market_cap then "Mid Cap ($2B-$10B)"
  else "Small Cap (<$2B)".

(** [data['market_cap'].apply(categorize_market_cap).value_counts()[category]] *)
Definition category_count (category : string) (market_caps : list float) : nat :=
  length (List.filter (fun c => String.eqb (categorize_market_cap c) category)
            market_caps).

(** [len(data[data['market_cap'] >= 10e9])] *)
Definition large_cap_count (market_caps : list float) : nat :=
  length (List.filter (fun c => PrimFloat.leb 10000000000 c) market_caps).

(** [len(data[(data['market_cap'] >= 2e9) & (data['market_cap'] < 10e9)])] *)
Definition mid_cap_count (market_caps : list float) : nat :=
  length (List.filter (fun c => PrimFloat.leb 2000000000 c
                                && PrimFloat.ltb c 10000000000) market_caps).

End Comparison.

(** ** Concrete inputs *)

Module Examples.

Definition bar (close vol : float) : Bar :=
  {| bar_open := close; bar_high := close; bar_low := close;
     bar_close := close; bar_volume := vol |}.

Definition no_info : Info := {| info_text := ∅; info_num := ∅ |}.

(** A provider that serves the same window and attributes for every
    symbol, answers in 0.1 s, with [random.random()] constantly 0.5 and a
    pool that completes tickers in submission order. *)
Definition serving (hist : History) (i : Info) : World :=
  {| history := fun _ _ => Ok hist;
     info := fun _ _ => Ok i;
     news := fun _ _ => Ok [];
     elapsed := fun _ => (1 # 10)%Q;
     random := fun _ => (1 # 2)%Q;
     schedule := fun l => l |}.

(** A provider that refuses every call with a rate-limit error. *)
Definition refusing : World :=
  {| history := fun _ _ => Raise "429 Client Error: Too Many Requests";
     info := fun _ _ => Raise "429 Client Error: Too Many Requests";
     news := fun _ _ => Raise "429 Client Error: Too Many Requests";
     elapsed := fun _ => (1 # 10)%Q;
     random := fun _ => (1 # 2)%Q;
     schedule := fun l => l |}.

(** A provider whose calls fail for the symbols of [broken] with an
    error that is not a rate limit, and that serves [hist] otherwise. *)
Definition flaky (broken : list string) (hist : History) : World :=
  {| history := fun sym _ =>
       if existsb (String.eqb sym) broken
       then Raise "401 Client Error: Unauthorized" else Ok hist;
     info := fun _ _ => Ok no_info;
     news := fun _ _ => Ok [];
     elapsed := fun _ => (1 # 10)%Q;
     random := fun _ => (1 # 2)%Q;
     schedule := fun l => rev l |}.

Definition drop_12 : History := [bar 100 1000; bar 88 2000].
Definition drop_half : History := [bar 100 1000; bar 99.5 2000].

(** Fourteen daily bars, closes 100, 101, ..., 112, then 99. *)
Definition fourteen_bars : History :=
  [bar 100 1000; bar 101 1000; bar 102 1000; bar 103 1000; bar 104 1000;
   bar 105 1000; bar 106 1000; bar 107 1000; bar 108 1000; bar 109 1000;
   bar 110 1000; bar 111 1000; bar 112 1000; bar 99 3000].

Definition balanced_analyzer : Analyzer := new_analyzer (-1)%float "balanced".

(** Two workers of one pool. The first call starts at time 1000 and takes
    0.1 s. Both workers then enter the throttle while [last_request_time] is
    still 1000: each draws a delay of 1.25 s and goes to sleep for 1.15 s;
    when they wake, each writes the clock to [last_request_time] and starts
    its call. *)
Definition overlapping_workers : list Pool.Action :=
  [Pool.Begin 0; Pool.Stamp 0; Pool.Tick (1 # 10);
   Pool.Begin 1; Pool.Begin 0; Pool.Tick (23 # 20);
   Pool.Wake 1; Pool.Wake 0; Pool.Stamp 1; Pool.Stamp 0].

Definition numbers (l : list (string * float)) : Info :=
  {| info_text := ∅;
     info_num := list_to_map (map (fun '(k, x) => (k, PyFloat x)) l) |}.

(** No debt, an equity of 100 and no dividend. *)
Definition debt_free : Info :=
  numbers [("totalDebt", 0%float); ("totalStockholderEquity", 100%float);
           ("dividendYield", 0%float); ("freeCashflow", 0%float)].

(** A debt of 50 for an equity of 200, a yield of 0.5 (50 %). *)
Definition indebted : Info :=
  numbers [("totalDebt", 50%float); ("totalStockholderEquity", 200%float);
           ("dividendYield", 0.5%float); ("freeCashflow", 1234.5%float)].

Definition eleven_tickers : list string :=
  ["A"; "B"; "C"; "D"; "E"; "F"; "G"; "H"; "I"; "J"; "K"].

Definition t0 : Q := 1000%Q.

End Examples.

(** ** More concrete inputs *)

Module Scenarios.

(** A provider that refuses the first [n] attempts of every call with a
    rate-limit error and serves [hist] from then on. *)
Definition recovering (n : nat) (hist : History) : World :=
  {| history := fun _ attempt =>
       if (attempt <? n)%nat
       then Raise "429 Client Error: Too Many Requests" else Ok hist;
     info := fun _ _ => Ok Examples.no_info;
     news := fun _ _ => Ok [];
     elapsed := fun _ => (1 # 10)%Q;
     random := fun _ => (1 # 2)%Q;
     schedule := fun l => l |}.

(** The last close is missing. *)
Definition nan_close : History := [Examples.bar 100 1000; Examples.bar nan 2000].

Definition headline (s : string) : NewsItem :=
  {| title := s; link := ""; publisher := "Unknown"; published := "Unknown" |}.

(** A provider with five news items for every symbol. *)
Definition newsy (hist : History) : World :=
  {| history := fun _ _ => Ok hist;
     info := fun _ _ => Ok Examples.no_info;
     news := fun _ _ => Ok [headline "a"; headline "b"; headline "c";
                            headline "d"; headline "e"];
     elapsed := fun _ => (1 # 10)%Q;
     random := fun _ => (1 # 2)%Q;
     schedule := fun l => l |}.

Definition conservative_analyzer : Analyzer := new_analyzer (-1)%float "conservative".

(** Attributes of a company with a name and a sector but no market data. *)
Definition named : Info :=
  {| info_text := {["longName" := "Apple Inc."; "sector" := "Technology"]};
     info_num := ∅ |}.

(** The Wikipedia table is unreachable twice, then read. *)
Definition third_time_lucky (attempt : nat) : result (list SP500Tickers.Cell) :=
  if (attempt <? 2)%nat then Raise "HTTP Error 503"
  else Ok [SP500Tickers.Text "MMM"; SP500Tickers.Text "BRK.B"; SP500Tickers.Text ""].

(** Three bars, the last close half the one before. *)
Definition steep : History :=
  [Examples.bar 120 1000; Examples.bar 100 1000; Examples.bar 50 3000].

(** A provider with a window of two bars for AAPL and of three bars, with
    other attributes, for every other symbol. *)
Definition two_windows : World :=
  {| history := fun sym _ =>
       if String.eqb sym "AAPL" then Ok Examples.drop_12 else Ok steep;
     info := fun sym _ =>
       if String.eqb sym "AAPL" then Ok Examples.no_info else Ok named;
     news := fun _ _ => Ok [];
     elapsed := fun _ => (1 # 10)%Q;
     random := fun _ => (1 # 2)%Q;
     schedule := fun l => l |}.

(** Wednesday 2026-11-04, 09:30. *)
Definition a_wednesday : Calendar.datetime :=
  {| Calendar.toordinal := 739924; Calendar.microsecond_of_day := 34200000000 |}.

End Scenarios.


(** * Properties *)

(** ** Order of binary64 numbers

    [<=] and [<] on floats, from the specification of the primitive
    operations: a total preorder on the numbers that are not nan. *)

Module FloatOrder.

Ltac compare_cases :=
  repeat match goal with
  | H : context [Z.compare ?a ?b] |- _ =>
      destruct (Z.compare_spec a b); simpl in H
  | |- context [Z.compare ?a ?b] =>
      destruct (Z.compare_spec a b); simpl
  | H : context [Pos.compare_cont Eq ?a ?b] |- _ =>
      change (Pos.compare_cont Eq a b) with (Pos.compare a b) in H;
      destruct (Pos.compare_spec a b); simpl in H
  | |- context [Pos.compare_cont Eq ?a ?b] =>
      change (Pos.compare_cont Eq a b) with (Pos.compare a b);
      destruct (Pos.compare_spec a b); simpl
  end;
  subst; try reflexivity; try discriminate; try lia.

Lemma SFleb_trans (x y z : spec_float) :
  SFleb x y = true -> SFleb y z = true -> SFleb x z = true.
Proof.
  unfold SFleb, SFcompare.
  destruct x as [[]|[]| |[] mx ex], y as [[]|[]| |[] my ey], z as [[]|[]| |[] mz ez];
    intros H1 H2; try reflexivity; try discriminate; compare_cases.
Qed.

Lemma SFleb_total (x y : spec_float) :
  x <> S754_nan -> y <> S754_nan -> SFltb y x = false -> SFleb x y = true.
Proof.
  unfold SFleb, SFltb, SFcompare.
  destruct x as [[]|[]| |[] mx ex], y as [[]|[]| |[] my ey];
    intros Hx Hy H; try reflexivity; try discriminate; try congruence;
    compare_cases.
Qed.

Lemma SFleb_not_nan (x y : spec_float) :
  SFleb x y = true -> x <> S754_nan /\ y <> S754_nan.
Proof.
  unfold SFleb, SFcompare.
  destruct x as [[]|[]| |[] mx ex], y as [[]|[]| |[] my ey];
    intros H; try discriminate; split; discriminate.
Qed.

Lemma SFeqb_refl (x : spec_float) : x <> S754_nan -> SFeqb x x = true.
Proof.
  unfold SFeqb, SFcompare.
  destruct x as [[]|[]| |[] mx ex]; intros Hx; try reflexivity; try congruence;
    rewrite Z.compare_refl; change (Pos.compare_cont Eq mx mx) with (Pos.compare mx mx);
    rewrite Pos.compare_refl; reflexivity.
Qed.

Lemma SFeqb_nan_l (y : spec_float) : SFeqb S754_nan y = false.
Proof. reflexivity. Qed.

Lemma SFleb_refl (x : spec_float) : x <> S754_nan -> SFleb x x = true.
Proof.
  intros Hx. apply SFleb_total; auto.
  unfold SFltb. generalize (SFeqb_refl x Hx). unfold SFeqb.
  destruct (SFcompare x x) as [[]|]; congruence.
Qed.

(** On primitive floats. *)

Lemma is_nan_spec (x : float) : PrimFloat.is_nan x = true <-> Prim2SF x = S754_nan.
Proof.
  unfold PrimFloat.is_nan. rewrite FloatAxioms.eqb_spec. split.
  - intros H. destruct (Prim2SF x) eqn:E; try reflexivity;
      rewrite SFeqb_refl in H; try discriminate; congruence.
  - intros ->. reflexivity.
Qed.

Lemma not_nan_spec (x : float) : PrimFloat.is_nan x = false <-> Prim2SF x <> S754_nan.
Proof.
  rewrite <- is_nan_spec. destruct (PrimFloat.is_nan x); split; congruence.
Qed.

Lemma leb_trans (x y z : float) :
  PrimFloat.leb x y = true -> PrimFloat.leb y z = true -> PrimFloat.leb x z = true.
Proof. rewrite !FloatAxioms.leb_spec. apply SFleb_trans. Qed.

Lemma leb_not_nan (x y : float) :
  PrimFloat.leb x y = true ->
  PrimFloat.is_nan x = false /\ PrimFloat.is_nan y = false.
Proof. rewrite FloatAxioms.leb_spec, !not_nan_spec. apply SFleb_not_nan. Qed.

Lemma leb_total (x y : float) :
  PrimFloat.is_nan x = false -> PrimFloat.is_nan y = false ->
  PrimFloat.ltb y x = false -> PrimFloat.leb x y = true.
Proof. rewrite FloatAxioms.leb_spec, FloatAxioms.ltb_spec, !not_nan_spec. apply SFleb_total. Qed.

Lemma leb_refl (x : float) : PrimFloat.is_nan x = false -> PrimFloat.leb x x = true.
Proof. rewrite FloatAxioms.leb_spec, not_nan_spec. apply SFleb_refl. Qed.

Lemma ltb_leb (x y : float) : PrimFloat.ltb x y = true -> PrimFloat.leb x y = true.
Proof.
  rewrite FloatAxioms.leb_spec, FloatAxioms.ltb_spec. unfold SFltb, SFleb.
  destruct (SFcompare _ _) as [[]|]; congruence.
Qed.

End FloatOrder.

(** ** Presets *)

Lemma PRESETS_unknown (preset : string) :
  ~ In preset valid_presets -> Config.PRESETS !! preset = None.
Proof.
  intros Hn. unfold Config.PRESETS.
  rewrite !lookup_insert_ne; [apply lookup_empty | | | |];
    intros <-; apply Hn; simpl; tauto.
Qed.

Lemma PRESETS_known (preset : string) :
  In preset valid_presets -> is_Some (Config.PRESETS !! preset).
Proof.
  simpl. intros [<- | [<- | [<- | [<- | []]]]]; vm_compute; eauto.
Qed.

(** C10: for a preset name outside the four known ones, [get_config] raises
    nothing and returns the [balanced] configuration, so an analyzer built
    with such a name (by a caller that skips the validation of [main]) runs
    with the balanced parameters. *)
Theorem get_config_unknown_is_balanced (preset : string) :
  ~ In preset valid_presets ->
  Config.get_config preset = Config.balanced
  /\ forall threshold : float,
       let a := new_analyzer threshold preset in
       max_workers a = 3 /\ batch_size a = 50
       /\ delay_range a = ((1 # 2)%Q, 2%Q) /\ inter_batch_delay a = (2%Q, 5%Q)
       /\ rate_limit_preset a = preset.
Proof.
  intros Hn.
  assert (Hc : Config.get_config preset = Config.balanced).
  { unfold Config.get_config. now rewrite PRESETS_unknown. }
  split; [exact Hc |].
  intros threshold a. subst a. unfold new_analyzer. rewrite Hc. simpl. tauto.
Qed.

Lemma get_config_unknown_is_balanced_witness :
  ~ In "turbo" valid_presets
  /\ Config.get_config "turbo" = Config.balanced.
Proof.
  assert (H : ~ In "turbo" valid_presets).
  { simpl. intros [H | [H | [H | [H | []]]]]; discriminate H. }
  split; [exact H |].
  exact (proj1 (get_config_unknown_is_balanced "turbo" H)).
Defined.

(** ** Series indexing *)

Lemma iloc_neg_nth (k : nat) (xs : list float) (x : float) :
  (1 <= k)%nat -> (k <= length xs)%nat ->
  nth_error xs (length xs - k) = Some x -> iloc_neg k xs = Ok x.
Proof.
  intros Hk Hl Hx. unfold iloc_neg.
  destruct (Nat.eqb_spec k 0) as [-> | _]; [lia |].
  destruct (Nat.ltb_spec (length xs) k) as [? | _]; [lia |].
  simpl. now rewrite Hx.
Qed.

Lemma iloc_neg_defined (k : nat) (xs : list float) :
  (1 <= k)%nat -> (k <= length xs)%nat -> exists x, iloc_neg k xs = Ok x.
Proof.
  intros Hk Hl.
  destruct (nth_error xs (length xs - k)) as [x |] eqn:E.
  - exists x. now apply iloc_neg_nth.
  - apply nth_error_None in E. lia.
Qed.

Lemma iloc_neg_inv (k : nat) (xs : list float) (x : float) :
  iloc_neg k xs = Ok x ->
  (1 <= k <= length xs)%nat /\ nth_error xs (length xs - k) = Some x.
Proof.
  unfold iloc_neg.
  destruct (Nat.eqb_spec k 0); [discriminate |].
  destruct (Nat.ltb_spec (length xs) k); [discriminate |]. simpl.
  destruct (nth_error xs (length xs - k)); [| discriminate].
  intros [= <-]. split; [lia | reflexivity].
Qed.

Lemma closes_length (hist : History) : length (closes hist) = length hist.
Proof. apply length_map. Qed.

Lemma volumes_length (hist : History) : length (volumes hist) = length hist.
Proof. apply length_map. Qed.

(** ** The wrapper when the first attempt succeeds *)

Section FirstAttempt.
Context {libs : Libs}.
Variables (w : World) (self : Analyzer).

Lemma rate_limited_request_first {A} (func : nat -> result (option A))
    (v : option A) (st : State) :
  func 0 = Ok v ->
  rate_limited_request w self func st = (Ok v, before_call w self st).
Proof.
  intros Hf. unfold rate_limited_request, Config.max_retries.
  cbn [attempts]. now rewrite Hf.
Qed.

Lemma fetch_stock_data_served (sym : string) (hist : History) (i : Info) :
  history w sym 0 = Ok hist -> info w sym 0 = Ok i ->
  (2 <= length hist)%nat ->
  fetch_stock_data w sym 0 = Ok (Some (hist, i)).
Proof.
  intros Hh Hi Hl. unfold fetch_stock_data. rewrite Hh, Hi.
  destruct (Nat.eqb_spec (length hist) 0); [lia |].
  destruct (Nat.ltb_spec (length hist) 2); [lia |]. reflexivity.
Qed.

Lemma fetch_stock_data_short (sym : string) (hist : History) :
  history w sym 0 = Ok hist -> (length hist < 2)%nat ->
  fetch_stock_data w sym 0 = Ok None.
Proof.
  intros Hh Hl. unfold fetch_stock_data. rewrite Hh.
  destruct (Nat.eqb_spec (length hist) 0); [reflexivity |].
  destruct (Nat.ltb_spec (length hist) 2); [reflexivity | lia].
Qed.

Lemma build_record_defined (sym : string) (hist : History) (i : Info)
    (prev cur pc : float) :
  (1 <= length hist)%nat ->
  exists r, build_record sym hist i prev cur pc = Ok r
            /\ percent_change r = pc /\ current_price r = cur
            /\ previous_close r = prev /\ symbol r = sym
            /\ technical r = calculate_technical_indicators hist
            /\ fundamental r = calculate_fundamental_ratios i.
Proof.
  intros Hl. unfold build_record.
  destruct (iloc_neg_defined 1 (volumes hist)) as [v Hv];
    [lia | rewrite volumes_length; lia |].
  rewrite Hv. eexists. split; [reflexivity |]. simpl. tauto.
Qed.

(** The analysis of a served window with its last two closes. *)
Lemma analyze_window_spec (sym : string) (hist : History) (i : Info)
    (prev cur : float) :
  (2 <= length hist)%nat ->
  nth_error (closes hist) (length hist - 2) = Some prev ->
  nth_error (closes hist) (length hist - 1) = Some cur ->
  let pc := pct_change cur prev in
  (PrimFloat.leb pc (drop_threshold self) = true ->
     exists r, analyze_window self sym hist i = Ok (Some r)
               /\ percent_change r = pc
               /\ technical r = calculate_technical_indicators hist
               /\ fundamental r = calculate_fundamental_ratios i)
  /\ (PrimFloat.leb pc (drop_threshold self) = false ->
        analyze_window self sym hist i = Ok None).
Proof.
  intros Hl Hp Hc pc. unfold analyze_window.
  rewrite (iloc_neg_nth 2 (closes hist) prev), (iloc_neg_nth 1 (closes hist) cur);
    rewrite ?closes_length; try lia; try assumption.
  fold pc. split; intros Hle; rewrite Hle; [| reflexivity].
  destruct (build_record_defined sym hist i prev cur pc) as (r & Hr & Hpc & _ & _ & _ & Ht & Hf);
    [lia |].
  rewrite Hr. exists r. auto.
Qed.

End FirstAttempt.

(** ** Threshold rule *)

Section Threshold.
Context {libs : Libs}.
Variables (w : World) (self : Analyzer).

Lemma analyze_single_stock_served (sym : string) (hist : History) (i : Info)
    (st : State) :
  history w sym 0 = Ok hist -> info w sym 0 = Ok i ->
  (2 <= length hist)%nat ->
  exists st',
    analyze_single_stock w self sym st
    = match analyze_window self sym hist i with
      | Ok r => (r, st')
      | Raise msg => (None, on_error sym msg st')
      end.
Proof.
  intros Hh Hi Hl. unfold analyze_single_stock.
  rewrite (rate_limited_request_first w self _ (Some (hist, i)));
    [| now apply fetch_stock_data_served].
  eexists. reflexivity.
Qed.

Lemma threshold_rule (sym : string) (hist : History) (i : Info)
    (prev cur : float) (st : State) :
  history w sym 0 = Ok hist -> info w sym 0 = Ok i ->
  (2 <= length hist)%nat ->
  nth_error (closes hist) (length hist - 2) = Some prev ->
  nth_error (closes hist) (length hist - 1) = Some cur ->
  let pc := pct_change cur prev in
  let qualifies := PrimFloat.leb pc (drop_threshold self) in
  (is_Some (fst (analyze_single_stock w self sym st)) <-> qualifies = true)
  /\ (forall r, fst (analyze_single_stock w self sym st) = Some r ->
                percent_change r = pc)
  /\ (is_Some (SP500.analyze_single_stock w (drop_threshold self) sym)
      <-> qualifies = true)
  /\ (forall r, SP500.analyze_single_stock w (drop_threshold self) sym = Some r ->
                percent_change r = pc)
  /\ (pc = drop_threshold self -> PrimFloat.is_nan pc = false -> qualifies = true).
Proof.
  intros Hh Hi Hl Hp Hc pc qualifies.
  assert (Hb : pc = drop_threshold self -> PrimFloat.is_nan pc = false ->
               qualifies = true).
  { intros Heq Hnan. unfold qualifies. rewrite <- Heq.
    now apply FloatOrder.leb_refl. }
  destruct (analyze_window_spec self sym hist i prev cur Hl Hp Hc) as [Hyes Hno].
  fold pc in Hyes, Hno. fold qualifies in Hyes, Hno.
  destruct (analyze_single_stock_served sym hist i st Hh Hi Hl) as [st' Hrun].
  assert (Hsp : SP500.analyze_single_stock w (drop_threshold self) sym
                = match analyze_window self sym hist i with
                  | Ok r => r
                  | Raise _ => None
                  end).
  { unfold SP500.analyze_single_stock, SP500.analyze_body, analyze_window.
    rewrite Hh, Hi.
    destruct (Nat.eqb_spec (length hist) 0); [lia |].
    destruct (Nat.ltb_spec (length hist) 2); [lia |]. simpl.
    destruct (iloc_neg 2 (closes hist)); [| reflexivity].
    destruct (iloc_neg 1 (closes hist)); [| reflexivity].
    destruct (PrimFloat.leb _ _); reflexivity. }
  rewrite Hrun, Hsp.
  destruct qualifies eqn:Hq.
  - destruct (Hyes eq_refl) as (r & Hr & Hpc & _). rewrite Hr. simpl.
    repeat split; eauto; intros r' [= <-]; exact Hpc.
  - rewrite (Hno eq_refl). simpl.
    repeat split; try discriminate; try exact Hb;
      intros [r' Hr']; discriminate.
Qed.

End Threshold.

(** C1: for a served window of at least two bars, with [prev] and [cur] its
    last two closes, either analyzer produces a record exactly when
    [(cur - prev) / prev * 100 <= drop_threshold] (equality included, the
    test being [<=]), and the record carries that percent change. Closes 100
    then 88 under threshold -1.0 give a record with percent change -12.0;
    closes 100 then 99.5 give none. *)
Theorem threshold_correctness :
  (forall (libs : Libs) (w : World) (self : Analyzer) (sym : string)
          (hist : History) (i : Info) (prev cur : float) (st : State),
      history w sym 0 = Ok hist -> info w sym 0 = Ok i ->
      (2 <= length hist)%nat ->
      nth_error (closes hist) (length hist - 2) = Some prev ->
      nth_error (closes hist) (length hist - 1) = Some cur ->
      let pc := pct_change cur prev in
      let qualifies := PrimFloat.leb pc (drop_threshold self) in
      (is_Some (fst (analyze_single_stock w self sym st)) <-> qualifies = true)
      /\ (forall r, fst (analyze_single_stock w self sym st) = Some r ->
                    percent_change r = pc)
      /\ (is_Some (SP500.analyze_single_stock w (drop_threshold self) sym)
          <-> qualifies = true)
      /\ (forall r, SP500.analyze_single_stock w (drop_threshold self) sym = Some r ->
                    percent_change r = pc)
      /\ (pc = drop_threshold self -> PrimFloat.is_nan pc = false ->
          qualifies = true))
  /\ (let w := Examples.serving Examples.drop_12 Examples.no_info in
      option_map percent_change
        (fst (analyze_single_stock (libs := TaModel.libs) w Examples.balanced_analyzer
                "AAPL" (initial_state Examples.t0))) = Some (-12)%float
      /\ option_map percent_change
           (SP500.analyze_single_stock (libs := TaModel.libs) w (-1)%float "AAPL")
         = Some (-12)%float)
  /\ (let w := Examples.serving Examples.drop_half Examples.no_info in
      fst (analyze_single_stock (libs := TaModel.libs) w Examples.balanced_analyzer
             "AAPL" (initial_state Examples.t0)) = None
      /\ SP500.analyze_single_stock (libs := TaModel.libs) w (-1)%float "AAPL" = None
      /\ pct_change 99.5 100 = (-0.5)%float).
Proof.
  split.
  { intros libs w self sym hist i prev cur st Hh Hi Hl Hp Hc.
    exact (threshold_rule w self sym hist i prev cur st Hh Hi Hl Hp Hc). }
  split; [split; vm_compute; reflexivity |].
  repeat split; vm_compute; reflexivity.
Qed.

Lemma threshold_correctness_witness :
  let w := Examples.serving Examples.drop_12 Examples.no_info in
  let self := Examples.balanced_analyzer in
  let st := initial_state Examples.t0 in
  PrimFloat.leb (pct_change 88 100) (drop_threshold self) = true
  /\ is_Some (fst (analyze_single_stock (libs := TaModel.libs) w self "AAPL" st)).
Proof.
  intros w self st.
  assert (Hq : PrimFloat.leb (pct_change 88 100) (drop_threshold self) = true)
    by (vm_compute; reflexivity).
  split; [exact Hq |].
  apply (proj2 (proj1 (proj1 threshold_correctness TaModel.libs w self "AAPL"
                         Examples.drop_12 Examples.no_info 100%float 88%float st
                         eq_refl eq_refl (le_n 2) eq_refl eq_refl))).
  exact Hq.
Defined.

(** ** What the state-changing steps leave alone *)

Section Frames.
Variables (w : World) (self : Analyzer).

Lemma uniform_fields (range : Q * Q) (st : State) :
  let st' := snd (uniform w range st) in
  request_count st' = request_count st
  /\ last_request_time st' = last_request_time st
  /\ failed_requests st' = failed_requests st
  /\ clock st' = clock st
  /\ trace st' = trace st ++ [EvUniform (fst range) (snd range)
                                (fst (uniform w range st))].
Proof. destruct range as [lo hi]. simpl. tauto. Qed.

Lemma throttle_request_count (st : State) :
  request_count (throttle w self st) = S (request_count st).
Proof.
  unfold throttle, throttle_wait, uniform.
  destruct (delay_range self) as [lo hi]. destruct (Qltb _ _); reflexivity.
Qed.

Lemma throttle_failed_requests (st : State) :
  failed_requests (throttle w self st) = failed_requests st.
Proof.
  unfold throttle, throttle_wait, uniform.
  destruct (delay_range self) as [lo hi]. destruct (Qltb _ _); reflexivity.
Qed.

Lemma throttle_trace (st : State) :
  exists evs, trace (throttle w self st) = trace st ++ evs.
Proof.
  unfold throttle, throttle_wait, uniform.
  destruct (delay_range self) as [lo hi]. destruct (Qltb _ _); simpl;
    rewrite <- ?app_assoc; eexists; reflexivity.
Qed.

Lemma back_off_fields (attempt : nat) (st : State) :
  request_count (back_off w attempt st) = request_count st
  /\ last_request_time (back_off w attempt st) = last_request_time st
  /\ failed_requests (back_off w attempt st) = failed_requests st
  /\ exists evs, trace (back_off w attempt st) = trace st ++ evs.
Proof.
  unfold back_off. simpl. rewrite <- !app_assoc.
  split; [reflexivity |]. split; [reflexivity |]. split; [reflexivity |].
  eexists. reflexivity.
Qed.

Lemma before_call_fields (st : State) :
  request_count (before_call w self st) = S (request_count st)
  /\ failed_requests (before_call w self st) = failed_requests st
  /\ exists evs, trace (before_call w self st) = trace st ++ evs.
Proof.
  unfold before_call. simpl.
  rewrite throttle_request_count, throttle_failed_requests.
  split; [reflexivity |]. split; [reflexivity |]. apply throttle_trace.
Qed.

Lemma attempts_step {A} (func : nat -> result (option A))
    (remaining attempt : nat) (st : State) :
  attempts w self func (S remaining) attempt st
  = match func attempt with
    | Ok v => (Ok v, before_call w self st)
    | Raise msg =>
        if is_rate_limit_error msg
        then attempts w self func remaining (S attempt)
               (back_off w attempt (before_call w self st))
        else (Raise msg, before_call w self st)
    end.
Proof. reflexivity. Qed.

End Frames.

(** ** Exhausted retries *)

Section Exhaustion.
Context {libs : Libs}.
Variables (w : World) (self : Analyzer).

(** A wrapped call that meets a rate-limit error at every attempt: the
    loop runs all its iterations, each one counting a request, and ends
    on ["Failed after .. attempts"] with [None]. *)
Lemma attempts_all_rate_limited {A} (func : nat -> result (option A)) :
  (forall k, exists msg, func k = Raise msg /\ is_rate_limit_error msg = true) ->
  forall (remaining attempt : nat) (st : State),
    let '(r, st') := attempts w self func remaining attempt st in
    r = Ok None
    /\ request_count st' = request_count st + remaining
    /\ failed_requests st' = failed_requests st
    /\ exists evs, trace st' = trace st ++ evs ++ [EvFailedAfter Config.max_retries].
Proof.
  intros Hall remaining.
  induction remaining as [| n IH]; intros attempt st.
  - simpl. split; [reflexivity |]. split; [lia |]. split; [reflexivity |].
    exists []. reflexivity.
  - rewrite attempts_step.
    destruct (Hall attempt) as (msg & Hf & Hr). rewrite Hf, Hr.
    specialize (IH (S attempt) (back_off w attempt (before_call w self st))).
    destruct (attempts w self func n (S attempt) _) as [r st'].
    destruct IH as (Hr' & Hc & Hfl & evs & Ht).
    destruct (back_off_fields w attempt (before_call w self st))
      as (Hb1 & _ & Hb3 & evs1 & Hb4).
    destruct (before_call_fields w self st) as (Hc1 & Hc2 & evs0 & Hc3).
    split; [exact Hr' |]. split; [lia |]. split; [congruence |].
    exists (evs0 ++ evs1 ++ evs). rewrite Ht, Hb4, Hc3, <- !app_assoc. reflexivity.
Qed.

Lemma fetch_stock_data_refused (sym : string) :
  (forall k, exists msg, history w sym k = Raise msg
                         /\ is_rate_limit_error msg = true) ->
  forall k, exists msg, fetch_stock_data w sym k = Raise msg
                        /\ is_rate_limit_error msg = true.
Proof.
  intros H k. destruct (H k) as (msg & Hh & Hr). exists msg.
  unfold fetch_stock_data. now rewrite Hh.
Qed.

End Exhaustion.

(** C2 (what the code does): when every attempt of the provider call for
    a symbol meets a rate-limit error, the call is attempted exactly
    [max_retries] times, [analyze_single_stock] returns [None] without
    raising and the symbol gives no record; but [failed_requests] is left
    as it was, so the symbol is not in the failure list and the run of
    [Examples.refusing] ends without a failure report. *)
Theorem rate_limit_exhaustion_is_not_recorded
    (libs : Libs) (w : World) (self : Analyzer) (sym : string) (st : State) :
  (forall k, exists msg, history w sym k = Raise msg
                         /\ is_rate_limit_error msg = true) ->
  let '(r, st') := analyze_single_stock w self sym st in
  r = None
  /\ request_count st' = request_count st + Config.max_retries
  /\ (exists evs, trace st' = trace st ++ evs ++ [EvFailedAfter Config.max_retries])
  /\ failed_requests st' = failed_requests st.
Proof.
  intros Hall. unfold analyze_single_stock, rate_limited_request.
  pose proof (attempts_all_rate_limited w self (fetch_stock_data w sym)
                (fetch_stock_data_refused w sym Hall) Config.max_retries 0 st) as H.
  destruct (attempts w self (fetch_stock_data w sym) Config.max_retries 0 st)
    as [r st'].
  destruct H as (-> & Hc & Hf & Ht). auto.
Qed.

Lemma rate_limit_exhaustion_is_not_recorded_witness :
  let st' := snd (analyze_single_stock (libs := TaModel.libs) Examples.refusing
                    Examples.balanced_analyzer "AAPL" (initial_state Examples.t0)) in
  (forall k : nat, exists msg,
      history Examples.refusing "AAPL" k = Raise msg
      /\ is_rate_limit_error msg = true)
  /\ request_count st' = 3 /\ failed_requests st' = [].
Proof.
  assert (H : forall k : nat, exists msg,
             history Examples.refusing "AAPL" k = Raise msg
             /\ is_rate_limit_error msg = true).
  { intros k. eexists. split; reflexivity. }
  pose proof (rate_limit_exhaustion_is_not_recorded TaModel.libs Examples.refusing
                Examples.balanced_analyzer "AAPL" (initial_state Examples.t0) H) as R.
  destruct (analyze_single_stock Examples.refusing Examples.balanced_analyzer
              "AAPL" (initial_state Examples.t0)) as [r st'].
  destruct R as (_ & Hc & _ & Hf). simpl. auto.
Defined.

(** The whole run on a refusing provider: six requests for two symbols, an
    empty failure list, and a trace that ends on "no drops" with no
    failure report. *)
Lemma refused_run_reports_no_failure :
  let st := snd (analyze_us_stocks (libs := TaModel.libs) Examples.refusing
                   Examples.balanced_analyzer true (Ok ["AAPL"; "MSFT"])
                   (initial_state Examples.t0)) in
  failed_requests st = [] /\ request_count st = 6
  /\ skipn 30 (trace st) = [EvSleep (9 # 2); EvFailedAfter 3; EvNoDrops].
Proof. vm_compute. auto. Qed.

(** ** Pause between batches *)

Lemma inter_batch_pause_spec (w : World) (current_batch total_batches : nat)
    (st : State) :
  let v := fst (uniform w (2, 5)%Q st) in
  ((current_batch < total_batches)%nat ->
     trace (inter_batch_pause w current_batch total_batches st)
     = trace st ++ [EvUniform 2 5 v; EvSleep v]
     /\ clock (inter_batch_pause w current_batch total_batches st)
        = qplus (clock st) v)
  /\ ((total_batches <= current_batch)%nat ->
        inter_batch_pause w current_batch total_batches st = st).
Proof.
  unfold inter_batch_pause. split; intros H.
  - destruct (Nat.ltb_spec current_batch total_batches); [| lia].
    simpl. rewrite <- app_assoc. auto.
  - destruct (Nat.ltb_spec current_batch total_batches); [lia | reflexivity].
Qed.

(** C3 (what the code does): the pause between two batches is drawn from
    the fixed range (2.0, 5.0) whatever the preset, and there is none after
    the last batch. With the preset [ultra_conservative], whose configured
    range is (10.0, 20.0), eleven tickers make two batches; every range
    passed to [random.uniform] is (2, 5), and the trace ends with the tenth
    request, the pause of 3.5 s, the eleventh request and the report. *)
Theorem inter_batch_pause_ignores_preset :
  (forall (w : World) (current_batch total_batches : nat) (st : State),
      let v := fst (uniform w (2, 5)%Q st) in
      ((current_batch < total_batches)%nat ->
         trace (inter_batch_pause w current_batch total_batches st)
         = trace st ++ [EvUniform 2 5 v; EvSleep v])
      /\ ((total_batches <= current_batch)%nat ->
            inter_batch_pause w current_batch total_batches st = st))
  /\ (let self := new_analyzer (-1)%float "ultra_conservative" in
      let st := snd (analyze_us_stocks (libs := TaModel.libs)
                       (Examples.serving [] Examples.no_info) self true
                       (Ok Examples.eleven_tickers) (initial_state Examples.t0)) in
      inter_batch_delay self = (10, 20)%Q
      /\ batch_size self = 10
      /\ uniform_ranges (trace st) = repeat (2, 5)%Q 12
      /\ length (request_times (trace st)) = 11
      /\ skipn 28 (trace st)
         = [EvRequest (2063 # 2);
            EvUniform 2 5 (7 # 2); EvSleep (7 # 2);
            EvUniform 2 5 (7 # 2); EvRequest 1035.1; EvNoDrops]).
Proof.
  split.
  - intros w current_batch total_batches st v.
    destruct (inter_batch_pause_spec w current_batch total_batches st) as [H1 H2].
    split; [intros H; apply (H1 H) | exact H2].
  - vm_compute. repeat split; reflexivity.
Qed.

(** ** Windows too short for a record or for the indicators *)

Lemma int_of_finite (x : float) :
  Py.isna x = false -> PrimFloat.is_infinity x = false ->
  exists z, Py.int x = Ok z.
Proof.
  unfold Py.isna, Py.int, PrimFloat.is_infinity. intros Hnan Hinf.
  rewrite FloatAxioms.eqb_spec, abs_spec in Hinf.
  apply FloatOrder.not_nan_spec in Hnan.
  destruct (Prim2SF x) as [s | s | | s m e]; eauto; [discriminate Hinf | congruence].
Qed.

Section ShortWindows.
Context {libs : Libs}.
Variables (w : World) (self : Analyzer).

(** A wrapped call that never returns data returns [None] or raises. *)
Lemma attempts_without_data {A} (func : nat -> result (option A)) :
  (forall k v, func k <> Ok (Some v)) ->
  forall (remaining attempt : nat) (st : State) (v : A),
    fst (attempts w self func remaining attempt st) <> Ok (Some v).
Proof.
  intros Hnone remaining.
  induction remaining as [| n IH]; intros attempt st v; [discriminate |].
  rewrite attempts_step.
  destruct (func attempt) as [[a |] | msg] eqn:E; simpl; try discriminate.
  - exfalso. exact (Hnone attempt a E).
  - destruct (is_rate_limit_error msg); [apply IH | discriminate].
Qed.

Lemma no_record_without_data (sym : string) (st : State) :
  (forall k hist, history w sym k = Ok hist -> (length hist < 2)%nat) ->
  fst (analyze_single_stock w self sym st) = None
  /\ SP500.analyze_single_stock w (drop_threshold self) sym = None.
Proof.
  intros Hshort. split.
  - assert (Hfunc : forall k v, fetch_stock_data w sym k <> Ok (Some v)).
    { intros k v. unfold fetch_stock_data.
      destruct (history w sym k) as [h | m] eqn:Eh; [| discriminate].
      pose proof (Hshort k h Eh).
      destruct (Nat.ltb_spec (length h) 2) as [_ | ?]; [| lia].
      rewrite orb_true_r. discriminate. }
    unfold analyze_single_stock, rate_limited_request.
    pose proof (attempts_without_data (fetch_stock_data w sym) Hfunc
                  Config.max_retries 0 st) as H.
    destruct (attempts w self (fetch_stock_data w sym) Config.max_retries 0 st)
      as [[[[hist i] |] | msg] st']; try reflexivity.
    exfalso. exact (H (hist, i) eq_refl).
  - unfold SP500.analyze_single_stock, SP500.analyze_body.
    destruct (history w sym 0) as [h | m] eqn:Eh; [| reflexivity].
    pose proof (Hshort 0 h Eh).
    destruct (Nat.ltb_spec (length h) 2) as [_ | ?]; [| lia].
    now rewrite orb_true_r.
Qed.

Lemma indicators_null_below_14 (hist : History) :
  (length hist < 14)%nat -> calculate_technical_indicators hist = null_indicators.
Proof.
  intros Hl. unfold calculate_technical_indicators, technical_indicators_body.
  destruct (Nat.ltb_spec (length hist) 14); [reflexivity | lia].
Qed.

(** From 14 bars on, every field is the rounded last value of the
    library's series, [None] replacing nan; an infinite last
    on-balance volume makes [int] raise and all fields [None]. *)
Lemma indicators_from_14 (hist : History)
    (sr sm ss sh so : list float) (vr vm vs vh vo : float) :
  (14 <= length hist)%nat ->
  ta_rsi (closes hist) 14 = Ok sr ->
  ta_macd (closes hist) = Ok (sm, ss, sh) ->
  ta_obv (closes hist) (volumes hist) = Ok so ->
  iloc_neg 1 sr = Ok vr -> iloc_neg 1 sm = Ok vm -> iloc_neg 1 ss = Ok vs ->
  iloc_neg 1 sh = Ok vh -> iloc_neg 1 so = Ok vo ->
  calculate_technical_indicators hist
  = match (if Py.isna vo then Ok None
           else match Py.int vo with
                | Ok z => Ok (Some z)
                | Raise m => Raise m
                end) with
    | Ok o => {| rsi := round_unless_na vr 2;
                 macd := round_unless_na vm 4;
                 macd_signal := round_unless_na vs 4;
                 macd_histogram := round_unless_na vh 4;
                 obv := o |}
    | Raise _ => null_indicators
    end.
Proof.
  intros Hl Hr Hm Ho Hvr Hvm Hvs Hvh Hvo.
  unfold calculate_technical_indicators, technical_indicators_body.
  destruct (Nat.ltb_spec (length hist) 14); [lia |].
  rewrite Hr, Hvr, Hm, Hvm, Hvs, Hvh, Ho, Hvo.
  destruct (Py.isna vo); [reflexivity |].
  destruct (Py.int vo); reflexivity.
Qed.

End ShortWindows.

Lemma round_unless_na_None (x : float) (n : nat) :
  round_unless_na x n = None <-> Py.isna x = true.
Proof. unfold round_unless_na. destruct (Py.isna x); split; congruence. Qed.

(** ** The warm-up of the averages in the model of [ta]

    An exponentially weighted mean with [min_periods] is nan until it has
    seen [min_periods] observations, whatever their values. *)

Lemma ewm_step_nobs (alpha : float) (s : TaModel.Ewm) (cur : float) :
  TaModel.nobs (TaModel.ewm_step alpha s cur)
  = (TaModel.nobs s + if TaModel.is_obs cur then 1 else 0)%nat.
Proof.
  unfold TaModel.ewm_step.
  destruct (TaModel.is_obs (TaModel.weighted s)), (TaModel.is_obs cur);
    cbn [TaModel.nobs]; lia.
Qed.

Lemma ewm_out_warmup (minp : nat) (s : TaModel.Ewm) :
  (TaModel.nobs s < minp)%nat -> TaModel.ewm_out minp s = nan.
Proof.
  intros H. unfold TaModel.ewm_out.
  destruct (Nat.leb_spec (Nat.max minp 1) (TaModel.nobs s)); [lia | reflexivity].
Qed.

Lemma ewm_run_warmup (alpha : float) (minp : nat) (xs : list float) :
  forall (s : TaModel.Ewm) (k : nat) (v : float),
    nth_error (TaModel.ewm_run alpha minp s xs) k = Some v ->
    (TaModel.nobs s + length (List.filter TaModel.is_obs (firstn (S k) xs))
     < minp)%nat ->
    v = nan.
Proof.
  induction xs as [| x r IH]; intros s k v Hn Hlt; [destruct k; discriminate Hn |].
  cbn [TaModel.ewm_run] in Hn. cbn [firstn List.filter] in Hlt.
  pose proof (ewm_step_nobs alpha s x) as Hs.
  destruct k as [| k]; cbn [nth_error] in Hn.
  - injection Hn as <-. apply ewm_out_warmup. rewrite Hs.
    destruct (TaModel.is_obs x); cbn [length] in Hlt; lia.
  - apply (IH _ k v Hn). rewrite Hs.
    destruct (TaModel.is_obs x); cbn [length] in Hlt; lia.
Qed.

Lemma ewm_mean_warmup (alpha : float) (minp : nat) (xs : list float)
    (k : nat) (v : float) :
  nth_error (TaModel.ewm_mean alpha minp xs) k = Some v ->
  (length (List.filter TaModel.is_obs (firstn (S k) xs)) < minp)%nat ->
  v = nan.
Proof.
  destruct xs as [| x r]; [destruct k; discriminate |].
  cbn [TaModel.ewm_mean firstn List.filter]. intros Hn Hlt.
  destruct k as [| k]; cbn [nth_error] in Hn.
  - injection Hn as <-. apply ewm_out_warmup. unfold TaModel.ewm_first.
    cbn [TaModel.nobs]. destruct (TaModel.is_obs x); cbn [length] in Hlt; lia.
  - apply (ewm_run_warmup alpha minp r _ k v Hn). unfold TaModel.ewm_first.
    cbn [TaModel.nobs]. destruct (TaModel.is_obs x); cbn [length] in Hlt; lia.
Qed.

Lemma length_ewm_run (alpha : float) (minp : nat) (xs : list float) :
  forall s, length (TaModel.ewm_run alpha minp s xs) = length xs.
Proof. induction xs as [| x r IH]; intros s; simpl; [| rewrite IH]; reflexivity. Qed.

Lemma length_ewm_mean (alpha : float) (minp : nat) (xs : list float) :
  length (TaModel.ewm_mean alpha minp xs) = length xs.
Proof. destruct xs; simpl; [| rewrite length_ewm_run]; reflexivity. Qed.

Lemma sub_nan_r (a : float) : PrimFloat.is_nan (a - nan) = true.
Proof.
  rewrite FloatOrder.is_nan_spec, sub_spec.
  change (Prim2SF nan) with S754_nan.
  destruct (Prim2SF a) as [s | s | | s m e]; reflexivity.
Qed.

Lemma nan_not_obs (v : float) :
  PrimFloat.is_nan v = true -> TaModel.is_obs v = false.
Proof.
  unfold PrimFloat.is_nan, TaModel.is_obs. now destruct (PrimFloat.eqb v v).
Qed.

Lemma nth_error_sub_series (xs ys : list float) (k : nat) (v : float) :
  nth_error (TaModel.sub_series xs ys) k = Some v ->
  exists a b, nth_error xs k = Some a /\ nth_error ys k = Some b
              /\ v = (a - b)%float.
Proof.
  unfold TaModel.sub_series. revert ys k.
  induction xs as [| x r IH]; intros [| y ys] [| k]; simpl; try discriminate.
  - intros [= <-]. eauto.
  - apply IH.
Qed.

Lemma length_sub_series (xs ys : list float) :
  length (TaModel.sub_series xs ys) = Nat.min (length xs) (length ys).
Proof. unfold TaModel.sub_series. now rewrite List.length_map, List.length_combine. Qed.

(** A series whose first [m] values are nan has at most [length - m]
    observations. *)
Lemma leading_nan_count (l : list float) :
  forall m,
    (forall k v, (k < m)%nat -> nth_error l k = Some v -> TaModel.is_obs v = false) ->
    (length (List.filter TaModel.is_obs l) <= length l - m)%nat.
Proof.
  induction l as [| x r IH]; intros m H; [simpl; lia |].
  destruct m as [| m].
  - rewrite Nat.sub_0_r. apply List.filter_length_le.
  - cbn [List.filter]. rewrite (H 0%nat x ltac:(lia) eq_refl).
    cbn [length]. rewrite Nat.sub_succ. apply IH.
    intros k v Hk Hv. apply (H (S k) v); [lia | exact Hv].
Qed.

Section MacdWarmup.
Variable close : list float.

(** The MACD line is nan at its first 25 places. *)
Lemma macd_line_warmup (k : nat) (v : float) :
  nth_error (TaModel.sub_series (TaModel.ema 12 close) (TaModel.ema 26 close)) k
  = Some v ->
  (k < 25)%nat -> PrimFloat.is_nan v = true.
Proof.
  intros Hn Hk. apply nth_error_sub_series in Hn as (a & b & _ & Hb & ->).
  unfold TaModel.ema in Hb. apply ewm_mean_warmup in Hb.
  - subst b. apply sub_nan_r.
  - pose proof (List.filter_length_le TaModel.is_obs (firstn (S k) close)).
    pose proof (List.firstn_le_length (S k) close). lia.
Qed.

Lemma macd_line_length :
  length (TaModel.sub_series (TaModel.ema 12 close) (TaModel.ema 26 close))
  = length close.
Proof.
  unfold TaModel.ema. rewrite length_sub_series, !length_ewm_mean. lia.
Qed.

(** The signal is nan at its first 33 places. *)
Lemma macd_signal_warmup (k : nat) (v : float) :
  nth_error
    (TaModel.ema 9
       (TaModel.sub_series (TaModel.ema 12 close) (TaModel.ema 26 close))) k
  = Some v ->
  (k < 33)%nat -> v = nan.
Proof.
  intros Hn Hk. unfold TaModel.ema at 1 in Hn.
  apply ewm_mean_warmup in Hn; [exact Hn |].
  set (line := TaModel.sub_series _ _).
  pose proof (leading_nan_count (firstn (S k) line) 25) as Hc.
  pose proof (List.firstn_le_length (S k) line).
  assert (length (List.filter TaModel.is_obs (firstn (S k) line))
          <= length (firstn (S k) line) - 25)%nat; [| lia].
  apply Hc. intros j x Hj Hx. rewrite List.nth_error_firstn in Hx.
  destruct (j <? S k)%nat; [| discriminate Hx].
  apply nan_not_obs. now apply (macd_line_warmup j x).
Qed.

Lemma macd_signal_length :
  length (TaModel.ema 9
            (TaModel.sub_series (TaModel.ema 12 close) (TaModel.ema 26 close)))
  = length close.
Proof. unfold TaModel.ema at 1. now rewrite length_ewm_mean, macd_line_length. Qed.

(** The last values of the three series of [MACD(close)]. *)
Lemma macd_last_values (vm vs vh : float) :
  iloc_neg 1 (fst (fst (TaModel.macd_series close))) = Ok vm ->
  iloc_neg 1 (snd (fst (TaModel.macd_series close))) = Ok vs ->
  iloc_neg 1 (snd (TaModel.macd_series close)) = Ok vh ->
  ((length close < 26)%nat -> Py.isna vm = true)
  /\ ((length close < 34)%nat -> Py.isna vs = true /\ Py.isna vh = true).
Proof.
  unfold TaModel.macd_series. cbn [fst snd]. intros Hm Hs Hh.
  apply iloc_neg_inv in Hm as [Hlm Hm]. apply iloc_neg_inv in Hs as [Hls Hs].
  apply iloc_neg_inv in Hh as [Hlh Hh].
  rewrite macd_line_length in Hlm, Hm. rewrite macd_signal_length in Hls, Hs.
  rewrite length_sub_series, macd_line_length, macd_signal_length in Hlh, Hh.
  unfold Py.isna. split.
  - intros Hl. apply (macd_line_warmup _ _ Hm). lia.
  - intros Hl. split.
    + rewrite (macd_signal_warmup _ _ Hs); [reflexivity | lia].
    + apply nth_error_sub_series in Hh as (a & b & _ & Hb & ->).
      rewrite (macd_signal_warmup _ _ Hb); [apply sub_nan_r | lia].
Qed.

End MacdWarmup.

(** With the model of [ta], the MACD fields of windows shorter than the
    warm-up of the averages are [None], whatever the bars. *)
Lemma model_macd_warmup (hist : History) :
  let t := calculate_technical_indicators (libs := TaModel.libs) hist in
  ((length hist < 26)%nat -> macd t = None)
  /\ ((length hist < 34)%nat -> macd_signal t = None /\ macd_histogram t = None).
Proof.
  cbv zeta. unfold calculate_technical_indicators, technical_indicators_body.
  destruct (length hist <? 14)%nat; [now auto |].
  cbn [ta_rsi ta_macd ta_obv TaModel.libs].
  pose proof (macd_last_values (closes hist)) as Hlast.
  rewrite closes_length in Hlast.
  destruct (TaModel.macd_series (closes hist)) as [[sm ss] sh].
  cbn [fst snd] in Hlast.
  destruct (iloc_neg 1 (TaModel.rsi_series (closes hist) 14)) as [vr |];
    [| now auto].
  destruct (iloc_neg 1 sm) as [vm |]; [| now auto].
  destruct (iloc_neg 1 ss) as [vs |]; [| now auto].
  destruct (iloc_neg 1 sh) as [vh |]; [| now auto].
  destruct (Hlast vm vs vh eq_refl eq_refl eq_refl) as [H26 H34].
  destruct (iloc_neg 1 (TaModel.obv_series _ _)) as [vo |]; [| now auto].
  destruct (Py.isna vo); [| destruct (Py.int vo); [| now auto]];
    cbn [macd macd_signal macd_histogram]; rewrite !round_unless_na_None; tauto.
Qed.

(** C4 (amended): a window of 0 or 1 bars never produces a record; a
    window of 2 to 13 bars produces a record when the change qualifies, with
    the five indicator fields [None]; for a window of 14 bars or more each
    indicator field is [None] exactly when the last value the indicator
    library computes for it is nan (the last on-balance volume being
    finite), so the fields are non-null only as far as the library's values
    are defined. Fourteen bars are not enough for that: with the averages
    of [ta] (the MACD line is the 12-bar minus the 26-bar exponential mean,
    the signal the 9-bar mean of the line, each nan until it has seen its
    window) [macd] is [None] for every window of fewer than 26 bars and
    [macd_signal] and [macd_histogram] for every window of fewer than 34
    bars, whatever the bars. *)
Theorem indicators_by_window_length
    (libs : Libs) (w : World) (self : Analyzer) (sym : string) (st : State) :
  ((forall k hist, history w sym k = Ok hist -> (length hist < 2)%nat) ->
     fst (analyze_single_stock w self sym st) = None
     /\ SP500.analyze_single_stock w (drop_threshold self) sym = None)
  /\ (forall (hist : History) (i : Info) (prev cur : float),
        (2 <= length hist < 14)%nat ->
        calculate_technical_indicators hist = null_indicators
        /\ (history w sym 0 = Ok hist -> info w sym 0 = Ok i ->
            nth_error (closes hist) (length hist - 2) = Some prev ->
            nth_error (closes hist) (length hist - 1) = Some cur ->
            PrimFloat.leb (pct_change cur prev) (drop_threshold self) = true ->
            exists r, fst (analyze_single_stock w self sym st) = Some r
                      /\ technical r = null_indicators))
  /\ (forall (hist : History) (sr sm ss sh so : list float)
             (vr vm vs vh vo : float),
        (14 <= length hist)%nat ->
        ta_rsi (closes hist) 14 = Ok sr ->
        ta_macd (closes hist) = Ok (sm, ss, sh) ->
        ta_obv (closes hist) (volumes hist) = Ok so ->
        iloc_neg 1 sr = Ok vr -> iloc_neg 1 sm = Ok vm ->
        iloc_neg 1 ss = Ok vs -> iloc_neg 1 sh = Ok vh ->
        iloc_neg 1 so = Ok vo ->
        PrimFloat.is_infinity vo = false ->
        let t := calculate_technical_indicators hist in
        (rsi t = None <-> Py.isna vr = true)
        /\ (macd t = None <-> Py.isna vm = true)
        /\ (macd_signal t = None <-> Py.isna vs = true)
        /\ (macd_histogram t = None <-> Py.isna vh = true)
        /\ (obv t = None <-> Py.isna vo = true))
  /\ (forall hist : History,
        let t := calculate_technical_indicators (libs := TaModel.libs) hist in
        ((length hist < 26)%nat -> macd t = None)
        /\ ((length hist < 34)%nat ->
            macd_signal t = None /\ macd_histogram t = None)).
Proof.
  split; [apply no_record_without_data |].
  split; [| split; [| exact model_macd_warmup]].
  - intros hist i prev cur [Hlo Hhi].
    pose proof (indicators_null_below_14 hist Hhi) as Hnull.
    split; [exact Hnull |].
    intros Hh Hi Hp Hc Hq.
    destruct (analyze_single_stock_served w self sym hist i st Hh Hi Hlo) as [st' Hrun].
    destruct (analyze_window_spec self sym hist i prev cur Hlo Hp Hc) as [Hyes _].
    destruct (Hyes Hq) as (r & Hr & _ & Ht & _).
    exists r. rewrite Hrun, Hr. split; [reflexivity | congruence].
  - intros hist sr sm ss sh so vr vm vs vh vo Hl Hr Hm Ho Hvr Hvm Hvs Hvh Hvo Hinf t.
    subst t.
    rewrite (indicators_from_14 hist sr sm ss sh so vr vm vs vh vo) by assumption.
    destruct (Py.isna vo) eqn:Hna.
    + simpl. rewrite !round_unless_na_None. tauto.
    + destruct (int_of_finite vo Hna Hinf) as [z ->]. simpl.
      rewrite !round_unless_na_None. repeat split; congruence.
Qed.

Lemma indicators_by_window_length_witness :
  let w := Examples.serving Examples.drop_12 Examples.no_info in
  (2 <= length Examples.drop_12 < 14)%nat
  /\ exists r,
       fst (analyze_single_stock (libs := TaModel.libs) w Examples.balanced_analyzer
              "AAPL" (initial_state Examples.t0)) = Some r
       /\ technical r = null_indicators.
Proof.
  intros w.
  assert (Hl : (2 <= length Examples.drop_12 < 14)%nat) by (simpl; lia).
  split; [exact Hl |].
  exact (proj2 (proj1 (proj2 (indicators_by_window_length TaModel.libs w
                                Examples.balanced_analyzer "AAPL"
                                (initial_state Examples.t0)))
                  Examples.drop_12 Examples.no_info 100%float 88%float Hl)
           eq_refl eq_refl eq_refl eq_refl eq_refl).
Defined.

(** A well-formed window of fourteen bars: the RSI (37.07) and the OBV are
    there, but the three MACD fields are [None], the 26-period average of
    the MACD having no value before the 26th bar. *)
Lemma fourteen_bars_have_no_macd :
  length Examples.fourteen_bars = 14
  /\ calculate_technical_indicators (libs := TaModel.libs) Examples.fourteen_bars
     = {| rsi := Some 0x1.288f5c28f5c29p+5%float; macd := None; macd_signal := None;
          macd_histogram := None; obv := Some 10000%Z |}.
Proof. split; vm_compute; reflexivity. Qed.

(** ** Fundamental ratios *)

Lemma get_num_absent (info : Info) (key : string) (d : pyval) :
  info_num info !! key = None -> get_num info key d = d.
Proof. unfold get_num. now intros ->. Qed.

Lemma truthy_ne_zero (v : pyval) : truthy v && ne_zero v = truthy v.
Proof. destruct v as [| f]; [reflexivity |]. simpl. apply andb_diag. Qed.

Lemma py_div_nonzero (d e : float) :
  Py.truthy e = true -> py_div (PyFloat d) (PyFloat e) = Ok (PyFloat (d / e)).
Proof.
  unfold Py.truthy, py_div. destruct (PrimFloat.eqb e 0); [discriminate | reflexivity].
Qed.

(** [0 / e] is a zero, hence false, for every non-zero number [e]. *)
Lemma zero_div_falsy (e : float) :
  PrimFloat.is_nan e = false -> Py.truthy e = true ->
  Py.truthy (0 / e) = false.
Proof.
  unfold Py.truthy. rewrite !FloatAxioms.eqb_spec, div_spec.
  intros Hnan He. apply FloatOrder.not_nan_spec in Hnan.
  change (Prim2SF 0) with (S754_zero false) in *.
  destruct (Prim2SF e) as [s | s | | s m x]; try reflexivity;
    [destruct s; discriminate He | congruence].
Qed.

(** A zero divided by a non-zero number is a zero, hence false. *)
Lemma zero_over_number (d e : float) :
  PrimFloat.eqb d 0 = true -> PrimFloat.is_nan e = false ->
  Py.truthy e = true -> Py.truthy (d / e) = false.
Proof.
  unfold Py.truthy. rewrite !FloatAxioms.eqb_spec, div_spec.
  intros Hd Hnan He. apply FloatOrder.not_nan_spec in Hnan.
  change (Prim2SF 0) with (S754_zero false) in *.
  destruct (Prim2SF d) as [sd | sd | | sd md xd];
    destruct (Prim2SF e) as [s | s | | s m x];
    try congruence; try reflexivity; try discriminate Hd;
    try (destruct sd; discriminate Hd); try (destruct s; discriminate He).
Qed.

(** nan is true, a quotient by nan is nan, and [round] keeps nan. *)
Lemma nan_truthy (x : float) : PrimFloat.is_nan x = true -> Py.truthy x = true.
Proof.
  rewrite FloatOrder.is_nan_spec. unfold Py.truthy.
  rewrite FloatAxioms.eqb_spec. now intros ->.
Qed.

Lemma div_by_nan (d e : float) :
  PrimFloat.is_nan e = true -> PrimFloat.is_nan (d / e) = true.
Proof.
  rewrite !FloatOrder.is_nan_spec, div_spec. intros ->.
  destruct (Prim2SF d) as [s | s | | s m x]; reflexivity.
Qed.

Lemma round_nan (x : float) (n : nat) :
  PrimFloat.is_nan x = true -> Py.round x n = x.
Proof.
  rewrite FloatOrder.is_nan_spec. unfold Py.round. now intros ->.
Qed.

(** The result of the [try] block when the debt is a number or the
    equity is false (zero, null or absent). *)
Lemma fundamental_ratios_no_error (info : Info) (d2e : pyval) :
  (if truthy (get_num info "totalStockholderEquity" (PyFloat 0))
   then py_div (get_num info "totalDebt" (PyFloat 0))
               (get_num info "totalStockholderEquity" (PyFloat 0))
   else Ok PyNone) = Ok d2e ->
  calculate_fundamental_ratios info
  = {| pe_ratio := round_if_truthy (get_num info "trailingPE" PyNone);
       forward_pe := round_if_truthy (get_num info "forwardPE" PyNone);
       peg_ratio := round_if_truthy (get_num info "pegRatio" PyNone);
       debt_to_equity := round_if_truthy d2e;
       free_cash_flow := as_option (get_num info "freeCashflow" PyNone);
       dividend_yield :=
         round_if_truthy (to_percentage (get_num info "dividendYield" PyNone));
       book_value := round_if_truthy (get_num info "bookValue" PyNone);
       price_to_book := round_if_truthy (get_num info "priceToBook" PyNone);
       return_on_equity :=
         round_if_truthy (to_percentage (get_num info "returnOnEquity" PyNone)) |}.
Proof.
  intros H. unfold calculate_fundamental_ratios, fundamental_ratios_body.
  rewrite truthy_ne_zero, H. reflexivity.
Qed.

Lemma fundamental_ratios_cases (info : Info) :
  let debt := get_num info "totalDebt" (PyFloat 0) in
  let equity := get_num info "totalStockholderEquity" (PyFloat 0) in
  (debt = PyNone /\ truthy equity = true
   /\ calculate_fundamental_ratios info = null_ratios)
  \/ (~ (debt = PyNone /\ truthy equity = true)
      /\ exists d2e,
           (if truthy equity then py_div debt equity else Ok PyNone) = Ok d2e
           /\ (forall d e, debt = PyFloat d -> equity = PyFloat e ->
                           Py.truthy e = true -> d2e = PyFloat (d / e))
           /\ (truthy equity = false -> d2e = PyNone)).
Proof.
  intros debt equity. subst debt equity.
  unfold calculate_fundamental_ratios, fundamental_ratios_body.
  rewrite truthy_ne_zero.
  destruct (get_num info "totalStockholderEquity" (PyFloat 0)) as [| e];
    destruct (get_num info "totalDebt" (PyFloat 0)) as [| d]; simpl.
  - right. split; [intros [_ ?]; discriminate |].
    exists PyNone. split; [reflexivity |].
    split; [intros ? ? ?; discriminate | reflexivity].
  - right. split; [intros [? _]; discriminate |].
    exists PyNone. split; [reflexivity |].
    split; [intros ? ? _ ?; discriminate | reflexivity].
  - destruct (Py.truthy e) eqn:Ht.
    + left. repeat split; reflexivity.
    + right. split; [intros [_ ?]; discriminate |].
      exists PyNone. split; [reflexivity |].
      split; [intros ? ? ?; discriminate | reflexivity].
  - destruct (Py.truthy e) eqn:Ht.
    + right. split; [intros [? _]; discriminate |].
      exists (PyFloat (d / e)).
      split; [pose proof (py_div_nonzero d e Ht) as Hdiv; exact Hdiv |].
      split; [| discriminate]. now intros d' e' [= <-] [= <-] _.
    + right. split; [intros [? _]; discriminate |].
      exists PyNone. split; [reflexivity |].
      split; [intros ? ? _ [= <-]; congruence | reflexivity].
Qed.

(** C8 (amended): [debt_to_equity] is [round(debt / equity, 2)] when the
    equity is a non-zero number, the debt is a number and the quotient is
    not zero; it is [None] when the equity is zero, null or absent and when
    the quotient is zero, as it is for a zero or absent debt over an equity
    that is not nan. A null debt over a non-zero equity makes the division
    raise and every field [None]. Otherwise each of the rounded fields is
    [round(x, 2)] for a non-zero input [x] (scaled by 100 first for the
    yield and the return on equity) and [None] for an input that is absent,
    null or zero, and [free_cash_flow] is the input unchanged. A field
    whose input is absent is [None], with one exception: an absent debt
    counts as 0, so over an equity that is nan (which is true and differs
    from 0) [debt_to_equity] is [round(0 / nan, 2)], that is nan, not
    [None]. *)
Theorem fundamental_ratios_rules (info : Info) :
  let r := calculate_fundamental_ratios info in
  let num := fun key => get_num info key PyNone in
  let debt := get_num info "totalDebt" (PyFloat 0) in
  let equity := get_num info "totalStockholderEquity" (PyFloat 0) in
  (forall d e, debt = PyFloat d -> equity = PyFloat e -> Py.truthy e = true ->
     debt_to_equity r
     = if Py.truthy (d / e) then Some (Py.round (d / e) 2) else None)
  /\ (truthy equity = false -> debt_to_equity r = None)
  /\ (debt = PyNone -> truthy equity = true -> r = null_ratios)
  /\ (~ (debt = PyNone /\ truthy equity = true) ->
        pe_ratio r = round_if_truthy (num "trailingPE")
        /\ forward_pe r = round_if_truthy (num "forwardPE")
        /\ peg_ratio r = round_if_truthy (num "pegRatio")
        /\ book_value r = round_if_truthy (num "bookValue")
        /\ price_to_book r = round_if_truthy (num "priceToBook")
        /\ dividend_yield r = round_if_truthy (to_percentage (num "dividendYield"))
        /\ return_on_equity r
           = round_if_truthy (to_percentage (num "returnOnEquity"))
        /\ free_cash_flow r = as_option (num "freeCashflow"))
  /\ (forall x, round_if_truthy (PyFloat x)
                = if Py.truthy x then Some (Py.round x 2) else None)
  /\ (forall x, to_percentage (PyFloat x)
                = if Py.truthy x then PyFloat (x * 100) else PyFloat x)
  /\ (info_num info !! "trailingPE" = None -> pe_ratio r = None)
  /\ (info_num info !! "forwardPE" = None -> forward_pe r = None)
  /\ (info_num info !! "pegRatio" = None -> peg_ratio r = None)
  /\ (info_num info !! "totalStockholderEquity" = None -> debt_to_equity r = None)
  /\ (forall e, info_num info !! "totalDebt" = None -> equity = PyFloat e ->
                PrimFloat.is_nan e = false -> debt_to_equity r = None)
  /\ (forall d e, debt = PyFloat d -> equity = PyFloat e ->
                  PrimFloat.eqb d 0 = true -> Py.truthy e = true ->
                  PrimFloat.is_nan e = false -> debt_to_equity r = None)
  /\ (forall e, info_num info !! "totalDebt" = None -> equity = PyFloat e ->
                PrimFloat.is_nan e = true ->
                debt_to_equity r = Some (0 / e)%float
                /\ PrimFloat.is_nan (0 / e) = true)
  /\ round_if_truthy PyNone = None
  /\ to_percentage PyNone = PyNone
  /\ (info_num info !! "freeCashflow" = None -> free_cash_flow r = None)
  /\ (info_num info !! "dividendYield" = None -> dividend_yield r = None)
  /\ (info_num info !! "bookValue" = None -> book_value r = None)
  /\ (info_num info !! "priceToBook" = None -> price_to_book r = None)
  /\ (info_num info !! "returnOnEquity" = None -> return_on_equity r = None).
Proof.
  intros r num debt equity. subst r num debt equity.
  assert (Habsent : forall key, info_num info !! key = None ->
                                get_num info key PyNone = PyNone).
  { intros key H. apply get_num_absent, H. }
  pose proof (fundamental_ratios_cases info) as Hcases. cbv zeta in Hcases.
  destruct Hcases as [(Hd & He & Hnull) | (Hok & d2e & Hdiv & Hq & Hz)].
  - (* the division raises *)
    rewrite Hnull. simpl.
    repeat match goal with |- _ /\ _ => split end;
      try reflexivity; try (intros; reflexivity).
    + intros d e Hd'. congruence.
    + intros H. exfalso. apply H. auto.
    + intros e H _ _. rewrite (get_num_absent _ _ _ H) in Hd. discriminate Hd.
  - rewrite (fundamental_ratios_no_error info d2e Hdiv). simpl.
    repeat match goal with |- _ /\ _ => split end;
      try reflexivity;
      try (intros H; rewrite (Habsent _ H); reflexivity).
    + intros d e Hd He Ht. rewrite (Hq d e Hd He Ht). reflexivity.
    + intros Ht. now rewrite (Hz Ht).
    + intros Hd Ht. exfalso. apply Hok. auto.
    + intros _. repeat split; reflexivity.
    + intros H. rewrite Hz; [reflexivity |].
      rewrite (get_num_absent _ _ _ H). reflexivity.
    + intros e H He Hnan.
      destruct (Py.truthy e) eqn:Ht.
      * rewrite (Hq 0%float e); [| now rewrite (get_num_absent _ _ _ H)
                                 | exact He | exact Ht].
        simpl. now rewrite (zero_div_falsy e Hnan Ht).
      * rewrite Hz; [reflexivity |]. rewrite He. exact Ht.
    + intros d e Hd He Hzero Ht Hnan. rewrite (Hq d e Hd He Ht). simpl.
      now rewrite (zero_over_number d e Hzero Hnan Ht).
    + intros e H He Hnan.
      pose proof (div_by_nan 0 e Hnan) as Hquot.
      rewrite (Hq 0%float e); [| now rewrite (get_num_absent _ _ _ H)
                                 | exact He | now apply nan_truthy].
      simpl. rewrite (nan_truthy _ Hquot), (round_nan _ 2 Hquot).
      split; [reflexivity | exact Hquot].
Qed.

Lemma fundamental_ratios_rules_witness :
  Py.truthy 200 = true
  /\ debt_to_equity (calculate_fundamental_ratios Examples.indebted)
     = Some 0.25%float.
Proof.
  split; [reflexivity |].
  exact (proj1 (fundamental_ratios_rules Examples.indebted) 50%float 200%float
           eq_refl eq_refl eq_refl).
Defined.

(** An equity of 100 without debt and a dividend yield of zero: the ratio
    0 / 100 and the yield are known and zero, and both fields are [None]
    where the rounded values would be 0.0; the free cash flow of zero
    passes through. *)
Lemma zero_ratios_become_null :
  get_num Examples.debt_free "totalDebt" (PyFloat 0) = PyFloat 0
  /\ get_num Examples.debt_free "totalStockholderEquity" (PyFloat 0) = PyFloat 100
  /\ Py.round (0 / 100) 2 = 0%float
  /\ debt_to_equity (calculate_fundamental_ratios Examples.debt_free) = None
  /\ get_num Examples.debt_free "dividendYield" PyNone = PyFloat 0
  /\ dividend_yield (calculate_fundamental_ratios Examples.debt_free) = None
  /\ free_cash_flow (calculate_fundamental_ratios Examples.debt_free) = Some 0%float.
Proof. vm_compute. repeat split; reflexivity. Qed.

(** ** Sorting by percent change *)

Section SortByChange.

Lemma qualified_comparable (threshold : float) (r : AnalysisRecord) :
  qualified threshold r -> comparable r.
Proof. intros H. apply (FloatOrder.leb_not_nan _ _ H). Qed.

Lemma insert_by_change_perm (x : AnalysisRecord) (l : list AnalysisRecord) :
  Permutation (x :: l) (insert_by_change x l).
Proof.
  induction l as [| y r IH]; simpl; [reflexivity |].
  destruct (PrimFloat.ltb _ _); [| reflexivity].
  rewrite perm_swap. now apply perm_skip.
Qed.

Lemma sort_by_change_perm (l : list AnalysisRecord) :
  Permutation l (sort_by_change l).
Proof.
  induction l as [| x l IH]; simpl; [reflexivity |].
  rewrite <- insert_by_change_perm. now apply perm_skip.
Qed.

Lemma insert_by_change_HdRel (a x : AnalysisRecord) (l : list AnalysisRecord) :
  change_le a x -> HdRel change_le a l ->
  HdRel change_le a (insert_by_change x l).
Proof.
  intros Hax Hal. destruct l as [| y r]; simpl; [now constructor |].
  destruct (PrimFloat.ltb _ _); constructor; [| exact Hax].
  now inversion Hal.
Qed.

Lemma insert_by_change_Sorted (x : AnalysisRecord) (l : list AnalysisRecord) :
  comparable x -> Forall comparable l -> Sorted change_le l ->
  Sorted change_le (insert_by_change x l).
Proof.
  intros Hx Hl Hs. induction Hs as [| y r Hr IH Hhd]; simpl.
  - repeat constructor.
  - inversion Hl as [| ? ? Hy Hr']; subst.
    destruct (PrimFloat.ltb (percent_change y) (percent_change x)) eqn:E.
    + constructor; [now apply IH |].
      apply insert_by_change_HdRel; [| exact Hhd].
      now apply FloatOrder.ltb_leb.
    + constructor; [now constructor |]. constructor.
      now apply FloatOrder.leb_total.
Qed.

Lemma sort_by_change_Sorted (l : list AnalysisRecord) :
  Forall comparable l -> Sorted change_le (sort_by_change l).
Proof.
  induction 1 as [| x l Hx Hl IH]; simpl; [constructor |].
  apply insert_by_change_Sorted; [exact Hx | | exact IH].
  now rewrite <- sort_by_change_perm.
Qed.

Lemma Sorted_prefix (p q : list AnalysisRecord) :
  Sorted change_le (p ++ q) -> Sorted change_le p.
Proof.
  induction p as [| a p IH]; simpl; intros H; [constructor |].
  inversion H as [| ? ? Hs Hhd]; subst. constructor; [now apply IH |].
  destruct p; simpl in *; [constructor |]. inversion Hhd. now constructor.
Qed.

End SortByChange.

(** ** Steps that display and save nothing *)

Lemma printed_rows_app (a b : list Event) :
  printed_rows (a ++ b) = printed_rows a ++ printed_rows b.
Proof.
  induction a as [| e a IH]; simpl; [reflexivity |].
  destruct e; simpl; now rewrite ?IH.
Qed.

Lemma saved_files_app (a b : list Event) :
  saved_files (a ++ b) = saved_files a ++ saved_files b.
Proof.
  induction a as [| e a IH]; simpl; [reflexivity |].
  destruct e; simpl; now rewrite ?IH.
Qed.

Lemma quiet_printed_rows (evs : list Event) :
  forallb quiet evs = true -> printed_rows evs = [] /\ saved_files evs = [].
Proof.
  induction evs as [| e evs IH]; simpl; [auto |].
  intros H. apply andb_true_iff in H as [He Hevs].
  destruct e; simpl in *; try discriminate; auto.
Qed.

Lemma extends_quietly_outputs (st st' : State) :
  extends_quietly st st' ->
  printed_rows (trace st') = printed_rows (trace st)
  /\ saved_files (trace st') = saved_files (trace st).
Proof.
  intros (evs & -> & Hq). rewrite printed_rows_app, saved_files_app.
  destruct (quiet_printed_rows evs Hq) as [-> ->]. now rewrite !app_nil_r.
Qed.

Lemma extends_quietly_refl (st : State) : extends_quietly st st.
Proof. exists []. now rewrite app_nil_r. Qed.

Lemma extends_quietly_trans (a b c : State) :
  extends_quietly a b -> extends_quietly b c -> extends_quietly a c.
Proof.
  intros (e1 & H1 & Q1) (e2 & H2 & Q2). exists (e1 ++ e2).
  rewrite H2, H1, <- app_assoc, forallb_app, Q1, Q2. auto.
Qed.

Lemma extends_quietly_same_trace (st st' : State) :
  trace st' = trace st -> extends_quietly st st'.
Proof. intros H. exists []. now rewrite app_nil_r. Qed.

Lemma emit_quietly (e : Event) (st : State) :
  quiet e = true -> extends_quietly st (emit e st).
Proof. intros H. exists [e]. simpl. now rewrite H. Qed.

Section Quiet.
Context {libs : Libs}.
Variables (w : World) (self : Analyzer).

Lemma sleep_quietly (d : Q) (st : State) : extends_quietly st (sleep d st).
Proof. exists [EvSleep d]. auto. Qed.

Lemma uniform_quietly (range : Q * Q) (st : State) :
  extends_quietly st (snd (uniform w range st)).
Proof. destruct range as [lo hi]. eexists [_]. simpl. auto. Qed.

Lemma throttle_quietly (st : State) : extends_quietly st (throttle w self st).
Proof.
  unfold throttle, throttle_wait, uniform.
  destruct (delay_range self) as [lo hi].
  unfold extends_quietly.
  destruct (Qltb _ _); simpl; rewrite <- ?app_assoc; eexists;
    (split; reflexivity).
Qed.

Lemma before_call_quietly (st : State) :
  extends_quietly st (before_call w self st).
Proof.
  eapply extends_quietly_trans; [apply throttle_quietly |].
  now apply extends_quietly_same_trace.
Qed.

Lemma back_off_quietly (attempt : nat) (st : State) :
  extends_quietly st (back_off w attempt st).
Proof.
  unfold back_off, extends_quietly. simpl. rewrite <- !app_assoc.
  eexists. split; reflexivity.
Qed.

Lemma attempts_quietly {A} (func : nat -> result (option A))
    (remaining attempt : nat) (st : State) :
  extends_quietly st (snd (attempts w self func remaining attempt st)).
Proof.
  revert attempt st. induction remaining as [| n IH]; intros attempt st.
  - simpl. now apply emit_quietly.
  - rewrite attempts_step.
    destruct (func attempt) as [v | msg]; simpl;
      [apply before_call_quietly |].
    destruct (is_rate_limit_error msg); [| apply before_call_quietly].
    eapply extends_quietly_trans; [apply before_call_quietly |].
    eapply extends_quietly_trans; [apply back_off_quietly | apply IH].
Qed.

Lemma on_error_quietly (sym msg : string) (st : State) :
  extends_quietly st (on_error sym msg st).
Proof. exists [EvErrorAnalyzing sym msg]. auto. Qed.

Lemma analyze_single_stock_quietly (sym : string) (st : State) :
  extends_quietly st (snd (analyze_single_stock w self sym st)).
Proof.
  unfold analyze_single_stock, rate_limited_request.
  pose proof (attempts_quietly (fetch_stock_data w sym) Config.max_retries 0 st) as H.
  destruct (attempts w self (fetch_stock_data w sym) Config.max_retries 0 st)
    as [[[[hist i] |] | msg] st']; simpl in *; try exact H.
  - destruct (analyze_window self sym hist i); simpl; [exact H |].
    eapply extends_quietly_trans; [exact H | apply on_error_quietly].
  - eapply extends_quietly_trans; [exact H | apply on_error_quietly].
Qed.

Lemma get_stock_news_quietly (sym : string) (n : nat) (st : State) :
  extends_quietly st (snd (get_stock_news w self sym n st)).
Proof.
  unfold get_stock_news, rate_limited_request.
  pose proof (attempts_quietly (fetch_news w sym) Config.max_retries 0 st) as H.
  destruct (attempts w self (fetch_news w sym) Config.max_retries 0 st)
    as [[[items |] | msg] st']; exact H.
Qed.

Lemma run_tasks_quietly (order : list string) (st : State) :
  extends_quietly st (snd (run_tasks w self order st)).
Proof.
  revert st. induction order as [| t rest IH]; intros st; simpl;
    [apply extends_quietly_refl |].
  pose proof (analyze_single_stock_quietly t st) as H1.
  destruct (analyze_single_stock w self t st) as [r st1].
  specialize (IH st1). destruct (run_tasks w self rest st1) as [rs st2].
  simpl in *. eapply extends_quietly_trans; eassumption.
Qed.

Lemma inter_batch_pause_quietly (current_batch total_batches : nat) (st : State) :
  extends_quietly st (inter_batch_pause w current_batch total_batches st).
Proof.
  unfold inter_batch_pause. destruct (_ <? _)%nat; [| apply extends_quietly_refl].
  unfold extends_quietly. simpl. rewrite <- !app_assoc.
  eexists. split; reflexivity.
Qed.

Lemma batch_loop_quietly (tickers : list string) (total_batches : nat)
    (indices : list nat) (dropped : list AnalysisRecord) (st : State) :
  extends_quietly st
    (snd (batch_loop w self tickers total_batches indices dropped st)).
Proof.
  revert dropped st. induction indices as [| k rest IH]; intros dropped st;
    simpl; [apply extends_quietly_refl |].
  unfold process_batch.
  pose proof (run_tasks_quietly
                (schedule w (firstn (batch_size self)
                               (skipn (k * batch_size self) tickers))) st) as H1.
  destruct (run_tasks w self _ st) as [rs st1]. simpl in H1.
  eapply extends_quietly_trans; [exact H1 |].
  eapply extends_quietly_trans; [apply inter_batch_pause_quietly | apply IH].
Qed.

End Quiet.

(** ** Every record found passed the threshold test *)

Section Qualified.
Context {libs : Libs}.
Variables (w : World) (self : Analyzer).

Lemma build_record_change (sym : string) (hist : History) (i : Info)
    (prev cur pc : float) (r : AnalysisRecord) :
  build_record sym hist i prev cur pc = Ok r -> percent_change r = pc.
Proof.
  unfold build_record. destruct (iloc_neg 1 (volumes hist)); [| discriminate].
  now intros [= <-].
Qed.

Lemma analyze_window_qualified (sym : string) (hist : History) (i : Info)
    (r : AnalysisRecord) :
  analyze_window self sym hist i = Ok (Some r) ->
  qualified (drop_threshold self) r.
Proof.
  unfold analyze_window, qualified.
  destruct (iloc_neg 2 (closes hist)) as [prev |]; [| discriminate].
  destruct (iloc_neg 1 (closes hist)) as [cur |]; [| discriminate].
  destruct (PrimFloat.leb _ _) eqn:E; [| discriminate].
  destruct (build_record _ _ _ _ _ _) as [r' |] eqn:Eb; [| discriminate].
  intros [= <-]. now rewrite (build_record_change _ _ _ _ _ _ _ Eb).
Qed.

Lemma analyze_single_stock_qualified (sym : string) (st : State)
    (r : AnalysisRecord) :
  fst (analyze_single_stock w self sym st) = Some r ->
  qualified (drop_threshold self) r.
Proof.
  unfold analyze_single_stock.
  destruct (rate_limited_request w self (fetch_stock_data w sym) st)
    as [[[[hist i] |] | msg] st']; simpl; try discriminate.
  destruct (analyze_window self sym hist i) as [o | m] eqn:E; simpl;
    [| discriminate].
  intros ->. now apply analyze_window_qualified in E.
Qed.

Lemma run_tasks_qualified (order : list string) (st : State) :
  Forall (qualified (drop_threshold self)) (fst (run_tasks w self order st)).
Proof.
  revert st. induction order as [| t rest IH]; intros st; simpl; [constructor |].
  pose proof (analyze_single_stock_qualified t st) as H1.
  destruct (analyze_single_stock w self t st) as [r st1].
  specialize (IH st1). destruct (run_tasks w self rest st1) as [rs st2].
  simpl in *. destruct r as [r |]; [| exact IH].
  constructor; [now apply H1 | exact IH].
Qed.

Lemma batch_loop_qualified (tickers : list string) (total_batches : nat)
    (indices : list nat) (dropped : list AnalysisRecord) (st : State) :
  Forall (qualified (drop_threshold self)) dropped ->
  Forall (qualified (drop_threshold self))
    (fst (batch_loop w self tickers total_batches indices dropped st)).
Proof.
  revert dropped st. induction indices as [| k rest IH]; intros dropped st Hd;
    simpl; [exact Hd |].
  unfold process_batch.
  pose proof (run_tasks_qualified
                (schedule w (firstn (batch_size self)
                               (skipn (k * batch_size self) tickers))) st) as H1.
  destruct (run_tasks w self _ st) as [rs st1]. simpl in H1.
  apply IH. apply Forall_app. auto.
Qed.

Lemma sp500_analyze_qualified (sym : string) (r : AnalysisRecord) :
  SP500.analyze_single_stock w (drop_threshold self) sym = Some r ->
  qualified (drop_threshold self) r.
Proof.
  unfold SP500.analyze_single_stock, SP500.analyze_body, qualified.
  destruct (history w sym 0) as [hist |]; [| discriminate].
  destruct (_ || _); [discriminate |].
  destruct (iloc_neg 2 (closes hist)) as [prev |]; [| discriminate].
  destruct (iloc_neg 1 (closes hist)) as [cur |]; [| discriminate].
  destruct (PrimFloat.leb _ _) eqn:E; [| discriminate].
  destruct (info w sym 0) as [i |]; [| discriminate].
  destruct (build_record _ _ _ _ _ _) as [r' |] eqn:Eb; [| discriminate].
  intros [= <-]. now rewrite (build_record_change _ _ _ _ _ _ _ Eb).
Qed.

Lemma sp500_collect_spec (order : list string) (dropped : list AnalysisRecord)
    (st : State) :
  Forall (qualified (drop_threshold self)) dropped ->
  Forall (qualified (drop_threshold self))
    (fst (SP500.collect w (drop_threshold self) order dropped st))
  /\ extends_quietly st
       (snd (SP500.collect w (drop_threshold self) order dropped st)).
Proof.
  revert dropped st. induction order as [| t rest IH]; intros dropped st Hd;
    simpl; [split; [exact Hd | apply extends_quietly_refl] |].
  match goal with
  | |- context [SP500.collect _ _ rest ?d ?s] => destruct (IH d s) as [H1 H2]
  end.
  - destruct (SP500.analyze_single_stock w (drop_threshold self) t) as [r |] eqn:E;
      [| exact Hd].
    apply Forall_app. split; [exact Hd |]. constructor; [| constructor].
    exact (sp500_analyze_qualified t r E).
  - split; [exact H1 |].
    eapply extends_quietly_trans; [apply (sleep_quietly (1 # 10) st) | exact H2].
Qed.

End Qualified.

(** ** What [display_results] shows *)

Section DisplayFacts.
Variable get_news : string -> State -> list NewsItem * State.
Variable top_n : nat.
Hypothesis get_news_quietly :
  forall sym st, extends_quietly st (snd (get_news sym st)).

Lemma print_rows_spec (rows : list AnalysisRecord) (st : State) :
  exists p q,
    rows = p ++ q
    /\ printed_rows (trace (snd (print_rows rows st)))
       = printed_rows (trace st) ++ p
    /\ saved_files (trace (snd (print_rows rows st))) = saved_files (trace st).
Proof.
  revert st. induction rows as [| r rest IH]; intros st; simpl.
  - exists [], []. simpl. rewrite app_nil_r. auto.
  - destruct (format_number (market_cap r)); simpl.
    + destruct (IH (emit (EvPrintRow r) st)) as (p & q & -> & Hp & Hs).
      exists (r :: p), q. rewrite Hp, Hs. simpl.
      rewrite printed_rows_app, saved_files_app. simpl.
      rewrite <- app_assoc, app_nil_r. auto.
    + exists [], (r :: rest). simpl. rewrite app_nil_r. auto.
Qed.

Lemma print_details_quietly (rows : list AnalysisRecord) (st : State) :
  extends_quietly st (snd (print_details get_news rows st)).
Proof.
  revert st. induction rows as [| r rest IH]; intros st; simpl;
    [apply extends_quietly_refl |].
  destruct (format_detail r); simpl; [| apply extends_quietly_refl].
  pose proof (get_news_quietly (symbol r) st) as H.
  destruct (get_news (symbol r) st) as [items st1]. simpl in H.
  eapply extends_quietly_trans; [exact H |].
  eapply extends_quietly_trans; [| apply IH].
  now apply emit_quietly.
Qed.

(** The rows shown are a prefix of the sorted list (all of it unless a
    row fails to format), nothing is saved, and on normal return the
    caller's list holds the sorted records. *)
Lemma display_results_spec (dropped : list AnalysisRecord) (st : State) :
  let res := display_results get_news top_n dropped st in
  (exists p q,
      sort_by_change dropped = p ++ q
      /\ printed_rows (trace (snd res)) = printed_rows (trace st) ++ p)
  /\ saved_files (trace (snd res)) = saved_files (trace st)
  /\ (forall l, fst res = Ok l -> l = sort_by_change dropped).
Proof.
  unfold display_results. destruct dropped as [| x rest].
  - simpl. split; [| split].
    + exists [], []. rewrite printed_rows_app. simpl. now rewrite !app_nil_r.
    + rewrite saved_files_app. simpl. now rewrite app_nil_r.
    + now intros l [= <-].
  - set (sorted := sort_by_change (x :: rest)).
    destruct (print_rows_spec sorted st) as (p & q & Hpq & Hp & Hs).
    destruct (print_rows sorted st) as [[[] | m] st1]; simpl in *.
    + pose proof (print_details_quietly (firstn top_n sorted) st1) as Hq.
      apply extends_quietly_outputs in Hq as [Hq1 Hq2].
      destruct (print_details get_news (firstn top_n sorted) st1)
        as [[[] | m] st2]; simpl in *;
        (split; [exists p, q; split; [exact Hpq | congruence]
                | split; [congruence |]]);
        [now intros l [= <-] | discriminate].
    + split; [exists p, q; auto | split; [exact Hs | discriminate]].
Qed.

End DisplayFacts.

(** ** Order of the final output *)

Section Output.
Context {libs : Libs}.
Variables (w : World) (self : Analyzer) (writable : bool).

Lemma quiet_adds_sorted_output (st st' : State) :
  extends_quietly st st' -> adds_sorted_output st st'.
Proof.
  intros H. apply extends_quietly_outputs in H as [H1 H2].
  exists [], []. rewrite H1, H2, !app_nil_r. repeat split; constructor.
Qed.

(** Display, then save when the list is not empty, from records that
    all passed the threshold test. *)
Lemma display_and_save_sorted
    (get_news : string -> State -> list NewsItem * State) (top_n : nat)
    (dropped : list AnalysisRecord) (st : State) :
  (forall sym s, extends_quietly s (snd (get_news sym s))) ->
  Forall (qualified (drop_threshold self)) dropped ->
  let res := display_results get_news top_n dropped st in
  (exists p, printed_rows (trace (snd res)) = printed_rows (trace st) ++ p
             /\ Sorted change_le p)
  /\ saved_files (trace (snd res)) = saved_files (trace st)
  /\ (forall l, fst res = Ok l -> Sorted change_le l).
Proof.
  intros Hnews Hq res.
  assert (Hsorted : Sorted change_le (sort_by_change dropped)).
  { apply sort_by_change_Sorted. eapply Forall_impl; [exact Hq |].
    intros r. apply qualified_comparable. }
  destruct (display_results_spec get_news top_n Hnews dropped st)
    as ((p & q & Hpq & Hp) & Hs & Hl).
  fold res in Hp, Hs, Hl. split; [| split].
  - exists p. split; [exact Hp |]. apply (Sorted_prefix p q). now rewrite <- Hpq.
  - exact Hs.
  - intros l Hres. now rewrite (Hl l Hres).
Qed.

Lemma analyze_us_stocks_output (csv : result (list string)) (st : State) :
  adds_sorted_output st (snd (analyze_us_stocks w self writable csv st)).
Proof.
  unfold analyze_us_stocks.
  destruct (Tickers.get_fortune5000_tickers csv) as [[| t ts] |];
    try (apply quiet_adds_sorted_output; now apply emit_quietly).
  destruct (batch_size self =? 0)%nat;
    [apply quiet_adds_sorted_output, extends_quietly_refl |].
  set (tickers := t :: ts). set (total := (_ / _)%nat).
  pose proof (batch_loop_quietly w self tickers total (seq 0 total) [] st) as Hq.
  pose proof (batch_loop_qualified w self tickers total (seq 0 total) [] st
                ltac:(constructor)) as Hd.
  destruct (batch_loop w self tickers total (seq 0 total) [] st)
    as [dropped st1]. simpl in Hq, Hd.
  apply extends_quietly_outputs in Hq as [Hq1 Hq2].
  destruct (display_and_save_sorted (fun sym => get_stock_news w self sym 3) 5
              dropped st1 (fun sym s => get_stock_news_quietly w self sym 3 s) Hd)
    as ((p & Hp & Hps) & Hs & Hl).
  destruct (display_results _ 5 dropped st1) as [[l | m] st2]; simpl in *.
  - specialize (Hl l eq_refl).
    set (st3 := match l with
                | [] => st2
                | _ :: _ => save_results_to_csv writable l st2
                end).
    assert (H3 : printed_rows (trace st3) = printed_rows (trace st2)
                 /\ exists fs, saved_files (trace st3) = saved_files (trace st2) ++ fs
                               /\ Forall (Sorted change_le) fs).
    { subst st3. destruct l as [| a l'].
      - split; [reflexivity |]. exists []. now rewrite app_nil_r.
      - unfold save_results_to_csv. destruct writable; simpl.
        + rewrite printed_rows_app, saved_files_app. simpl.
          rewrite app_nil_r. split; [reflexivity |].
          eexists. split; [reflexivity |]. now constructor.
        + split; [reflexivity |]. exists []. now rewrite app_nil_r. }
    destruct H3 as (H3p & fs & H3s & H3f).
    assert (H4 : extends_quietly st3
                   match failed_requests st3 with
                   | [] => st3
                   | failed => emit (EvFailureReport failed) st3
                   end).
    { destruct (failed_requests st3);
        [apply extends_quietly_refl | now apply emit_quietly]. }
    apply extends_quietly_outputs in H4 as [H4p H4s].
    exists p, fs. rewrite H4p, H4s, H3p, H3s, Hp, Hs, Hq1, Hq2. auto.
  - exists p, []. rewrite Hp, Hs, Hq1, Hq2, app_nil_r. auto.
Qed.

Lemma analyze_sp500_stocks_output (tickers : option (list string)) (st : State) :
  adds_sorted_output st
    (snd (SP500.analyze_sp500_stocks w (drop_threshold self) writable tickers st)).
Proof.
  unfold SP500.analyze_sp500_stocks.
  destruct tickers as [[| t ts] |];
    try (apply quiet_adds_sorted_output; now apply emit_quietly).
  destruct (sp500_collect_spec w self (schedule w (t :: ts)) [] st ltac:(constructor))
    as [Hd Hq].
  destruct (SP500.collect w (drop_threshold self) (schedule w (t :: ts)) [] st)
    as [dropped st1]. simpl in Hq, Hd.
  apply extends_quietly_outputs in Hq as [Hq1 Hq2].
  destruct (display_and_save_sorted
              (fun sym s => (SP500.get_stock_news w sym 3, s)) 3
              dropped st1 (fun sym s => extends_quietly_refl s) Hd)
    as ((p & Hp & Hps) & Hs & Hl).
  destruct (display_results _ 3 dropped st1) as [[l | m] st2]; simpl in *.
  - specialize (Hl l eq_refl). destruct l as [| a l'].
    + exists p, []. rewrite Hp, Hs, Hq1, Hq2, app_nil_r. auto.
    + unfold save_results_to_csv. destruct writable; simpl.
      * exists p, [a :: l']. simpl. rewrite printed_rows_app, saved_files_app.
        simpl. rewrite app_nil_r, Hp, Hs, Hq1, Hq2. auto.
      * exists p, []. rewrite Hp, Hs, Hq1, Hq2, app_nil_r. auto.
  - exists p, []. rewrite Hp, Hs, Hq1, Hq2, app_nil_r. auto.
Qed.

End Output.

(** C5: in a run of either analyzer the rows of the ranked table are
    displayed, and the rows of the CSV file are written, in ascending order
    of percent change: for adjacent rows [a], [b],
    [a.percent_change <= b.percent_change]. *)
Theorem output_sorted_by_change
    (libs : Libs) (w : World) (self : Analyzer) (writable : bool) (now : Q) :
  (forall csv : result (list string),
      let st := snd (analyze_us_stocks w self writable csv (initial_state now)) in
      Sorted change_le (printed_rows (trace st))
      /\ Forall (Sorted change_le) (saved_files (trace st)))
  /\ (forall tickers : option (list string),
        let st := snd (SP500.analyze_sp500_stocks w (drop_threshold self) writable
                         tickers (initial_state now)) in
        Sorted change_le (printed_rows (trace st))
        /\ Forall (Sorted change_le) (saved_files (trace st))).
Proof.
  split.
  - intros csv st.
    destruct (analyze_us_stocks_output w self writable csv (initial_state now))
      as (p & fs & Hp & Hps & Hf & Hfs).
    subst st. rewrite Hp, Hf. auto.
  - intros tickers st.
    destruct (analyze_sp500_stocks_output w self writable tickers (initial_state now))
      as (p & fs & Hp & Hps & Hf & Hfs).
    subst st. rewrite Hp, Hf. auto.
Qed.

(** ** Containment of failures inside a batch *)

Lemma Permutation_filter_bool {A} (f : A -> bool) (l l' : list A) :
  Permutation l l' -> Permutation (List.filter f l) (List.filter f l').
Proof.
  induction 1 as [| x l l' _ IH | x y l | l l' l'' _ IH1 _ IH2]; simpl.
  - constructor.
  - destruct (f x); [now constructor | exact IH].
  - destruct (f x), (f y); try reflexivity. apply perm_swap.
  - now rewrite IH1.
Qed.

Lemma filter_bool_length {A} (f : A -> bool) (l : list A) :
  length (List.filter f l) + length (List.filter (fun x => negb (f x)) l)
  = length l.
Proof.
  induction l as [| x l IH]; simpl; [reflexivity |].
  destruct (f x); simpl; lia.
Qed.

Section Containment.
Context {libs : Libs}.
Variables (w : World) (self : Analyzer).

Lemma attempts_outcome {A} (func : nat -> result (option A))
    (remaining attempt : nat) (st : State) :
  fst (attempts w self func remaining attempt st)
  = wrapped_outcome func remaining attempt
  /\ failed_requests (snd (attempts w self func remaining attempt st))
     = failed_requests st.
Proof.
  revert attempt st. induction remaining as [| n IH]; intros attempt st.
  - simpl. auto.
  - rewrite attempts_step. simpl.
    destruct (before_call_fields w self st) as (_ & Hf & _).
    destruct (func attempt) as [v | msg]; simpl; [auto |].
    destruct (is_rate_limit_error msg); simpl; [| auto].
    destruct (IH (S attempt) (back_off w attempt (before_call w self st)))
      as [H1 H2].
    destruct (back_off_fields w attempt (before_call w self st))
      as (_ & _ & Hb & _).
    split; [exact H1 | congruence].
Qed.

(** One call of [analyze_single_stock]: its result is the record of the
    symbol, and the symbol is appended to [failed_requests] exactly when
    its processing raises. *)
Lemma analyze_single_stock_outcome (sym : string) (st : State) :
  fst (analyze_single_stock w self sym st) = record_of w self sym
  /\ failed_requests (snd (analyze_single_stock w self sym st))
     = failed_requests st ++ (if raises_error w self sym then [sym] else []).
Proof.
  unfold analyze_single_stock, record_of, raises_error, symbol_outcome,
    rate_limited_request.
  destruct (attempts_outcome (fetch_stock_data w sym) Config.max_retries 0 st)
    as [H1 H2].
  destruct (attempts w self (fetch_stock_data w sym) Config.max_retries 0 st)
    as [r st']. cbn [fst snd] in H1, H2. rewrite <- H1.
  destruct r as [[[hist i] |] | msg]; cbn [fst snd].
  - destruct (analyze_window self sym hist i); simpl;
      rewrite H2, ?app_nil_r; auto.
  - simpl. rewrite H2, app_nil_r. auto.
  - simpl. rewrite H2. auto.
Qed.

Lemma run_tasks_outcome (order : list string) (st : State) :
  fst (run_tasks w self order st) = omap (record_of w self) order
  /\ failed_requests (snd (run_tasks w self order st))
     = failed_requests st ++ List.filter (raises_error w self) order.
Proof.
  revert st. induction order as [| t rest IH]; intros st; simpl.
  - now rewrite app_nil_r.
  - destruct (analyze_single_stock_outcome t st) as [H1 H2].
    destruct (analyze_single_stock w self t st) as [r st1]. simpl in H1, H2.
    destruct (IH st1) as [H3 H4].
    destruct (run_tasks w self rest st1) as [rs st2]. simpl in H3, H4.
    simpl. rewrite H1, H3, H4, H2, <- app_assoc.
    split; [reflexivity |].
    destruct (raises_error w self t); reflexivity.
Qed.

Lemma record_of_failing (sym : string) :
  raises_error w self sym = true -> record_of w self sym = None.
Proof.
  unfold raises_error, record_of. destruct (symbol_outcome w self sym);
    [discriminate | reflexivity].
Qed.

Lemma omap_record_of_others (l : list string) :
  omap (record_of w self) (List.filter (fun s => negb (raises_error w self s)) l)
  = omap (record_of w self) l.
Proof.
  induction l as [| x l IH]; simpl; [reflexivity |].
  destruct (raises_error w self x) eqn:E; simpl.
  - rewrite (record_of_failing x E). exact IH.
  - destruct (record_of w self x); [f_equal |]; exact IH.
Qed.

End Containment.

(** C6: when the pool runs the [M] tickers of a batch (in whatever order
    it completes them) and the processing of [N] of them raises an error
    that is not a rate limit, [process_batch] returns, as a plain list, the
    records of the other [M - N] tickers, and the [N] failing tickers, no
    other, are appended to [failed_requests]. *)
Theorem batch_containment
    (libs : Libs) (w : World) (self : Analyzer) (ticker_batch : list string)
    (st : State) :
  Permutation ticker_batch (schedule w ticker_batch) ->
  let failing := List.filter (raises_error w self) ticker_batch in
  let others :=
    List.filter (fun s => negb (raises_error w self s)) ticker_batch in
  let '(batch_results, st') := process_batch w self ticker_batch st in
  Permutation batch_results (omap (record_of w self) others)
  /\ (exists appended,
         failed_requests st' = failed_requests st ++ appended
         /\ Permutation appended failing)
  /\ length failing + length others = length ticker_batch.
Proof.
  intros Hperm failing others. unfold process_batch.
  destruct (run_tasks_outcome w self (schedule w ticker_batch) st) as [H1 H2].
  destruct (run_tasks w self (schedule w ticker_batch) st) as [rs st'].
  simpl in H1, H2. split; [| split].
  - subst others. rewrite omap_record_of_others, H1.
    symmetry. now apply omap_Permutation.
  - exists (List.filter (raises_error w self) (schedule w ticker_batch)).
    split; [exact H2 |]. symmetry. now apply Permutation_filter_bool.
  - apply filter_bool_length.
Qed.

Lemma batch_containment_witness :
  let w := Examples.flaky ["BAD1"; "BAD2"] Examples.drop_12 in
  let batch := ["AAPL"; "BAD1"; "MSFT"; "BAD2"; "GOOG"] in
  let out := process_batch (libs := TaModel.libs) w Examples.balanced_analyzer
               batch (initial_state Examples.t0) in
  Permutation batch (schedule w batch)
  /\ map symbol (fst out) = ["GOOG"; "MSFT"; "AAPL"]
  /\ failed_requests (snd out) = ["BAD2"; "BAD1"]
  /\ Permutation (fst out)
       (omap (record_of (libs := TaModel.libs) w Examples.balanced_analyzer)
          ["AAPL"; "MSFT"; "GOOG"]).
Proof.
  intros w batch out.
  assert (Hp : Permutation batch (schedule w batch)) by apply Permutation_rev.
  split; [exact Hp |].
  split; [vm_compute; reflexivity |].
  split; [vm_compute; reflexivity |].
  pose proof (batch_containment TaModel.libs w Examples.balanced_analyzer batch
                (initial_state Examples.t0) Hp) as H.
  fold out in H. destruct out as [rs st']. exact (proj1 H).
Defined.

(** ** Spacing of the calls of one worker *)

Lemma qplus_eq (a b : Q) : (qplus a b == a + b)%Q.
Proof. apply Qred_correct. Qed.

Lemma qminus_eq (a b : Q) : (qminus a b == a - b)%Q.
Proof. apply Qred_correct. Qed.

Lemma qmult_eq (a b : Q) : (qmult a b == a * b)%Q.
Proof. apply Qred_correct. Qed.

Lemma Qltb_true (a b : Q) : Qltb a b = true -> (a < b)%Q.
Proof.
  unfold Qltb. intros H. apply negb_true_iff in H.
  apply Qnot_le_lt. intros Hle. apply Qle_bool_iff in Hle. congruence.
Qed.

Lemma Qltb_false (a b : Q) : Qltb a b = false -> (b <= a)%Q.
Proof.
  unfold Qltb. intros H. apply negb_false_iff in H. now apply Qle_bool_iff.
Qed.

Lemma request_times_app (a b : list Event) :
  request_times (a ++ b) = request_times a ++ request_times b.
Proof.
  induction a as [| e a IH]; simpl; [reflexivity |].
  destruct e; simpl; now rewrite ?IH.
Qed.

Lemma spaced_snoc (gap : Q) (ts : list Q) (t' : Q) :
  spaced gap ts ->
  match last ts with
  | Some t => (t + gap <= t')%Q
  | None => True
  end ->
  spaced gap (ts ++ [t']).
Proof.
  induction ts as [| t1 [| t2 rest] IH]; simpl; intros Hs Hl.
  - exact I.
  - auto.
  - destruct Hs as [H12 Hs]. split; [exact H12 |]. apply IH; assumption.
Qed.

Section Spacing.
Context {libs : Libs}.
Variables (w : World) (self : Analyzer).
Hypothesis random_nonneg : forall n, (0 <= random w n)%Q.
Hypothesis range_ordered : (fst (delay_range self) <= snd (delay_range self))%Q.

Let gap : Q := fst (delay_range self).

(** The delay drawn by the throttle is at least the lower bound. *)
Lemma min_delay_bound (st : State) :
  (gap <= fst (uniform w (delay_range self) st))%Q.
Proof.
  subst gap. unfold uniform. destruct (delay_range self) as [lo hi]. simpl in *.
  rewrite qplus_eq, qmult_eq, qminus_eq.
  pose proof (random_nonneg (draws st)) as Hr.
  assert (0 <= (hi - lo) * random w (draws st))%Q.
  { apply Qmult_le_0_compat; [lra | exact Hr]. }
  lra.
Qed.

(** The throttle starts a call at least [min_delay] after the previous
    one. *)
Lemma throttle_spacing (st : State) :
  let st' := throttle w self st in
  request_times (trace st') = request_times (trace st) ++ [last_request_time st']
  /\ (last_request_time st + gap <= last_request_time st')%Q.
Proof.
  pose proof (min_delay_bound st) as Hmin.
  unfold throttle, throttle_wait. unfold uniform in *.
  destruct (delay_range self) as [lo hi]. cbn [fst snd] in *.
  set (min_delay := qplus lo _) in *.
  destruct (Qltb _ min_delay) eqn:E; simpl.
  - rewrite !request_times_app. simpl. rewrite !app_nil_r.
    split; [reflexivity |].
    rewrite qplus_eq, !qminus_eq. lra.
  - rewrite !request_times_app. simpl. rewrite !app_nil_r.
    split; [reflexivity |].
    apply Qltb_false in E. rewrite qminus_eq in E. lra.
Qed.

Lemma throttle_keeps_inv (st : State) :
  throttle_inv gap st -> throttle_inv gap (throttle w self st).
Proof.
  intros [Hs Hl]. destruct (throttle_spacing st) as [Ht Hg].
  unfold throttle_inv. rewrite Ht. split.
  - apply spaced_snoc; [exact Hs |].
    destruct (last (request_times (trace st))) as [t |]; [| exact I].
    now rewrite <- Hl.
  - now rewrite last_snoc.
Qed.

(** Steps that start no call and leave [last_request_time] alone. *)
Lemma inv_transfer (st st' : State) :
  request_times (trace st') = request_times (trace st) ->
  last_request_time st' = last_request_time st ->
  throttle_inv gap st -> throttle_inv gap st'.
Proof. unfold throttle_inv. now intros -> ->. Qed.

Lemma before_call_keeps_inv (st : State) :
  throttle_inv gap st -> throttle_inv gap (before_call w self st).
Proof.
  intros H. apply (inv_transfer (throttle w self st)); [reflexivity .. |].
  now apply throttle_keeps_inv.
Qed.

Lemma back_off_keeps_inv (attempt : nat) (st : State) :
  throttle_inv gap st -> throttle_inv gap (back_off w attempt st).
Proof.
  apply inv_transfer; [| reflexivity].
  unfold back_off. simpl. rewrite !request_times_app. simpl.
  now rewrite !app_nil_r.
Qed.

Lemma attempts_keep_inv {A} (func : nat -> result (option A))
    (remaining attempt : nat) (st : State) :
  throttle_inv gap st ->
  throttle_inv gap (snd (attempts w self func remaining attempt st)).
Proof.
  revert attempt st. induction remaining as [| n IH]; intros attempt st H.
  - simpl. apply (inv_transfer st); [| reflexivity | exact H].
    simpl. rewrite request_times_app. simpl. now rewrite app_nil_r.
  - rewrite attempts_step.
    pose proof (before_call_keeps_inv st H) as H1.
    destruct (func attempt) as [v | msg]; simpl; [exact H1 |].
    destruct (is_rate_limit_error msg); [| exact H1].
    apply IH. now apply back_off_keeps_inv.
Qed.

Lemma on_error_keeps_inv (sym msg : string) (st : State) :
  throttle_inv gap st -> throttle_inv gap (on_error sym msg st).
Proof.
  apply inv_transfer; [| reflexivity].
  simpl. rewrite request_times_app. simpl. now rewrite app_nil_r.
Qed.

Lemma analyze_single_stock_keeps_inv (sym : string) (st : State) :
  throttle_inv gap st ->
  throttle_inv gap (snd (analyze_single_stock w self sym st)).
Proof.
  intros H. unfold analyze_single_stock, rate_limited_request.
  pose proof (attempts_keep_inv (fetch_stock_data w sym) Config.max_retries 0 st H)
    as H1.
  destruct (attempts w self (fetch_stock_data w sym) Config.max_retries 0 st)
    as [[[[hist i] |] | msg] st']; cbn [fst snd] in *; try exact H1.
  - destruct (analyze_window self sym hist i); cbn [fst snd]; [exact H1 |].
    now apply on_error_keeps_inv.
  - now apply on_error_keeps_inv.
Qed.

Lemma run_tasks_keep_inv (order : list string) (st : State) :
  throttle_inv gap st -> throttle_inv gap (snd (run_tasks w self order st)).
Proof.
  revert st. induction order as [| t rest IH]; intros st H; simpl; [exact H |].
  pose proof (analyze_single_stock_keeps_inv t st H) as H1.
  destruct (analyze_single_stock w self t st) as [r st1].
  specialize (IH st1 H1). destruct (run_tasks w self rest st1) as [rs st2].
  exact IH.
Qed.

End Spacing.

(** A single worker: the steps of the pool for one pass through the
    throttle give the state that [throttle] computes. *)
Lemma single_worker_throttle (w : World) (self : Analyzer) (st : State) :
  let actions :=
    match fst (throttle_wait w self st) with
    | Some sleep_time => [Pool.Begin 0; Pool.Tick sleep_time; Pool.Wake 0; Pool.Stamp 0]
    | None => [Pool.Begin 0; Pool.Stamp 0]
    end in
  match fst (throttle_wait w self st) with
  | Some sleep_time => Qle_bool 0 sleep_time = true
  | None => True
  end ->
  Pool.run w self actions (Pool.start 1 st)
  = Some {| Pool.shared := throttle w self st; Pool.workers := [Pool.Outside] |}.
Proof.
  unfold throttle. destruct (throttle_wait w self st) as [[d |] st1] eqn:E;
    simpl; rewrite E; intros Hd.
  - simpl. rewrite Hd. simpl.
    assert (Hw : Qle_bool (qplus (clock st1) d) (qplus (clock st1) d) = true)
      by (apply Qle_bool_iff, Qle_refl).
    rewrite Hw. reflexivity.
  - simpl. reflexivity.
Qed.

(** C7 (amended): when the calls are made one after the other by a single
    worker, the start times of consecutive provider calls are at least the
    configured minimum delay apart. (The code takes no lock around the
    shared timestamp, so nothing is said of workers running together.) *)
Theorem sequential_requests_spaced
    (libs : Libs) (w : World) (self : Analyzer) (order : list string) (now : Q) :
  (forall n, (0 <= random w n)%Q) ->
  (fst (delay_range self) <= snd (delay_range self))%Q ->
  spaced (fst (delay_range self))
    (request_times (trace (snd (run_tasks w self order (initial_state now))))).
Proof.
  intros Hr Ho.
  apply (run_tasks_keep_inv w self Hr Ho order (initial_state now)).
  split; exact I.
Qed.

Lemma sequential_requests_spaced_witness :
  let w := Examples.serving Examples.drop_half Examples.no_info in
  let self := Examples.balanced_analyzer in
  (forall n, (0 <= random w n)%Q)
  /\ (fst (delay_range self) <= snd (delay_range self))%Q
  /\ spaced (1 # 2)
       (request_times
          (trace (snd (run_tasks (libs := TaModel.libs) w self
                         ["AAPL"; "MSFT"; "GOOG"] (initial_state Examples.t0))))).
Proof.
  intros w self.
  assert (Hr : forall n, (0 <= random w n)%Q)
    by (intros n; vm_compute; discriminate).
  assert (Ho : (fst (delay_range self) <= snd (delay_range self))%Q)
    by (vm_compute; discriminate).
  split; [exact Hr |]. split; [exact Ho |].
  exact (sequential_requests_spaced TaModel.libs w self ["AAPL"; "MSFT"; "GOOG"]
           Examples.t0 Hr Ho).
Defined.

(** Two workers in the throttle at the same time: both read the same
    [last_request_time], sleep the same 1.15 s and start their calls at
    the same instant 1001.25, less than the minimum delay of 0.5 s apart. *)
Lemma concurrent_workers_start_together :
  let w := Examples.serving Examples.drop_half Examples.no_info in
  let self := Examples.balanced_analyzer in
  fst (delay_range self) = (1 # 2)%Q
  /\ option_map (fun c => request_times (trace (Pool.shared c)))
       (Pool.run w self Examples.overlapping_workers
          (Pool.start 2 (initial_state Examples.t0)))
     = Some [1000%Q; (4005 # 4)%Q; (4005 # 4)%Q]
  /\ ~ spaced (1 # 2) [1000%Q; (4005 # 4)%Q; (4005 # 4)%Q].
Proof.
  split; [reflexivity |]. split; [vm_compute; reflexivity |].
  simpl. intros (_ & H & _). revert H. apply Qlt_not_le. reflexivity.
Qed.

(** ** Strings *)

Module StrFacts.

Lemma all_chars_impl (p q : ascii -> bool) (s : string) :
  (forall c, p c = true -> q c = true) ->
  Py.all_chars p s = true -> Py.all_chars q s = true.
Proof.
  intros Hpq. induction s as [| c r IH]; simpl; [auto |].
  intros H. apply andb_true_iff in H as [Hc Hr].
  rewrite (Hpq c Hc). now apply IH.
Qed.

Lemma ticker_char_not_space (c : ascii) :
  Tickers.ticker_char c = true -> Py.isspace c = false.
Proof.
  destruct c as [[] [] [] [] [] [] [] []]; vm_compute; intros H;
    first [reflexivity | discriminate H].
Qed.

Lemma alpha_ticker_char (c : ascii) :
  Py.isalpha_char c = true -> Tickers.ticker_char c = true.
Proof.
  unfold Tickers.ticker_char, Py.isalnum_char. now intros ->.
Qed.

Lemma lstrip_fixed (s : string) : Py.first_isalpha s = true -> Py.lstrip s = s.
Proof.
  destruct s as [| c r]; simpl; [reflexivity |]. intros H.
  now rewrite (ticker_char_not_space c (alpha_ticker_char c H)).
Qed.

Lemma rstrip_fixed (s : string) :
  Py.all_chars Tickers.ticker_char s = true -> Py.rstrip s = s.
Proof.
  induction s as [| c r IH]; simpl; [reflexivity |].
  intros H. apply andb_true_iff in H as [Hc Hr].
  rewrite (IH Hr), (ticker_char_not_space c Hc), andb_false_r. reflexivity.
Qed.

Lemma strip_fixed (s : string) :
  Py.first_isalpha s = true -> Py.all_chars Tickers.ticker_char s = true ->
  Py.strip s = s.
Proof.
  intros H1 H2. unfold Py.strip. rewrite (lstrip_fixed s H1).
  now apply rstrip_fixed.
Qed.

(** Deleting a character. *)
Lemma all_chars_deleted (p : ascii -> bool) (a : ascii) (s : string) :
  Py.all_chars p (Py.replace_char a "" s) = true ->
  Py.all_chars (fun c => p c || Ascii.eqb c a) s = true.
Proof.
  induction s as [| c r IH]; simpl; [auto |].
  destruct (Ascii.eqb c a); simpl.
  - rewrite orb_true_r. exact IH.
  - intros H. apply andb_true_iff in H as [Hc Hr].
    rewrite Hc. simpl. now apply IH.
Qed.

Lemma deleted_not_empty (a : ascii) (s : string) :
  Py.is_empty (Py.replace_char a "" s) = false -> Py.is_empty s = false.
Proof. destruct s; simpl; [auto | reflexivity]. Qed.

(** What passing the last test of the loop body says about a ticker. *)
Lemma valid_ticker_chars (t : string) :
  Py.isalnum (Py.replace_char "." "" (Py.replace_char "-" "" t)) = true ->
  Py.all_chars Tickers.ticker_char t = true /\ Py.is_empty t = false.
Proof.
  unfold Py.isalnum. intros H. apply andb_true_iff in H as [Hne Hall].
  apply negb_true_iff in Hne. split.
  - apply all_chars_deleted, all_chars_deleted in Hall.
    revert Hall. apply all_chars_impl. intros c. unfold Tickers.ticker_char.
    destruct (Py.isalnum_char c), (Ascii.eqb c "."), (Ascii.eqb c "-"); auto.
  - now apply deleted_not_empty, deleted_not_empty in Hne.
Qed.

(** Replacing a character by one character. *)
Lemma length_replace_char (a b : ascii) (s : string) :
  String.length (Py.replace_char a (String b "") s) = String.length s.
Proof.
  induction s as [| c r IH]; simpl; [reflexivity |].
  destruct (Ascii.eqb c a);
    [change (String.length (String b (Py.replace_char a (String b "") r))
             = S (String.length r)) |];
    simpl; now rewrite IH.
Qed.

(** [c in s] for a character [c]. *)
Lemma contains_char_cons (c c' : ascii) (r : string) :
  Py.contains (String c "") (String c' r)
  = Ascii.eqb c c' || Py.contains (String c "") r.
Proof.
  simpl. destruct (Ascii.ascii_dec c c') as [-> | Hne].
  - rewrite Ascii.eqb_refl. now destruct r.
  - apply Ascii.eqb_neq in Hne. now rewrite Hne.
Qed.

Lemma contains_char_iff (c : ascii) (s : string) :
  Py.contains (String c "") s = false
  <-> Py.all_chars (fun x => negb (Ascii.eqb c x)) s = true.
Proof.
  induction s as [| c' r IH]; [simpl; tauto |].
  rewrite contains_char_cons. cbn [Py.all_chars].
  rewrite orb_false_iff, andb_true_iff, negb_true_iff, IH. tauto.
Qed.

Lemma ticker_lacks_char (c : ascii) (s : string) :
  Tickers.ticker_char c = false ->
  Py.all_chars Tickers.ticker_char s = true ->
  Py.contains (String c "") s = false.
Proof.
  intros Hc Hs. apply contains_char_iff. revert Hs. apply all_chars_impl.
  intros x Hx. apply negb_true_iff, Ascii.eqb_neq. intros <-. congruence.
Qed.

Lemma replaced_char_gone (a b : ascii) (s : string) :
  a <> b -> Py.contains (String a "") (Py.replace_char a (String b "") s) = false.
Proof.
  intros Hab. induction s as [| c r IH]; [reflexivity |]. simpl Py.replace_char.
  destruct (Ascii.eqb c a) eqn:E.
  - change (String.append (String b "") ?x) with (String b x).
    rewrite contains_char_cons, IH, orb_false_r. now apply Ascii.eqb_neq.
  - rewrite contains_char_cons, IH, orb_false_r. now rewrite Ascii.eqb_sym.
Qed.

Lemma replacement_char_present (a b : ascii) (s : string) :
  Py.contains (String a "") s = true ->
  Py.contains (String b "") (Py.replace_char a (String b "") s) = true.
Proof.
  induction s as [| c r IH]; [discriminate |].
  rewrite contains_char_cons. simpl Py.replace_char. intros H.
  destruct (Ascii.eqb c a) eqn:E.
  - change (String.append (String b "") ?x) with (String b x).
    now rewrite contains_char_cons, Ascii.eqb_refl.
  - rewrite contains_char_cons. rewrite Ascii.eqb_sym, E in H. simpl in H.
    rewrite (IH H). apply orb_true_r.
Qed.

(** A string that ends with [suffix] has all its characters. *)
Lemma endswith_has_char (c : ascii) (suffix s : string) :
  Py.endswith s suffix = true ->
  Py.contains (String c "") suffix = true ->
  Py.contains (String c "") s = true.
Proof.
  intros He Hc. induction s as [| c' r IH].
  - destruct suffix; [exact Hc | discriminate He].
  - cbn [Py.endswith] in He.
    destruct (String.eqb_spec (String c' r) suffix) as [<- | _]; [exact Hc |].
    rewrite contains_char_cons, (IH He). apply orb_true_r.
Qed.

Lemma lacking_char_not_suffix (c : ascii) (suffix s : string) :
  Py.contains (String c "") s = false ->
  Py.contains (String c "") suffix = true ->
  Py.endswith s suffix = false.
Proof.
  intros Hs Hc. destruct (Py.endswith s suffix) eqn:E; [| reflexivity].
  rewrite (endswith_has_char c suffix s E Hc) in Hs. discriminate.
Qed.

End StrFacts.

(** ** The ticker filter *)

Section TickerFilter.

Lemma excluded_suffixes_special :
  Forall (fun suffix =>
            Py.contains "." suffix || Py.contains "$" suffix
            || Py.contains "#" suffix = true)
    Tickers.excluded_suffixes.
Proof. repeat (constructor; [reflexivity |]). constructor. Qed.

Lemma no_excluded_suffix (t : string) :
  Py.contains "." t = false -> Py.contains "$" t = false ->
  Py.contains "#" t = false ->
  existsb (Py.endswith t) Tickers.excluded_suffixes = false.
Proof.
  intros Hdot Hdollar Hhash.
  induction excluded_suffixes_special as [| suffix l Hs _ IH]; [reflexivity |].
  simpl. rewrite IH, orb_false_r.
  apply orb_true_iff in Hs as [Hs | Hs]; [apply orb_true_iff in Hs as [Hs | Hs] |].
  - exact (StrFacts.lacking_char_not_suffix "." suffix t Hdot Hs).
  - exact (StrFacts.lacking_char_not_suffix "$" suffix t Hdollar Hs).
  - exact (StrFacts.lacking_char_not_suffix "#" suffix t Hhash Hs).
Qed.

(** A ticker that passes every test of the loop body unchanged. *)
Lemma clean_ticker_accepts (t : string) :
  Py.first_isalpha t = true ->
  Py.isalnum (Py.replace_char "." "" (Py.replace_char "-" "" t)) = true ->
  t <> "nan" -> (String.length t <= 6)%nat ->
  existsb (Py.endswith t) Tickers.excluded_suffixes = false ->
  Py.contains "." t && negb (Py.endswith t ".") = false ->
  Tickers.clean_ticker t = Some t.
Proof.
  intros Halpha Hvalid Hnan Hlen Hsuf Hdot.
  destruct (StrFacts.valid_ticker_chars t Hvalid) as [Hchars Hne].
  unfold Tickers.clean_ticker.
  rewrite (StrFacts.strip_fixed t Halpha Hchars), Hne.
  destruct (String.eqb_spec t "nan") as [? | _]; [contradiction |].
  destruct (Nat.ltb_spec 6 (String.length t)); [lia |].
  cbn [orb]. rewrite Hsuf.
  rewrite (StrFacts.ticker_lacks_char "$" t eq_refl Hchars),
    (StrFacts.ticker_lacks_char "#" t eq_refl Hchars).
  cbn [orb]. rewrite Hdot, Hvalid, Halpha. reflexivity.
Qed.

(** Whatever the loop body appends, it would append again unchanged. *)
Lemma clean_ticker_fixed (raw t : string) :
  Tickers.clean_ticker raw = Some t -> Tickers.clean_ticker t = Some t.
Proof.
  unfold Tickers.clean_ticker at 1. set (t0 := Py.strip raw).
  destruct (Py.is_empty t0) eqn:Hne; [discriminate |].
  destruct (String.eqb_spec t0 "nan") as [? | Hnan]; [discriminate |].
  destruct (Nat.ltb_spec 6 (String.length t0)) as [? | Hlen]; [discriminate |].
  cbn [orb].
  destruct (existsb (Py.endswith t0) Tickers.excluded_suffixes) eqn:Hsuf;
    [discriminate |].
  destruct (Py.contains "$" t0 || Py.contains "#" t0) eqn:Hspecial;
    [discriminate |].
  destruct (Py.contains "." t0 && negb (Py.endswith t0 ".")) eqn:Hdot.
  - (* dots replaced by hyphens *)
    set (t1 := Py.replace_char "." "-" t0).
    destruct (Py.isalnum _) eqn:Hvalid; [| discriminate].
    destruct (Py.first_isalpha t1) eqn:Halpha; [| discriminate].
    intros [= <-].
    destruct (StrFacts.valid_ticker_chars t1 Hvalid) as [Hchars _].
    assert (Hgone : Py.contains "." t1 = false).
    { apply StrFacts.replaced_char_gone. discriminate. }
    apply clean_ticker_accepts; try assumption.
    + intros Heq. apply andb_true_iff in Hdot as [Hdot _].
      pose proof (StrFacts.replacement_char_present "." "-" t0 Hdot) as Hhyphen.
      fold t1 in Hhyphen. rewrite Heq in Hhyphen. discriminate Hhyphen.
    + subst t1. now rewrite StrFacts.length_replace_char.
    + apply no_excluded_suffix; [exact Hgone | |];
        now apply StrFacts.ticker_lacks_char.
    + now rewrite Hgone.
  - (* kept as it is *)
    destruct (Py.isalnum _) eqn:Hvalid; [| discriminate].
    destruct (Py.first_isalpha t0) eqn:Halpha; [| discriminate].
    intros [= <-]. now apply clean_ticker_accepts.
Qed.

Lemma omap_fixed {A} (f : A -> option A) (l : list A) :
  (forall x, x ∈ l -> f x = Some x) -> omap f l = l.
Proof.
  induction l as [| x l IH]; intros H; [reflexivity |].
  cbn [omap list_omap]. rewrite (H x) by left.
  f_equal. apply IH. intros y Hy. apply H. now right.
Qed.

(** [sorted] *)

Lemma insert_sorted_perm (x : string) (l : list string) :
  Permutation (Tickers.insert_sorted x l) (x :: l).
Proof.
  induction l as [| y r IH]; simpl; [reflexivity |].
  destruct (String.ltb y x); [| reflexivity].
  rewrite IH. apply perm_swap.
Qed.

Lemma sorted_perm (l : list string) : Permutation (Tickers.sorted l) l.
Proof.
  induction l as [| x l IH]; simpl; [reflexivity |].
  rewrite insert_sorted_perm. now apply perm_skip.
Qed.

Lemma ltb_le (a b : string) : String.ltb a b = true -> String.le a b.
Proof.
  unfold String.ltb, String.le, String.leb.
  destruct (String.compare a b); [discriminate | intros _; exact I | discriminate].
Qed.

Lemma not_ltb_le (a b : string) : String.ltb b a = false -> String.le a b.
Proof.
  unfold String.ltb, String.le, String.leb. rewrite (String.compare_antisym a b).
  destruct (String.compare b a); simpl; [intros _; exact I | discriminate |].
  intros _; exact I.
Qed.

Lemma insert_sorted_Sorted (x : string) (l : list string) :
  Sorted String.le l -> Sorted String.le (Tickers.insert_sorted x l).
Proof.
  induction 1 as [| y r Hr IH Hhd]; simpl; [repeat constructor |].
  destruct (String.ltb y x) eqn:E.
  - constructor; [exact IH |].
    destruct r as [| z r']; simpl.
    + constructor. now apply ltb_le.
    + destruct (String.ltb z x); constructor;
        [now inversion Hhd | now apply ltb_le].
  - constructor; [now constructor |]. constructor. now apply not_ltb_le.
Qed.

Lemma sorted_Sorted (l : list string) : Sorted String.le (Tickers.sorted l).
Proof.
  induction l as [| x l IH]; simpl; [constructor |].
  now apply insert_sorted_Sorted.
Qed.

(** [sorted(list(set(xs)))] *)

Lemma sorted_set_elem (x : string) (l : list string) :
  x ∈ Tickers.sorted_set l <-> x ∈ l.
Proof.
  unfold Tickers.sorted_set. rewrite sorted_perm, elem_of_elements.
  apply elem_of_list_to_set.
Qed.

Lemma sorted_set_NoDup (l : list string) : NoDup (Tickers.sorted_set l).
Proof.
  unfold Tickers.sorted_set. rewrite sorted_perm. apply NoDup_elements.
Qed.

Lemma sorted_set_fixed (l : list string) :
  Sorted String.le l -> NoDup l -> Tickers.sorted_set l = l.
Proof.
  intros Hs Hn. apply (Sorted_unique String.le).
  - apply sorted_Sorted.
  - exact Hs.
  - apply NoDup_Permutation; [apply sorted_set_NoDup | exact Hn |].
    intros x. apply sorted_set_elem.
Qed.

Lemma filter_tickers_clean (t : string) (l : list string) :
  t ∈ Tickers.filter_tickers l -> Tickers.clean_ticker t = Some t.
Proof.
  unfold Tickers.filter_tickers, Tickers.valid_tickers.
  rewrite sorted_set_elem, list_elem_of_omap.
  intros (raw & _ & Hraw). exact (clean_ticker_fixed raw t Hraw).
Qed.

End TickerFilter.

(** C9: the ticker filter is idempotent, and what it returns has no
    duplicate and is in ascending order; every ticker it returns is one the
    loop body accepts unchanged. *)
Theorem filter_tickers_idempotent (all_tickers : list string) :
  Tickers.filter_tickers (Tickers.filter_tickers all_tickers)
  = Tickers.filter_tickers all_tickers
  /\ NoDup (Tickers.filter_tickers all_tickers)
  /\ Sorted String.le (Tickers.filter_tickers all_tickers)
  /\ Tickers.get_fortune5000_tickers (Ok (Tickers.filter_tickers all_tickers))
     = Tickers.get_fortune5000_tickers (Ok all_tickers).
Proof.
  assert (Hn : NoDup (Tickers.filter_tickers all_tickers))
    by apply sorted_set_NoDup.
  assert (Hs : Sorted String.le (Tickers.filter_tickers all_tickers))
    by apply sorted_Sorted.
  assert (Hi : Tickers.filter_tickers (Tickers.filter_tickers all_tickers)
               = Tickers.filter_tickers all_tickers).
  { unfold Tickers.filter_tickers at 1. unfold Tickers.valid_tickers.
    rewrite omap_fixed; [now apply sorted_set_fixed |].
    intros t. apply filter_tickers_clean. }
  repeat split; try assumption. simpl. now rewrite Hi.
Qed.

(** ** What the ticker filter lets through *)

Section TickerShape.

Lemma first_isalpha_length (t : string) :
  Py.first_isalpha t = true -> (1 <= String.length t)%nat.
Proof. destruct t; simpl; [discriminate | lia]. Qed.

(** What the loop body appends is a well-formed symbol. *)
Lemma clean_ticker_shape (raw t : string) :
  Tickers.clean_ticker raw = Some t ->
  (1 <= String.length t <= 6)%nat
  /\ Py.first_isalpha t = true
  /\ Py.all_chars Tickers.ticker_char t = true
  /\ t <> "nan"
  /\ (Py.contains "." t = true -> Py.endswith t "." = true).
Proof.
  unfold Tickers.clean_ticker. set (t0 := Py.strip raw).
  destruct (Py.is_empty t0) eqn:Hne; [discriminate |].
  destruct (String.eqb_spec t0 "nan") as [? | Hnan]; [discriminate |].
  destruct (Nat.ltb_spec 6 (String.length t0)) as [? | Hlen]; [discriminate |].
  cbn [orb].
  destruct (existsb (Py.endswith t0) Tickers.excluded_suffixes); [discriminate |].
  destruct (Py.contains "$" t0 || Py.contains "#" t0); [discriminate |].
  destruct (Py.contains "." t0 && negb (Py.endswith t0 ".")) eqn:Hdot.
  - set (t1 := Py.replace_char "." "-" t0).
    destruct (Py.isalnum _) eqn:Hvalid; [| discriminate].
    destruct (Py.first_isalpha t1) eqn:Halpha; [| discriminate].
    intros [= <-].
    destruct (StrFacts.valid_ticker_chars t1 Hvalid) as [Hchars _].
    assert (Hgone : Py.contains "." t1 = false).
    { apply StrFacts.replaced_char_gone. discriminate. }
    split; [split; [now apply first_isalpha_length |] |].
    { subst t1. now rewrite StrFacts.length_replace_char. }
    split; [exact Halpha |]. split; [exact Hchars |]. split.
    + intros Heq. apply andb_true_iff in Hdot as [Hdot _].
      pose proof (StrFacts.replacement_char_present "." "-" t0 Hdot) as Hhyphen.
      fold t1 in Hhyphen. rewrite Heq in Hhyphen. discriminate Hhyphen.
    + rewrite Hgone. discriminate.
  - destruct (Py.isalnum _) eqn:Hvalid; [| discriminate].
    destruct (Py.first_isalpha t0) eqn:Halpha; [| discriminate].
    intros [= <-].
    destruct (StrFacts.valid_ticker_chars t0 Hvalid) as [Hchars _].
    split; [split; [now apply first_isalpha_length | exact Hlen] |].
    split; [exact Halpha |]. split; [exact Hchars |]. split; [exact Hnan |].
    intros Hc. rewrite Hc in Hdot. simpl in Hdot.
    now apply negb_false_iff in Hdot.
Qed.

Lemma filter_tickers_elem (t : string) (l : list string) :
  t ∈ Tickers.filter_tickers l
  <-> exists raw, raw ∈ l /\ Tickers.clean_ticker raw = Some t.
Proof.
  unfold Tickers.filter_tickers, Tickers.valid_tickers.
  now rewrite sorted_set_elem, list_elem_of_omap.
Qed.

(** Stripping keeps a suffix that starts and ends on a visible character. *)
Lemma lstrip_keeps_suffix (s : string) (c : ascii) (r : string) :
  Py.isspace c = false ->
  exists p, Py.lstrip (s ++ String c r)%string = (p ++ String c r)%string.
Proof.
  intros Hc. induction s as [| a s IH]; simpl.
  - rewrite Hc. now exists "".
  - destruct (Py.isspace a); [exact IH |]. now exists (String a s).
Qed.

Lemma append_not_empty (p r : string) :
  Py.is_empty r = false -> Py.is_empty (p ++ r)%string = false.
Proof. destruct p; simpl; auto. Qed.

Lemma rstrip_keeps_suffix (p r : string) :
  Py.rstrip r = r -> Py.is_empty r = false ->
  Py.rstrip (p ++ r)%string = (p ++ r)%string.
Proof.
  intros Hr Hne. induction p as [| a p IH]; simpl; [exact Hr |].
  rewrite IH, (append_not_empty p r Hne). reflexivity.
Qed.

Lemma endswith_append (p suffix : string) :
  Py.endswith (p ++ suffix)%string suffix = true.
Proof.
  induction p as [| a p IH].
  - change (Py.endswith suffix suffix = true).
    destruct suffix as [| c r]; [reflexivity |].
    cbn [Py.endswith]. now rewrite String.eqb_refl.
  - change (Py.endswith (String a (p ++ suffix)%string) suffix = true).
    cbn [Py.endswith]. destruct (String.eqb _ _); [reflexivity | exact IH].
Qed.

Lemma isupper_not_space (c : ascii) : Py.isupper c = true -> Py.isspace c = false.
Proof.
  destruct c as [[] [] [] [] [] [] [] []]; vm_compute; intros H;
    first [reflexivity | discriminate H].
Qed.

Lemma class_suffix_excluded (c : ascii) :
  Py.isupper c = true ->
  existsb (String.eqb (String "." (String c ""))) Tickers.excluded_suffixes = true.
Proof.
  destruct c as [[] [] [] [] [] [] [] []]; vm_compute; intros H;
    first [reflexivity | discriminate H].
Qed.

Lemma stripped_class_share (stem : string) (class : ascii) :
  Py.isupper class = true ->
  exists p, Py.strip (stem ++ String "." (String class ""))%string
            = (p ++ String "." (String class ""))%string.
Proof.
  intros Hu. unfold Py.strip.
  destruct (lstrip_keeps_suffix stem "." (String class "") eq_refl) as [p ->].
  exists p. apply rstrip_keeps_suffix; [| reflexivity].
  simpl. now rewrite (isupper_not_space class Hu).
Qed.

Lemma append_assoc (a b c : string) :
  ((a ++ b) ++ c)%string = (a ++ (b ++ c))%string.
Proof.
  induction a as [| x a IH]; [reflexivity |].
  change (String x ((a ++ b) ++ c)%string = String x (a ++ (b ++ c))%string).
  now rewrite IH.
Qed.

Lemma replace_char_append (a : ascii) (b s r : string) :
  Py.replace_char a b (s ++ r)%string
  = (Py.replace_char a b s ++ Py.replace_char a b r)%string.
Proof.
  induction s as [| c s IH]; [reflexivity |].
  change (Py.replace_char a b (String c (s ++ r)%string)
          = (Py.replace_char a b (String c s) ++ Py.replace_char a b r)%string).
  cbn [Py.replace_char]. destruct (Ascii.eqb c a); rewrite IH;
    [symmetry; apply append_assoc | reflexivity].
Qed.

Lemma isupper_not_dot (c : ascii) : Py.isupper c = true -> Ascii.eqb c "." = false.
Proof.
  destruct c as [[] [] [] [] [] [] [] []]; vm_compute; intros H;
    first [reflexivity | discriminate H].
Qed.

End TickerShape.

(** X1: every ticker that [get_fortune5000_tickers] returns has 1 to 6
    characters, starts with a letter, is made of letters, digits, hyphens
    and dots only (so it holds no [$], no [#] and no blank), is not the text
    [nan], and when it holds a dot it ends on a dot (a cell such as [A.B.]
    is kept as it is, the dots of a cell that does not end on one being
    turned into hyphens); and a ticker is returned exactly when some cell of
    the [Symbol] column cleans to it. *)
Theorem filtered_tickers_are_well_formed (all_tickers : list string) :
  Forall (fun t =>
            (1 <= String.length t <= 6)%nat
            /\ Py.first_isalpha t = true
            /\ Py.all_chars Tickers.ticker_char t = true
            /\ Py.contains "$" t = false /\ Py.contains "#" t = false
            /\ Py.strip t = t
            /\ t <> "nan"
            /\ (Py.contains "." t = true -> Py.endswith t "." = true))
    (Tickers.filter_tickers all_tickers)
  /\ (forall t, t ∈ Tickers.filter_tickers all_tickers
                <-> exists raw, raw ∈ all_tickers
                                /\ Tickers.clean_ticker raw = Some t).
Proof.
  split; [| intros t; apply filter_tickers_elem].
  apply List.Forall_forall. intros t Ht.
  apply list_elem_of_In, filter_tickers_elem in Ht as (raw & _ & Hraw).
  destruct (clean_ticker_shape raw t Hraw) as (Hlen & Halpha & Hchars & Hnan & Hdot).
  split; [exact Hlen |]. split; [exact Halpha |]. split; [exact Hchars |].
  split; [now apply StrFacts.ticker_lacks_char |].
  split; [now apply StrFacts.ticker_lacks_char |].
  split; [now apply StrFacts.strip_fixed |]. auto.
Qed.

(** X2: a cell made of any stem, a dot and one capital letter (a share
    class such as BRK.B or BF.A) is dropped by the filter of
    [get_fortune5000_tickers], the dotted suffixes being excluded before the
    dot is turned into a hyphen; the comprehension of [get_sp500_tickers]
    keeps the same cell, with a hyphen for the dot. *)
Theorem class_share_symbols_are_dropped (stem : string) (class : ascii) :
  Py.isupper class = true ->
  let cell := (stem ++ String "." (String class ""))%string in
  Tickers.clean_ticker cell = None
  /\ Tickers.filter_tickers [cell] = []
  /\ SP500Tickers.clean_symbols [SP500Tickers.Text cell]
     = Ok [(Py.replace_char "." "-" stem ++ String "-" (String class ""))%string].
Proof.
  intros Hu cell.
  assert (Hnone : Tickers.clean_ticker cell = None).
  { subst cell. unfold Tickers.clean_ticker.
    destruct (stripped_class_share stem class Hu) as [p ->].
    destruct (_ || _); [reflexivity |].
    assert (Hs : existsb (Py.endswith (p ++ String "." (String class ""))%string)
                   Tickers.excluded_suffixes = true).
    { pose proof (class_suffix_excluded class Hu) as He.
      apply existsb_exists in He as (suffix & Hin & Heq).
      apply String.eqb_eq in Heq. subst suffix.
      apply existsb_exists. eexists. split; [exact Hin |].
      apply endswith_append. }
    now rewrite Hs. }
  split; [exact Hnone |]. split.
  - unfold Tickers.filter_tickers, Tickers.valid_tickers. simpl.
    now rewrite Hnone.
  - simpl. assert (Hne : Py.is_empty cell = false).
    { subst cell. now apply append_not_empty. }
    rewrite Hne. subst cell. rewrite replace_char_append. simpl.
    now rewrite (isupper_not_dot class Hu).
Qed.

Lemma class_share_symbols_are_dropped_witness :
  Py.isupper "B" = true
  /\ Tickers.clean_ticker "BRK.B" = None
  /\ SP500Tickers.clean_symbols [SP500Tickers.Text "BRK.B"] = Ok ["BRK-B"].
Proof.
  assert (H : Py.isupper "B" = true) by reflexivity.
  split; [exact H |].
  destruct (class_share_symbols_are_dropped "BRK" "B" H) as (H1 & _ & H2).
  split; [exact H1 | exact H2].
Defined.

(** X3: the list [get_fortune5000_tickers] returns depends only on which
    cells the [Symbol] column holds, not on their order nor on how often
    each occurs. *)
Theorem filter_tickers_ignores_order_and_duplicates (l l' : list string) :
  (forall x, x ∈ l <-> x ∈ l') ->
  Tickers.filter_tickers l = Tickers.filter_tickers l'.
Proof.
  intros Hsame. apply (Sorted_unique String.le).
  - apply sorted_Sorted.
  - apply sorted_Sorted.
  - apply NoDup_Permutation; [apply sorted_set_NoDup | apply sorted_set_NoDup |].
    intros t. rewrite !filter_tickers_elem.
    split; intros (raw & Hin & Hraw); exists raw; (split; [| exact Hraw]);
      now apply Hsame.
Qed.

Lemma filter_tickers_ignores_order_and_duplicates_witness :
  (forall x, x ∈ ["MSFT"; " AAPL"; "MSFT"] <-> x ∈ [" AAPL"; "MSFT"])
  /\ Tickers.filter_tickers ["MSFT"; " AAPL"; "MSFT"] = ["AAPL"; "MSFT"].
Proof.
  assert (H : forall x : string,
             x ∈ ["MSFT"; " AAPL"; "MSFT"] <-> x ∈ [" AAPL"; "MSFT"]).
  { intros x. rewrite !elem_of_cons, !elem_of_nil. tauto. }
  split; [exact H |].
  rewrite (filter_tickers_ignores_order_and_duplicates _ _ H).
  vm_compute. reflexivity.
Defined.

(** ** Loading the S&P 500 symbols *)

Section SymbolColumn.

Lemma replace_char_not_empty (a : ascii) (b : ascii) (s : string) :
  Py.is_empty s = false -> Py.is_empty (Py.replace_char a (String b "") s) = false.
Proof.
  destruct s as [| c s]; [discriminate |]. intros _. cbn [Py.replace_char].
  now destruct (Ascii.eqb c a).
Qed.

Lemma clean_symbols_shape (cells : list SP500Tickers.Cell) (tickers : list string) :
  SP500Tickers.clean_symbols cells = Ok tickers ->
  Forall (fun t => Py.is_empty t = false /\ Py.contains "." t = false) tickers.
Proof.
  revert tickers. induction cells as [| [s |] rest IH]; intros tickers; simpl.
  - intros [= <-]. constructor.
  - destruct (Py.is_empty s) eqn:Hs; [apply IH |].
    destruct (SP500Tickers.clean_symbols rest) as [l |]; [| discriminate].
    intros [= <-]. constructor; [| now apply IH]. split.
    + now apply replace_char_not_empty.
    + apply StrFacts.replaced_char_gone. discriminate.
  - discriminate.
Qed.

Lemma clean_symbols_text (symbols : list string) :
  SP500Tickers.clean_symbols (map SP500Tickers.Text symbols)
  = Ok (map (Py.replace_char "." "-")
          (List.filter (fun s => negb (Py.is_empty s)) symbols)).
Proof.
  induction symbols as [| s rest IH]; simpl; [reflexivity |].
  destruct (Py.is_empty s); simpl; [exact IH | now rewrite IH].
Qed.

Lemma clean_symbols_missing (cells : list SP500Tickers.Cell) :
  In SP500Tickers.Missing cells ->
  exists m, SP500Tickers.clean_symbols cells = Raise m.
Proof.
  induction cells as [| [s |] rest IH]; simpl; [tauto | | eauto].
  intros [H | H]; [discriminate H |]. destruct (IH H) as [m ->].
  destruct (Py.is_empty s); eauto.
Qed.

End SymbolColumn.

Ltac settle_cases :=
  repeat match goal with
         | |- _ /\ _ => split
         | |- forall _, _ => intro
         | H : Ok _ = Ok _ |- _ => inversion H; subst; clear H
         | H : Some _ = Some _ |- _ => inversion H; subst; clear H
         | H : Ok _ = Raise _ |- _ => discriminate H
         | H : Raise _ = Ok _ |- _ => discriminate H
         | H : None = Some _ |- _ => discriminate H
         end;
  eauto.

(** X4: [get_sp500_tickers] reads the table at most three times and
    returns the symbols of the first attempt that succeeds, sleeping 2 s after
    the first and after the second failure only; when the three attempts fail
    it returns [None]. The symbols returned are not empty and hold no dot
    (each dot is replaced by a hyphen, empty cells are skipped), and a
    missing cell (nan) makes the attempt fail. *)
Theorem get_sp500_tickers_retries
    (symbol_column : nat -> result (list SP500Tickers.Cell)) (st : State) :
  let fetch := SP500Tickers.fetch_symbols symbol_column in
  let '(r, st') := SP500Tickers.get_sp500_tickers symbol_column st in
  (forall tickers, fetch 0 = Ok tickers -> r = Some tickers /\ trace st' = trace st)
  /\ (forall m0 tickers,
        fetch 0 = Raise m0 -> fetch 1 = Ok tickers ->
        r = Some tickers /\ trace st' = trace st ++ [EvSleep 2])
  /\ (forall m0 m1 tickers,
        fetch 0 = Raise m0 -> fetch 1 = Raise m1 -> fetch 2 = Ok tickers ->
        r = Some tickers /\ trace st' = trace st ++ [EvSleep 2; EvSleep 2])
  /\ (forall m0 m1 m2,
        fetch 0 = Raise m0 -> fetch 1 = Raise m1 -> fetch 2 = Raise m2 ->
        r = None /\ trace st' = trace st ++ [EvSleep 2; EvSleep 2])
  /\ (forall tickers,
        r = Some tickers ->
        Forall (fun t => Py.is_empty t = false /\ Py.contains "." t = false) tickers)
  /\ (forall k cells,
        symbol_column k = Ok cells -> In SP500Tickers.Missing cells ->
        exists m, fetch k = Raise m)
  /\ (forall k symbols,
        symbol_column k = Ok (map SP500Tickers.Text symbols) ->
        fetch k = Ok (map (Py.replace_char "." "-")
                        (List.filter (fun s => negb (Py.is_empty s)) symbols))).
Proof.
  intros fetch. unfold SP500Tickers.get_sp500_tickers. cbn [SP500Tickers.scrape_attempts].
  fold fetch.
  assert (Hshape : forall k tickers, fetch k = Ok tickers ->
            Forall (fun t => Py.is_empty t = false /\ Py.contains "." t = false) tickers).
  { intros k tickers. unfold fetch, SP500Tickers.fetch_symbols.
    destruct (symbol_column k); [apply clean_symbols_shape | discriminate]. }
  assert (Hmissing : forall k cells,
            symbol_column k = Ok cells -> In SP500Tickers.Missing cells ->
            exists m, fetch k = Raise m).
  { intros k cells Hc Hin. unfold fetch, SP500Tickers.fetch_symbols. rewrite Hc.
    now apply clean_symbols_missing. }
  assert (Htext : forall k symbols,
            symbol_column k = Ok (map SP500Tickers.Text symbols) ->
            fetch k = Ok (map (Py.replace_char "." "-")
                            (List.filter (fun s => negb (Py.is_empty s)) symbols))).
  { intros k symbols Hc. unfold fetch, SP500Tickers.fetch_symbols. rewrite Hc.
    apply clean_symbols_text. }
  destruct (fetch 0) as [t0 | e0] eqn:E0; simpl; [settle_cases |].
  destruct (fetch 1) as [t1 | e1] eqn:E1; simpl; [settle_cases |].
  destruct (fetch 2) as [t2 | e2] eqn:E2; simpl; rewrite <- app_assoc; simpl;
    settle_cases.
Qed.

Lemma get_sp500_tickers_retries_witness :
  let out := SP500Tickers.get_sp500_tickers Scenarios.third_time_lucky
               (initial_state Examples.t0) in
  fst out = Some ["MMM"; "BRK-B"] /\ trace (snd out) = [EvSleep 2; EvSleep 2].
Proof.
  intros out.
  pose proof (get_sp500_tickers_retries Scenarios.third_time_lucky
                (initial_state Examples.t0)) as H.
  cbv zeta in H. fold out in H. destruct out as [r st'].
  destruct H as (_ & _ & H & _).
  exact (H "HTTP Error 503" "HTTP Error 503" ["MMM"; "BRK-B"]
           eq_refl eq_refl eq_refl).
Defined.

(** ** How many calls a wrapped request makes *)

Section Settling.
Variables (w : World) (self : Analyzer).

Lemma rate_limited_delays_app (a b : list Event) :
  rate_limited_delays (a ++ b) = rate_limited_delays a ++ rate_limited_delays b.
Proof.
  induction a as [| e a IH]; simpl; [reflexivity |].
  destruct e; simpl; now rewrite ?IH.
Qed.

Lemma before_call_rate_limited (st : State) :
  rate_limited_delays (trace (before_call w self st))
  = rate_limited_delays (trace st).
Proof.
  unfold before_call, throttle, throttle_wait, uniform.
  destruct (delay_range self) as [lo hi].
  destruct (Qltb _ _); simpl; rewrite !rate_limited_delays_app; simpl;
    now rewrite !app_nil_r.
Qed.

(** One backoff: the jitter is drawn, the retry announced, the delay slept. *)
Lemma back_off_trace (attempt : nat) (st : State) :
  let jitter := fst (uniform w (0, 1)%Q st) in
  let delay := qplus (qmult Config.exponential_backoff_base
                        (inject_Z (2 ^ Z.of_nat attempt))) jitter in
  trace (back_off w attempt st)
  = trace st ++ [EvUniform 0 1 jitter; EvRateLimited (S attempt) delay; EvSleep delay].
Proof. unfold back_off. simpl. now rewrite <- !app_assoc. Qed.

Lemma back_off_rate_limited (attempt : nat) (st : State) :
  map fst (rate_limited_delays (trace (back_off w attempt st)))
  = map fst (rate_limited_delays (trace st)) ++ [S attempt].
Proof.
  rewrite back_off_trace, rate_limited_delays_app, map_app. reflexivity.
Qed.

Lemma attempts_settle {A} (func : nat -> result (option A)) (k : nat) :
  forall (remaining attempt : nat) (st : State),
    (k < remaining)%nat ->
    (forall j, (j < k)%nat ->
               exists msg, func (attempt + j) = Raise msg
                           /\ is_rate_limit_error msg = true) ->
    match func (attempt + k) with
    | Ok _ => True
    | Raise msg => is_rate_limit_error msg = false
    end ->
    let '(r, st') := attempts w self func remaining attempt st in
    r = func (attempt + k)
    /\ request_count st' = request_count st + S k
    /\ failed_requests st' = failed_requests st
    /\ map fst (rate_limited_delays (trace st'))
       = map fst (rate_limited_delays (trace st)) ++ seq (S attempt) k.
Proof.
  induction k as [| k IH]; intros remaining attempt st Hlt Hprev Hset;
    (destruct remaining as [| n]; [lia |]); rewrite attempts_step;
    destruct (before_call_fields w self st) as (Hc & Hf & _).
  - rewrite Nat.add_0_r in *.
    destruct (func attempt) as [v | msg].
    + rewrite Hc, Hf, before_call_rate_limited, app_nil_r.
      repeat split; lia.
    + rewrite Hset, Hc, Hf, before_call_rate_limited, app_nil_r.
      repeat split; lia.
  - destruct (Hprev 0) as (msg & Hm & Hr); [lia |].
    rewrite Nat.add_0_r in Hm. rewrite Hm, Hr.
    specialize (IH n (S attempt) (back_off w attempt (before_call w self st))).
    destruct (attempts w self func n (S attempt) _) as [r st'].
    destruct IH as (Hres & Hcount & Hfail & Hdelays).
    + lia.
    + intros j Hj. destruct (Hprev (S j)) as (m & Hm' & Hr'); [lia |].
      exists m. now rewrite Nat.add_succ_comm.
    + now rewrite Nat.add_succ_comm.
    + destruct (back_off_fields w attempt (before_call w self st))
        as (Hb1 & _ & Hb3 & _).
      rewrite Nat.add_succ_comm in Hres.
      split; [exact Hres |]. split; [lia |]. split; [congruence |].
      rewrite Hdelays, back_off_rate_limited, before_call_rate_limited.
      now rewrite <- app_assoc.
Qed.

Lemma attempts_count_bounds {A} (func : nat -> result (option A))
    (remaining attempt : nat) (st : State) :
  let st' := snd (attempts w self func remaining attempt st) in
  (request_count st + Nat.min 1 remaining <= request_count st')%nat
  /\ (request_count st' <= request_count st + remaining)%nat.
Proof.
  revert attempt st. induction remaining as [| n IH]; intros attempt st.
  - simpl. lia.
  - rewrite attempts_step. cbv zeta. change (Nat.min 1 (S n)) with 1.
    destruct (before_call_fields w self st) as (Hc & _).
    destruct (func attempt) as [v | msg]; cbn [snd]; [rewrite Hc; lia |].
    destruct (is_rate_limit_error msg); cbn [snd]; [| rewrite Hc; lia].
    specialize (IH (S attempt) (back_off w attempt (before_call w self st))).
    destruct (back_off_fields w attempt (before_call w self st)) as (Hb & _).
    cbv zeta in IH. rewrite Hb, Hc in IH. lia.
Qed.

End Settling.

(** X5: a wrapped call stops at the first attempt that does not end on a
    rate-limit error: when the attempts before number [k] (fewer than
    [max_retries]) are all rate limited and attempt [k] returns or raises
    another error, the wrapper returns that value or re-raises that error,
    has made exactly [k + 1] provider calls and announced [k] retries, and
    leaves [failed_requests] alone. In particular an error that is not a
    rate limit is never retried ([k = 0]). *)
Theorem wrapper_stops_at_first_settled_attempt
    (w : World) (self : Analyzer) (A : Type) (func : nat -> result (option A))
    (k : nat) (st : State) :
  (k < Config.max_retries)%nat ->
  (forall j, (j < k)%nat ->
             exists msg, func j = Raise msg /\ is_rate_limit_error msg = true) ->
  match func k with
  | Ok _ => True
  | Raise msg => is_rate_limit_error msg = false
  end ->
  let '(r, st') := rate_limited_request w self func st in
  r = func k
  /\ request_count st' = request_count st + S k
  /\ failed_requests st' = failed_requests st
  /\ map fst (rate_limited_delays (trace st'))
     = map fst (rate_limited_delays (trace st)) ++ seq 1 k.
Proof.
  intros Hk Hprev Hset.
  exact (attempts_settle w self func k Config.max_retries 0 st Hk Hprev Hset).
Qed.

Lemma wrapper_stops_at_first_settled_attempt_witness :
  let w := Scenarios.recovering 1 Examples.drop_12 in
  let func := fetch_stock_data w "AAPL" in
  let out := rate_limited_request w Examples.balanced_analyzer func
               (initial_state Examples.t0) in
  (1 < Config.max_retries)%nat
  /\ (forall j, (j < 1)%nat ->
                exists msg, func j = Raise msg /\ is_rate_limit_error msg = true)
  /\ fst out = Ok (Some (Examples.drop_12, Examples.no_info))
  /\ request_count (snd out) = 2.
Proof.
  intros w func out.
  assert (H1 : (1 < Config.max_retries)%nat) by (vm_compute; lia).
  assert (H2 : forall j, (j < 1)%nat ->
                 exists msg, func j = Raise msg /\ is_rate_limit_error msg = true).
  { intros j Hj. assert (j = 0) as -> by lia. eexists. split; reflexivity. }
  split; [exact H1 |]. split; [exact H2 |].
  pose proof (wrapper_stops_at_first_settled_attempt w Examples.balanced_analyzer
                _ func 1 (initial_state Examples.t0) H1 H2 I) as H.
  fold out in H. destruct out as [r st']. destruct H as (Hr & Hc & _).
  split; [exact Hr | exact Hc].
Defined.

(** ** Exponential backoff *)

Section Backoff.
Variables (w : World) (self : Analyzer).
Hypothesis random_unit : forall n, (0 <= random w n <= 1)%Q.

Lemma jitter_bounds (st : State) :
  (0 <= fst (uniform w (0, 1)%Q st) <= 1)%Q.
Proof.
  unfold uniform. cbn [fst]. rewrite qplus_eq, qmult_eq, qminus_eq.
  pose proof (random_unit (draws st)). lra.
Qed.

Lemma back_off_delay_bounds (attempt : nat) (st : State) :
  let power := inject_Z (2 ^ Z.of_nat attempt) in
  let delay := qplus (qmult Config.exponential_backoff_base power)
                 (fst (uniform w (0, 1)%Q st)) in
  (power <= delay <= power + 1)%Q.
Proof.
  intros power delay. subst delay. rewrite qplus_eq, qmult_eq.
  unfold Config.exponential_backoff_base.
  pose proof (jitter_bounds st). lra.
Qed.

Lemma before_call_events (st : State) :
  exists evs, trace (before_call w self st) = trace st ++ evs
              /\ rate_limited_delays evs = [].
Proof.
  unfold before_call, throttle, throttle_wait, uniform.
  destruct (delay_range self) as [lo hi].
  destruct (Qltb _ _); simpl; rewrite <- ?app_assoc; eexists;
    (split; [reflexivity | reflexivity]).
Qed.

End Backoff.

(** X6: when every attempt of a wrapped call is rate limited (and
    [random.random()] is in [0, 1]), the wrapper announces three retries whose
    delays are between 1 and 2 s, 2 and 3 s, and 4 and 5 s: the base delay
    doubles at each attempt and the jitter adds at most one second. The last
    delay is slept after the last attempt, just before the wrapper gives up
    with ["Failed after 3 attempts"]. *)
Theorem backoff_delays_double
    (w : World) (self : Analyzer) (A : Type) (func : nat -> result (option A))
    (st : State) :
  (forall n, (0 <= random w n <= 1)%Q) ->
  (forall k, exists msg, func k = Raise msg /\ is_rate_limit_error msg = true) ->
  let st' := snd (rate_limited_request w self func st) in
  exists d0 d1 d2 evs,
    rate_limited_delays (trace st')
    = rate_limited_delays (trace st) ++ [(1, d0); (2, d1); (3, d2)]
    /\ (1 <= d0 <= 2)%Q /\ (2 <= d1 <= 3)%Q /\ (4 <= d2 <= 5)%Q
    /\ trace st'
       = trace st ++ evs
         ++ [EvRateLimited 3 d2; EvSleep d2; EvFailedAfter Config.max_retries].
Proof.
  intros Hrand Hall st'. subst st'.
  unfold rate_limited_request, Config.max_retries.
  destruct (Hall 0) as (m0 & E0 & R0). destruct (Hall 1) as (m1 & E1 & R1).
  destruct (Hall 2) as (m2 & E2 & R2).
  rewrite attempts_step, E0, R0, attempts_step, E1, R1, attempts_step, E2, R2.
  cbn [attempts snd].
  set (s0 := before_call w self st).
  set (b0 := back_off w 0 s0). set (s1 := before_call w self b0).
  set (b1 := back_off w 1 s1). set (s2 := before_call w self b1).
  destruct (before_call_events w self st) as (e0 & T0 & D0). fold s0 in T0.
  destruct (before_call_events w self b0) as (e1 & T1 & D1). fold s1 in T1.
  destruct (before_call_events w self b1) as (e2 & T2 & D2). fold s2 in T2.
  pose proof (back_off_trace w 0 s0) as B0. fold b0 in B0.
  pose proof (back_off_trace w 1 s1) as B1. fold b1 in B1.
  pose proof (back_off_trace w 2 s2) as B2.
  pose proof (back_off_delay_bounds w Hrand 0 s0) as H0.
  pose proof (back_off_delay_bounds w Hrand 1 s1) as H1.
  pose proof (back_off_delay_bounds w Hrand 2 s2) as H2.
  cbv zeta in B0, B1, B2, H0, H1, H2.
  change (inject_Z (2 ^ Z.of_nat 0)) with 1%Q in *.
  change (inject_Z (2 ^ Z.of_nat 1)) with 2%Q in *.
  change (inject_Z (2 ^ Z.of_nat 2)) with 4%Q in *.
  set (d0 := qplus _ _) in B0, H0. set (d1 := qplus _ _) in B1, H1.
  set (d2 := qplus _ _) in B2, H2.
  exists d0, d1, d2.
  exists (e0 ++ [EvUniform 0 1 (fst (uniform w (0, 1)%Q s0));
                 EvRateLimited 1 d0; EvSleep d0]
          ++ e1 ++ [EvUniform 0 1 (fst (uniform w (0, 1)%Q s1));
                    EvRateLimited 2 d1; EvSleep d1]
          ++ e2 ++ [EvUniform 0 1 (fst (uniform w (0, 1)%Q s2))]).
  assert (Htrace : trace (emit (EvFailedAfter Config.max_retries) (back_off w 2 s2))
                   = trace st
                     ++ (e0 ++ [EvUniform 0 1 (fst (uniform w (0, 1)%Q s0));
                                EvRateLimited 1 d0; EvSleep d0]
                         ++ e1 ++ [EvUniform 0 1 (fst (uniform w (0, 1)%Q s1));
                                   EvRateLimited 2 d1; EvSleep d1]
                         ++ e2 ++ [EvUniform 0 1 (fst (uniform w (0, 1)%Q s2))])
                     ++ [EvRateLimited 3 d2; EvSleep d2;
                         EvFailedAfter Config.max_retries]).
  { cbn [emit trace]. rewrite B2, T2, B1, T1, B0, T0.
    rewrite <- !app_assoc. reflexivity. }
  split; [| split; [lra | split; [lra | split; [lra | exact Htrace]]]].
  rewrite Htrace, !rate_limited_delays_app, D0, D1, D2. reflexivity.
Qed.

Lemma backoff_delays_double_witness :
  let w := Examples.refusing in
  let st' := snd (rate_limited_request w Examples.balanced_analyzer
                    (fetch_stock_data w "AAPL") (initial_state Examples.t0)) in
  (forall n, (0 <= random w n <= 1)%Q)
  /\ (forall k, exists msg, fetch_stock_data w "AAPL" k = Raise msg
                            /\ is_rate_limit_error msg = true)
  /\ exists d0 d1 d2 evs,
       rate_limited_delays (trace st') = [(1, d0); (2, d1); (3, d2)]
       /\ (1 <= d0 <= 2)%Q /\ (2 <= d1 <= 3)%Q /\ (4 <= d2 <= 5)%Q
       /\ trace st'
          = evs ++ [EvRateLimited 3 d2; EvSleep d2; EvFailedAfter Config.max_retries].
Proof.
  intros w st'.
  assert (H1 : forall n, (0 <= random w n <= 1)%Q).
  { intros n. split; vm_compute; discriminate. }
  assert (H2 : forall k, exists msg, fetch_stock_data w "AAPL" k = Raise msg
                                     /\ is_rate_limit_error msg = true).
  { intros k. eexists. split; reflexivity. }
  split; [exact H1 |]. split; [exact H2 |].
  exact (backoff_delays_double w Examples.balanced_analyzer _
           (fetch_stock_data w "AAPL") (initial_state Examples.t0) H1 H2).
Defined.

(** ** The cost of a batch in counted requests *)

Section Cost.
Context {libs : Libs}.
Variables (w : World) (self : Analyzer).

Lemma analyze_single_stock_cost (sym : string) (st : State) :
  let st' := snd (analyze_single_stock w self sym st) in
  (request_count st + 1 <= request_count st')%nat
  /\ (request_count st' <= request_count st + Config.max_retries)%nat.
Proof.
  unfold analyze_single_stock, rate_limited_request.
  pose proof (attempts_count_bounds w self (fetch_stock_data w sym)
                Config.max_retries 0 st) as H.
  destruct (attempts w self (fetch_stock_data w sym) Config.max_retries 0 st)
    as [[[[hist i] |] | msg] st']; cbn [snd] in *; try exact H.
  destruct (analyze_window self sym hist i); exact H.
Qed.

Lemma run_tasks_cost (order : list string) (st : State) :
  let st' := snd (run_tasks w self order st) in
  (request_count st + length order <= request_count st')%nat
  /\ (request_count st' <= request_count st + Config.max_retries * length order)%nat.
Proof.
  revert st. induction order as [| t rest IH]; intros st; cbn [run_tasks].
  - simpl. lia.
  - pose proof (analyze_single_stock_cost t st) as H1.
    destruct (analyze_single_stock w self t st) as [r st1].
    specialize (IH st1). destruct (run_tasks w self rest st1) as [rs st2].
    cbn [snd length] in *. unfold Config.max_retries in *. lia.
Qed.

End Cost.

(** X7: with a pool of one worker ([max_workers = 1], the presets
    [conservative] and [ultra_conservative]) analysing one symbol raises
    [request_count] by at least one and at most [max_retries] (3), one for
    each attempt of the wrapped [fetch_stock_data], so a batch whose pool
    completes [n] tasks raises it by between [n] and [3 n]. (With more
    workers the increments are not synchronized.) *)
Theorem batch_costs_one_to_three_requests_per_ticker
    (libs : Libs) (w : World) (self : Analyzer) (ticker_batch : list string)
    (st : State) :
  max_workers self = 1%nat ->
  let n := length (schedule w ticker_batch) in
  let st' := snd (process_batch w self ticker_batch st) in
  (request_count st + n <= request_count st')%nat
  /\ (request_count st' <= request_count st + Config.max_retries * n)%nat
  /\ forall sym st0,
       let st1 := snd (analyze_single_stock w self sym st0) in
       (request_count st0 + 1 <= request_count st1)%nat
       /\ (request_count st1 <= request_count st0 + Config.max_retries)%nat.
Proof.
  intros _ n st'. subst n st'. unfold process_batch.
  destruct (run_tasks_cost w self (schedule w ticker_batch) st) as [H1 H2].
  split; [exact H1 |]. split; [exact H2 |].
  intros sym st0. apply analyze_single_stock_cost.
Qed.

Lemma batch_costs_one_to_three_requests_per_ticker_witness :
  let w := Examples.serving Examples.fourteen_bars Examples.no_info in
  let self := Scenarios.conservative_analyzer in
  let st' := snd (process_batch (libs := TaModel.libs) w self
                    ["AAPL"; "MSFT"] (initial_state Examples.t0)) in
  max_workers self = 1%nat
  /\ (2 <= request_count st' <= 6)%nat.
Proof.
  intros w self st'.
  assert (H : max_workers self = 1%nat) by reflexivity.
  split; [exact H |].
  destruct (batch_costs_one_to_three_requests_per_ticker TaModel.libs w self
              ["AAPL"; "MSFT"] (initial_state Examples.t0) H) as (H1 & H2 & _).
  split; [exact H1 | exact H2].
Defined.

(** X8: [get_stock_news] never raises and never touches
    [failed_requests]: it returns the first [max_news] items of the news the
    wrapped call ends with, and the empty list when that call ends on an
    error or runs out of retries; it costs between one and [max_retries]
    requests. *)
Theorem news_is_best_effort
    (w : World) (self : Analyzer) (sym : string) (max_news : nat) (st : State) :
  let '(items, st') := get_stock_news w self sym max_news st in
  items = match wrapped_outcome (fetch_news w sym) Config.max_retries 0 with
          | Ok (Some all) => firstn max_news all
          | _ => []
          end
  /\ (length items <= max_news)%nat
  /\ failed_requests st' = failed_requests st
  /\ (request_count st < request_count st')%nat
  /\ (request_count st' <= request_count st + Config.max_retries)%nat.
Proof.
  unfold get_stock_news, rate_limited_request.
  destruct (attempts_outcome w self (fetch_news w sym) Config.max_retries 0 st)
    as [Hout Hfail].
  pose proof (attempts_count_bounds w self (fetch_news w sym)
                Config.max_retries 0 st) as Hcount.
  destruct (attempts w self (fetch_news w sym) Config.max_retries 0 st)
    as [r st']. cbn [fst snd] in *. rewrite <- Hout.
  change (Nat.min 1 Config.max_retries) with 1 in Hcount.
  destruct r as [[items |] | msg];
    (split; [reflexivity |]); (split; [| split; [exact Hfail | lia]]).
  - apply firstn_le_length.
  - simpl. lia.
  - simpl. lia.
Qed.

(** ** Missing prices and missing attributes *)

Lemma pct_change_nan (cur prev : float) :
  Py.isna prev = true \/ Py.isna cur = true ->
  Py.isna (pct_change cur prev) = true.
Proof.
  unfold Py.isna, pct_change. rewrite !FloatOrder.is_nan_spec.
  rewrite mul_spec, div_spec, sub_spec.
  intros [H | H]; rewrite H.
  - destruct (Prim2SF cur); reflexivity.
  - destruct (Prim2SF prev); reflexivity.
Qed.

Section Served.
Context {libs : Libs}.
Variables (w : World) (self : Analyzer).

(** The plain analyzer on a window that is served. *)
Lemma sp500_analyze_served (sym : string) (hist : History) (i : Info) :
  history w sym 0 = Ok hist -> info w sym 0 = Ok i -> (2 <= length hist)%nat ->
  SP500.analyze_single_stock w (drop_threshold self) sym
  = match analyze_window self sym hist i with
    | Ok r => r
    | Raise _ => None
    end.
Proof.
  intros Hh Hi Hl.
  unfold SP500.analyze_single_stock, SP500.analyze_body, analyze_window.
  rewrite Hh, Hi.
  destruct (Nat.eqb_spec (length hist) 0); [lia |].
  destruct (Nat.ltb_spec (length hist) 2); [lia |]. simpl.
  destruct (iloc_neg 2 (closes hist)); [| reflexivity].
  destruct (iloc_neg 1 (closes hist)); [| reflexivity].
  destruct (PrimFloat.leb _ _); reflexivity.
Qed.

Lemma sp500_analyze_short (sym : string) (hist : History) :
  history w sym 0 = Ok hist -> (length hist < 2)%nat ->
  SP500.analyze_single_stock w (drop_threshold self) sym = None.
Proof.
  intros Hh Hl. unfold SP500.analyze_single_stock, SP500.analyze_body. rewrite Hh.
  destruct (Nat.eqb_spec (length hist) 0); [reflexivity |].
  destruct (Nat.ltb_spec (length hist) 2); [reflexivity | lia].
Qed.

(** The rate-limited analyzer on a window that is served at once. *)
Lemma analyze_single_stock_first (sym : string) (hist : History) (i : Info)
    (st : State) :
  history w sym 0 = Ok hist -> info w sym 0 = Ok i ->
  analyze_single_stock w self sym st
  = if (length hist <? 2)%nat then (None, before_call w self st)
    else match analyze_window self sym hist i with
         | Ok r => (r, before_call w self st)
         | Raise msg => (None, on_error sym msg (before_call w self st))
         end.
Proof.
  intros Hh Hi. unfold analyze_single_stock.
  destruct (Nat.ltb_spec (length hist) 2) as [Hl | Hl].
  - rewrite (rate_limited_request_first w self _ None st
               (fetch_stock_data_short w sym hist Hh Hl)).
    reflexivity.
  - rewrite (rate_limited_request_first w self _ (Some (hist, i)) st
               (fetch_stock_data_served w sym hist i Hh Hi Hl)).
    reflexivity.
Qed.

Lemma build_record_fields (sym : string) (hist : History) (i : Info)
    (prev cur pc : float) (r : AnalysisRecord) :
  build_record sym hist i prev cur pc = Ok r ->
  r = {| symbol := sym;
         company_name := get_text i "longName" sym;
         sector := get_text i "sector" "Unknown";
         current_price := cur;
         previous_close := prev;
         percent_change := pc;
         market_cap := get_num i "marketCap" (PyFloat 0);
         fifty_two_week_high := get_num i "fiftyTwoWeekHigh" (PyFloat 0);
         fifty_two_week_low := get_num i "fiftyTwoWeekLow" (PyFloat 0);
         distance_from_high :=
           distance_from_52w_high cur (get_num i "fiftyTwoWeekHigh" (PyFloat 0));
         volume := volume r;
         avg_volume := series_mean (volumes hist);
         technical := calculate_technical_indicators hist;
         fundamental := calculate_fundamental_ratios i |}
  /\ nth_error (volumes hist) (length hist - 1) = Some (volume r).
Proof.
  unfold build_record.
  destruct (iloc_neg 1 (volumes hist)) as [v |] eqn:E; [| discriminate].
  intros [= <-]. split; [reflexivity |]. cbn [volume].
  apply iloc_neg_inv in E as [_ E]. now rewrite volumes_length in E.
Qed.

Lemma analyze_window_fields (sym : string) (hist : History) (i : Info)
    (r : AnalysisRecord) :
  analyze_window self sym hist i = Ok (Some r) ->
  nth_error (closes hist) (length hist - 2) = Some (previous_close r)
  /\ nth_error (closes hist) (length hist - 1) = Some (current_price r)
  /\ build_record sym hist i (previous_close r) (current_price r)
       (pct_change (current_price r) (previous_close r)) = Ok r.
Proof.
  unfold analyze_window.
  destruct (iloc_neg 2 (closes hist)) as [prev |] eqn:E2; [| discriminate].
  destruct (iloc_neg 1 (closes hist)) as [cur |] eqn:E1; [| discriminate].
  destruct (PrimFloat.leb _ _); [| discriminate].
  destruct (build_record sym hist i prev cur (pct_change cur prev)) as [r' |] eqn:Eb;
    [| discriminate].
  intros [= <-].
  destruct (build_record_fields _ _ _ _ _ _ _ Eb) as [Hr _].
  apply iloc_neg_inv in E2 as [_ E2]. apply iloc_neg_inv in E1 as [_ E1].
  rewrite closes_length in E1, E2.
  assert (Hp : previous_close r' = prev) by (rewrite Hr; reflexivity).
  assert (Hc : current_price r' = cur) by (rewrite Hr; reflexivity).
  rewrite Hp, Hc. auto.
Qed.

End Served.

(** X9: a window whose last or second-last close is missing (nan) gives
    a percent change that is nan, which fails the test
    [percent_change <= drop_threshold] whatever the threshold: neither
    analyzer produces a record, and the symbol is not counted as a failure. *)
Theorem nan_close_gives_no_record
    (libs : Libs) (w : World) (self : Analyzer) (sym : string) (hist : History)
    (i : Info) (prev cur : float) (st : State) :
  history w sym 0 = Ok hist -> info w sym 0 = Ok i ->
  (2 <= length hist)%nat ->
  nth_error (closes hist) (length hist - 2) = Some prev ->
  nth_error (closes hist) (length hist - 1) = Some cur ->
  Py.isna prev = true \/ Py.isna cur = true ->
  Py.isna (pct_change cur prev) = true
  /\ fst (analyze_single_stock w self sym st) = None
  /\ failed_requests (snd (analyze_single_stock w self sym st)) = failed_requests st
  /\ SP500.analyze_single_stock w (drop_threshold self) sym = None.
Proof.
  intros Hh Hi Hl Hp Hc Hnan.
  pose proof (pct_change_nan cur prev Hnan) as Hpc.
  split; [exact Hpc |].
  assert (Hle : PrimFloat.leb (pct_change cur prev) (drop_threshold self) = false).
  { destruct (PrimFloat.leb _ _) eqn:E; [| reflexivity].
    apply FloatOrder.leb_not_nan in E as [E _]. unfold Py.isna in Hpc. congruence. }
  destruct (analyze_window_spec self sym hist i prev cur Hl Hp Hc) as [_ Hno].
  specialize (Hno Hle).
  rewrite (analyze_single_stock_first w self sym hist i st Hh Hi),
    (sp500_analyze_served w self sym hist i Hh Hi Hl), Hno.
  destruct (Nat.ltb_spec (length hist) 2); [lia |]. cbn [fst snd].
  destruct (before_call_fields w self st) as (_ & Hf & _). auto.
Qed.

Lemma nan_close_gives_no_record_witness :
  let w := Examples.serving Scenarios.nan_close Examples.no_info in
  Py.isna nan = true
  /\ fst (analyze_single_stock (libs := TaModel.libs) w Examples.balanced_analyzer
            "AAPL" (initial_state Examples.t0)) = None.
Proof.
  intros w. split; [reflexivity |].
  exact (proj1 (proj2 (nan_close_gives_no_record TaModel.libs w
                         Examples.balanced_analyzer "AAPL" Scenarios.nan_close
                         Examples.no_info 100%float nan (initial_state Examples.t0)
                         eq_refl eq_refl (le_n 2) eq_refl eq_refl
                         (or_intror eq_refl)))).
Defined.

(** X10: when the provider answers the first call for a symbol (history
    and attributes), the rate-limited analyzer of [fortune5000-analysis.py]
    returns exactly what the plain analyzer of [sp500-analysis.py] returns
    under the same threshold, record or [None], at the cost of one counted
    request. *)
Theorem analyzers_agree_when_served
    (libs : Libs) (w : World) (self : Analyzer) (sym : string) (hist : History)
    (i : Info) (st : State) :
  history w sym 0 = Ok hist -> info w sym 0 = Ok i ->
  fst (analyze_single_stock w self sym st)
  = SP500.analyze_single_stock w (drop_threshold self) sym
  /\ request_count (snd (analyze_single_stock w self sym st)) = S (request_count st).
Proof.
  intros Hh Hi. rewrite (analyze_single_stock_first w self sym hist i st Hh Hi).
  destruct (before_call_fields w self st) as (Hc & _).
  destruct (Nat.ltb_spec (length hist) 2) as [Hl | Hl].
  - rewrite (sp500_analyze_short w self sym hist Hh Hl). auto.
  - rewrite (sp500_analyze_served w self sym hist i Hh Hi Hl).
    destruct (analyze_window self sym hist i); auto.
Qed.

Lemma analyzers_agree_when_served_witness :
  let w := Examples.serving Examples.fourteen_bars Examples.no_info in
  fst (analyze_single_stock (libs := TaModel.libs) w Examples.balanced_analyzer
         "AAPL" (initial_state Examples.t0))
  = SP500.analyze_single_stock (libs := TaModel.libs) w (-1)%float "AAPL".
Proof.
  intros w.
  exact (proj1 (analyzers_agree_when_served TaModel.libs w
                  Examples.balanced_analyzer "AAPL" Examples.fourteen_bars
                  Examples.no_info (initial_state Examples.t0) eq_refl eq_refl)).
Defined.

(** X11: a record returned for a served symbol carries the symbol, the
    last two closes of the window and their percent change, the last volume
    and the mean volume; a missing [longName] is replaced by the symbol, a
    missing [sector] by [Unknown], a missing market cap or 52-week bound by
    0; and the distance from the 52-week high is 0 when that bound is
    missing, null or zero, and [(price - high) / high * 100] otherwise. *)
Theorem record_fields_and_defaults
    (libs : Libs) (w : World) (self : Analyzer) (sym : string) (hist : History)
    (i : Info) (st : State) (r : AnalysisRecord) :
  history w sym 0 = Ok hist -> info w sym 0 = Ok i ->
  fst (analyze_single_stock w self sym st) = Some r ->
  symbol r = sym
  /\ nth_error (closes hist) (length hist - 1) = Some (current_price r)
  /\ nth_error (closes hist) (length hist - 2) = Some (previous_close r)
  /\ percent_change r = pct_change (current_price r) (previous_close r)
  /\ nth_error (volumes hist) (length hist - 1) = Some (volume r)
  /\ avg_volume r = series_mean (volumes hist)
  /\ company_name r = get_text i "longName" sym
  /\ (info_text i !! "longName" = None -> company_name r = sym)
  /\ (info_text i !! "sector" = None -> sector r = "Unknown")
  /\ (info_num i !! "marketCap" = None -> market_cap r = PyFloat 0)
  /\ (info_num i !! "fiftyTwoWeekLow" = None -> fifty_two_week_low r = PyFloat 0)
  /\ (info_num i !! "fiftyTwoWeekHigh" = None ->
      fifty_two_week_high r = PyFloat 0 /\ distance_from_high r = 0%float)
  /\ (truthy (fifty_two_week_high r) = false -> distance_from_high r = 0%float)
  /\ (forall h, fifty_two_week_high r = PyFloat h -> Py.truthy h = true ->
                distance_from_high r = ((current_price r - h) / h * 100)%float)
  /\ technical r = calculate_technical_indicators hist
  /\ fundamental r = calculate_fundamental_ratios i.
Proof.
  intros Hh Hi. rewrite (analyze_single_stock_first w self sym hist i st Hh Hi).
  destruct (_ <? _)%nat; [discriminate |].
  destruct (analyze_window self sym hist i) as [o | m] eqn:E; [| discriminate].
  cbn [fst]. intros ->.
  destruct (analyze_window_fields self sym hist i r E) as (Hp & Hc & Hb).
  destruct (build_record_fields _ _ _ _ _ _ _ Hb) as [Hr Hv].
  assert (Hsym : symbol r = sym) by (rewrite Hr; reflexivity).
  assert (Hpc : percent_change r
                = pct_change (current_price r) (previous_close r))
    by (rewrite Hr; reflexivity).
  assert (Havg : avg_volume r = series_mean (volumes hist))
    by (rewrite Hr; reflexivity).
  assert (Hname : company_name r = get_text i "longName" sym)
    by (rewrite Hr; reflexivity).
  assert (Hsector : sector r = get_text i "sector" "Unknown")
    by (rewrite Hr; reflexivity).
  assert (Hcap : market_cap r = get_num i "marketCap" (PyFloat 0))
    by (rewrite Hr; reflexivity).
  assert (Hlow : fifty_two_week_low r = get_num i "fiftyTwoWeekLow" (PyFloat 0))
    by (rewrite Hr; reflexivity).
  assert (Hhigh : fifty_two_week_high r = get_num i "fiftyTwoWeekHigh" (PyFloat 0))
    by (rewrite Hr; reflexivity).
  assert (Hdist : distance_from_high r
                  = distance_from_52w_high (current_price r) (fifty_two_week_high r)).
  { rewrite Hhigh. rewrite Hr. reflexivity. }
  assert (Htech : technical r = calculate_technical_indicators hist)
    by (rewrite Hr; reflexivity).
  assert (Hfund : fundamental r = calculate_fundamental_ratios i)
    by (rewrite Hr; reflexivity).
  clear Hr.
  repeat match goal with |- _ /\ _ => split end; try assumption.
  - intros H. rewrite Hname. unfold get_text. now rewrite H.
  - intros H. rewrite Hsector. unfold get_text. now rewrite H.
  - intros H. rewrite Hcap. now apply get_num_absent.
  - intros H. rewrite Hlow. now apply get_num_absent.
  - intros H. split; [rewrite Hhigh; now apply get_num_absent |].
    rewrite Hdist, Hhigh, (get_num_absent _ _ _ H). reflexivity.
  - intros H. rewrite Hdist. destruct (fifty_two_week_high r) as [| h];
      [reflexivity |]. simpl in *. now rewrite H.
  - intros h H Ht. rewrite Hdist, H. simpl. now rewrite Ht.
Qed.

Lemma record_fields_and_defaults_witness :
  let w := Examples.serving Examples.drop_12 Scenarios.named in
  exists r,
    fst (analyze_single_stock (libs := TaModel.libs) w Examples.balanced_analyzer
           "AAPL" (initial_state Examples.t0)) = Some r
    /\ company_name r = "Apple Inc." /\ market_cap r = PyFloat 0
    /\ distance_from_high r = 0%float.
Proof.
  intros w.
  destruct (fst (analyze_single_stock (libs := TaModel.libs) w
                   Examples.balanced_analyzer "AAPL" (initial_state Examples.t0)))
    as [r |] eqn:E; [| vm_compute in E; discriminate E].
  exists r. split; [reflexivity |].
  pose proof (record_fields_and_defaults TaModel.libs w Examples.balanced_analyzer
                "AAPL" Examples.drop_12 Scenarios.named (initial_state Examples.t0) r
                eq_refl eq_refl E) as H.
  destruct H as (_ & _ & _ & _ & _ & _ & Hname & _ & _ & Hcap & _ & Hhigh & _).
  split; [exact Hname |]. split; [apply Hcap; reflexivity |].
  apply Hhigh. reflexivity.
Defined.

(** ** What [display_results] needs from a record *)

Lemma format_detail_needs (r : AnalysisRecord) :
  prints_in_detail r
  <-> (market_cap r <> PyNone /\ fifty_two_week_low r <> PyNone
       /\ fifty_two_week_high r <> PyNone
       /\ obv (technical r) <> None /\ rsi (technical r) <> None).
Proof.
  unfold prints_in_detail, format_detail, format_number.
  destruct (market_cap r), (fifty_two_week_low r), (fifty_two_week_high r),
    (obv (technical r)), (rsi (technical r));
    (split;
     [intros H; try discriminate H; repeat split; discriminate
     | intros (H1 & H2 & H3 & H4 & H5); try reflexivity; congruence]).
Qed.

Lemma format_number_needs (v : pyval) : format_number v = Ok tt <-> v <> PyNone.
Proof. destruct v; simpl; split; congruence. Qed.

Section DisplayOutcome.
Variable get_news : string -> State -> list NewsItem * State.
Variable top_n : nat.

Lemma print_rows_ok (rows : list AnalysisRecord) (st : State) :
  fst (print_rows rows st) = Ok tt ->
  printed_rows (trace (snd (print_rows rows st))) = printed_rows (trace st) ++ rows
  /\ saved_files (trace (snd (print_rows rows st))) = saved_files (trace st)
  /\ failed_requests (snd (print_rows rows st)) = failed_requests st
  /\ Forall (fun r => market_cap r <> PyNone) rows.
Proof.
  revert st. induction rows as [| r rest IH]; intros st; simpl.
  - intros _. rewrite app_nil_r. auto.
  - destruct (format_number (market_cap r)) as [[] | m] eqn:E; [| discriminate].
    intros H. destruct (IH (emit (EvPrintRow r) st) H) as (Hp & Hs & Hf & Hc).
    rewrite Hp, Hs, Hf. simpl.
    rewrite printed_rows_app, saved_files_app. simpl.
    rewrite <- app_assoc, app_nil_r.
    repeat split; try reflexivity. constructor; [| exact Hc].
    now apply format_number_needs.
Qed.

Lemma print_rows_failed (rows : list AnalysisRecord) (st : State) :
  failed_requests (snd (print_rows rows st)) = failed_requests st.
Proof.
  revert st. induction rows as [| r rest IH]; intros st; simpl; [reflexivity |].
  destruct (format_number (market_cap r)); [| reflexivity].
  now rewrite IH.
Qed.

Lemma print_details_ok (rows : list AnalysisRecord) (st : State) :
  fst (print_details get_news rows st) = Ok tt -> Forall prints_in_detail rows.
Proof.
  revert st. induction rows as [| r rest IH]; intros st; simpl; [constructor |].
  destruct (format_detail r) as [[] | m] eqn:E; [| discriminate].
  destruct (get_news (symbol r) st) as [items st1].
  intros H. constructor; [exact E | exact (IH _ H)].
Qed.

Lemma print_details_stops (r : AnalysisRecord) (rest : list AnalysisRecord)
    (st : State) :
  ~ prints_in_detail r ->
  exists m, print_details get_news (r :: rest) st = (Raise m, st).
Proof.
  unfold prints_in_detail. simpl. destruct (format_detail r) as [[] | m]; [tauto |].
  intros _. now exists m.
Qed.

(** On normal return everything was shown. *)
Lemma display_results_ok (dropped l : list AnalysisRecord) (st : State) :
  fst (display_results get_news top_n dropped st) = Ok l ->
  l = sort_by_change dropped
  /\ Forall (fun r => market_cap r <> PyNone) l
  /\ Forall prints_in_detail (firstn top_n l).
Proof.
  unfold display_results. destruct dropped as [| x rest].
  - simpl. intros [= <-]. repeat split; try constructor.
    destruct top_n; constructor.
  - set (sorted := sort_by_change (x :: rest)).
    pose proof (print_rows_ok sorted st) as Hrows.
    destruct (print_rows sorted st) as [[[] | m] st1]; [| discriminate].
    destruct (Hrows eq_refl) as (_ & _ & _ & Hcap).
    pose proof (print_details_ok (firstn top_n sorted) st1) as Hdet.
    destruct (print_details get_news (firstn top_n sorted) st1)
      as [[[] | m] st2]; [| discriminate].
    cbn [fst]. intros [= <-]. auto.
Qed.

Lemma display_results_stops (dropped rest : list AnalysisRecord)
    (r : AnalysisRecord) (st : State) :
  (0 < top_n)%nat -> sort_by_change dropped = r :: rest ->
  ~ prints_in_detail r ->
  exists m, fst (display_results get_news top_n dropped st) = Raise m.
Proof.
  intros Hn Hs Hr. unfold display_results.
  destruct dropped as [| x xs]; [discriminate Hs |].
  rewrite Hs. destruct (print_rows (r :: rest) st) as [[[] | m] st1]; [| eauto].
  destruct top_n as [| n]; [lia |]. cbn [firstn].
  destruct (print_details_stops r (firstn n rest) st1 Hr) as [m ->]. eauto.
Qed.

End DisplayOutcome.

(** X12: [display_results] prints the detailed entries of the first
    [top_n] records of the sorted list, and the entry of a record raises a
    [TypeError] when its market cap or one of its 52-week bounds is null, or
    when its [obv] or [rsi] is [None] (the guards compare them with the
    text [N/A], which a stored [None] never equals). So when the record with
    the largest drop has such a field the display ends on an exception,
    whatever the other records are; and when the display returns, every
    record it shows in detail has these five fields. *)
Theorem null_indicator_aborts_display
    (get_news : string -> State -> list NewsItem * State) (top_n : nat)
    (dropped : list AnalysisRecord) (st : State) :
  (forall r rest,
      (0 < top_n)%nat -> sort_by_change dropped = r :: rest ->
      market_cap r = PyNone \/ fifty_two_week_low r = PyNone
      \/ fifty_two_week_high r = PyNone
      \/ obv (technical r) = None \/ rsi (technical r) = None ->
      exists m, fst (display_results get_news top_n dropped st) = Raise m)
  /\ (forall l,
        fst (display_results get_news top_n dropped st) = Ok l ->
        l = sort_by_change dropped
        /\ Forall (fun r => market_cap r <> PyNone) l
        /\ Forall (fun r => market_cap r <> PyNone
                            /\ fifty_two_week_low r <> PyNone
                            /\ fifty_two_week_high r <> PyNone
                            /\ obv (technical r) <> None
                            /\ rsi (technical r) <> None)
             (firstn top_n l)).
Proof.
  split.
  - intros r rest Hn Hs Hnull.
    apply (display_results_stops get_news top_n dropped rest r st Hn Hs).
    rewrite format_detail_needs. tauto.
  - intros l Hl.
    destruct (display_results_ok get_news top_n dropped l st Hl) as (H1 & H2 & H3).
    split; [exact H1 |]. split; [exact H2 |].
    eapply Forall_impl; [exact H3 |]. intros r. apply format_detail_needs.
Qed.

Lemma null_indicator_aborts_display_witness :
  let w := Examples.serving Examples.drop_12 Examples.no_info in
  exists r,
    SP500.analyze_single_stock (libs := TaModel.libs) w (-1)%float "AAPL" = Some r
    /\ obv (technical r) = None
    /\ exists m,
         fst (display_results (fun sym st => (SP500.get_stock_news w sym 3, st)) 3
                [r] (initial_state Examples.t0)) = Raise m.
Proof.
  intros w.
  destruct (SP500.analyze_single_stock (libs := TaModel.libs) w (-1)%float "AAPL")
    as [r |] eqn:E; [| vm_compute in E; discriminate E].
  assert (Hobv : obv (technical r) = None).
  { vm_compute in E. injection E as <-. reflexivity. }
  exists r. split; [reflexivity |]. split; [exact Hobv |].
  apply (proj1 (null_indicator_aborts_display
                  (fun sym st => (SP500.get_stock_news w sym 3, st)) 3 [r]
                  (initial_state Examples.t0)) r []); [lia | reflexivity | tauto].
Defined.

(** ** The batches cover the ticker list *)

Lemma batches_concat (bs n : nat) (l : list string) :
  (0 < bs)%nat -> (length l <= n * bs)%nat ->
  concat (map (fun k => firstn bs (skipn (k * bs) l)) (seq 0 n)) = l.
Proof.
  intros Hbs. revert l. induction n as [| n IH]; intros l Hl.
  - destruct l; [reflexivity | simpl in Hl; lia].
  - rewrite <- cons_seq, <- seq_shift, map_cons, concat_cons, map_map.
    rewrite (map_ext _ (fun k => firstn bs (skipn (k * bs) (skipn bs l)))).
    + rewrite IH; [apply firstn_skipn |]. rewrite length_skipn. lia.
    + intros k. rewrite skipn_skipn. do 2 f_equal. lia.
Qed.

Lemma total_batches_cover (n bs : nat) :
  (0 < bs)%nat -> (n <= (n + bs - 1) / bs * bs)%nat.
Proof.
  intros Hbs.
  pose proof (Nat.div_mod_eq (n + bs - 1) bs) as Hd.
  pose proof (Nat.mod_upper_bound (n + bs - 1) bs ltac:(lia)) as Hm.
  rewrite (Nat.mul_comm _ bs). lia.
Qed.

Section Coverage.
Context {libs : Libs}.
Variables (w : World) (self : Analyzer).
Hypothesis fair : forall l : list string, Permutation l (schedule w l).

Lemma inter_batch_pause_failed (current_batch total_batches : nat) (st : State) :
  failed_requests (inter_batch_pause w current_batch total_batches st)
  = failed_requests st.
Proof. unfold inter_batch_pause. now destruct (_ <? _)%nat. Qed.

(** The loop over the batches finds the records, and records the
    failures, of the tickers of all its batches. *)
Lemma batch_loop_outcome (tickers : list string) (total_batches : nat)
    (indices : list nat) (dropped : list AnalysisRecord) (st : State) :
  let covered :=
    concat (map (fun k => firstn (batch_size self)
                            (skipn (k * batch_size self) tickers)) indices) in
  Permutation (fst (batch_loop w self tickers total_batches indices dropped st))
    (dropped ++ omap (record_of w self) covered)
  /\ exists appended,
       failed_requests (snd (batch_loop w self tickers total_batches indices
                               dropped st))
       = failed_requests st ++ appended
       /\ Permutation appended (List.filter (raises_error w self) covered).
Proof.
  revert dropped st. induction indices as [| k rest IH]; intros dropped st covered.
  - simpl. rewrite !app_nil_r. split; [reflexivity |].
    exists []. now rewrite app_nil_r.
  - subst covered. cbn [batch_loop map]. rewrite concat_cons.
    set (batch := firstn (batch_size self) (skipn (k * batch_size self) tickers)).
    unfold process_batch.
    destruct (run_tasks_outcome w self (schedule w batch) st) as [H1 H2].
    destruct (run_tasks w self (schedule w batch) st) as [rs st1].
    cbn [fst snd] in H1, H2.
    specialize (IH (dropped ++ rs)
                  (inter_batch_pause w (k * batch_size self / batch_size self + 1)
                     total_batches st1)).
    cbv zeta in IH. destruct IH as (Hp & appended & Hf & Ha).
    split.
    + rewrite Hp, H1, omap_app, <- (fair batch), <- app_assoc. reflexivity.
    + exists (List.filter (raises_error w self) (schedule w batch) ++ appended).
      split.
      * rewrite Hf, inter_batch_pause_failed, H2, <- app_assoc. reflexivity.
      * rewrite List.filter_app, Ha.
        apply Permutation_app_tail, Permutation_filter_bool.
        symmetry. apply fair.
Qed.

Lemma get_stock_news_failed (sym : string) (n : nat) (st : State) :
  failed_requests (snd (get_stock_news w self sym n st)) = failed_requests st.
Proof.
  unfold get_stock_news, rate_limited_request.
  destruct (attempts_outcome w self (fetch_news w sym) Config.max_retries 0 st)
    as [_ H].
  destruct (attempts w self (fetch_news w sym) Config.max_retries 0 st)
    as [[[items |] | msg] st']; exact H.
Qed.

End Coverage.

Section DisplayFrames.
Variable get_news : string -> State -> list NewsItem * State.
Variable top_n : nat.
Hypothesis get_news_quietly :
  forall sym st, extends_quietly st (snd (get_news sym st)).
Hypothesis get_news_failed :
  forall sym st, failed_requests (snd (get_news sym st)) = failed_requests st.

Lemma print_details_failed (rows : list AnalysisRecord) (st : State) :
  failed_requests (snd (print_details get_news rows st)) = failed_requests st.
Proof.
  revert st. induction rows as [| r rest IH]; intros st; simpl; [reflexivity |].
  destruct (format_detail r); [| reflexivity].
  pose proof (get_news_failed (symbol r) st) as H.
  destruct (get_news (symbol r) st) as [items st1]. rewrite IH. exact H.
Qed.

Lemma display_results_failed (dropped : list AnalysisRecord) (st : State) :
  failed_requests (snd (display_results get_news top_n dropped st))
  = failed_requests st.
Proof.
  unfold display_results. destruct dropped as [| x rest]; [reflexivity |].
  pose proof (print_rows_failed (sort_by_change (x :: rest)) st) as H1.
  destruct (print_rows (sort_by_change (x :: rest)) st) as [[[] | m] st1];
    [| exact H1].
  pose proof (print_details_failed
                (firstn top_n (sort_by_change (x :: rest))) st1) as H2.
  destruct (print_details get_news _ st1) as [[[] | m] st2]; cbn [snd] in *;
    congruence.
Qed.

(** On normal return the whole sorted list was shown. *)
Lemma display_results_shown (dropped l : list AnalysisRecord) (st : State) :
  fst (display_results get_news top_n dropped st) = Ok l ->
  printed_rows (trace (snd (display_results get_news top_n dropped st)))
  = printed_rows (trace st) ++ l.
Proof.
  unfold display_results. destruct dropped as [| x rest].
  - cbn [fst snd]. intros [= <-]. simpl. rewrite printed_rows_app. reflexivity.
  - set (sorted := sort_by_change (x :: rest)).
    pose proof (print_rows_ok sorted st) as Hrows.
    destruct (print_rows sorted st) as [[[] | m] st1]; [| discriminate].
    destruct (Hrows eq_refl) as (Hp & _).
    pose proof (print_details_quietly get_news get_news_quietly
                  (firstn top_n sorted) st1) as Hq.
    apply extends_quietly_outputs in Hq as [Hq _].
    destruct (print_details get_news (firstn top_n sorted) st1)
      as [[[] | m] st2]; [| discriminate].
    cbn [fst snd] in *. intros [= <-]. congruence.
Qed.

End DisplayFrames.

(** ** The phases of a run *)

Lemma saves_what_it_shows_transfer (top_n : nat) (writable : bool)
    (res : result unit) (st st' : State) :
  printed_rows (trace st') = printed_rows (trace st) ->
  saved_files (trace st') = saved_files (trace st) ->
  saves_what_it_shows top_n writable res st ->
  saves_what_it_shows top_n writable res st'.
Proof. unfold saves_what_it_shows. now intros -> ->. Qed.

Lemma nothing_saved (top_n : nat) (writable : bool) (res : result unit)
    (st : State) :
  saved_files (trace st) = [] ->
  (res = Ok tt -> writable = true -> printed_rows (trace st) = []) ->
  saves_what_it_shows top_n writable res st.
Proof.
  unfold saves_what_it_shows. intros -> H.
  split; [now left |]. split; [congruence |]. split; [| reflexivity].
  intros H1 H2 H3. now rewrite (H H1 H2) in H3.
Qed.

Section DisplayThenSave.
Variable get_news : string -> State -> list NewsItem * State.
Variable top_n : nat.
Hypothesis get_news_quietly :
  forall sym st, extends_quietly st (snd (get_news sym st)).

(** Display, then save when the list is not empty. *)
Lemma display_then_save (writable : bool) (dropped : list AnalysisRecord)
    (st : State) :
  printed_rows (trace st) = [] -> saved_files (trace st) = [] ->
  let shown := display_results get_news top_n dropped st in
  match fst shown with
  | Raise m => saved_files (trace (snd shown)) = []
  | Ok l =>
      saves_what_it_shows top_n writable (Ok tt)
        match l with
        | [] => snd shown
        | _ => save_results_to_csv writable l (snd shown)
        end
  end.
Proof.
  intros Hp Hs shown.
  destruct (display_results_spec get_news top_n get_news_quietly dropped st)
    as (_ & Hsaved & _). fold shown in Hsaved. rewrite Hs in Hsaved.
  pose proof (display_results_ok get_news top_n dropped) as Hok.
  pose proof (display_results_shown get_news top_n get_news_quietly dropped) as Hsh.
  destruct (fst shown) as [l | m] eqn:E; [| exact Hsaved].
  destruct (Hok l st E) as (_ & Hcap & Hdet). specialize (Hsh l st E).
  fold shown in Hsh. rewrite Hp in Hsh. cbn [app] in Hsh.
  destruct l as [| a l'].
  - apply nothing_saved; [exact Hsaved | now intros _ _].
  - unfold save_results_to_csv. destruct writable.
    + unfold saves_what_it_shows. cbn [emit trace].
      rewrite printed_rows_app, saved_files_app, Hsh, Hsaved. cbn.
      rewrite app_nil_r.
      split; [now right |]. split; [| split; [reflexivity | discriminate]].
      intros _. repeat split; try assumption. discriminate.
    + apply nothing_saved; [exact Hsaved | discriminate].
Qed.

End DisplayThenSave.

Section RunShape.
Context {libs : Libs}.
Variables (w : World) (self : Analyzer) (writable : bool).

(** A run over a ticker list that is not empty: the loop over the
    batches, the display, then the file and the failure report. *)
Lemma analyze_us_stocks_phases (cells : list string) (st : State) :
  let tickers := Tickers.filter_tickers cells in
  let total := ((length tickers + batch_size self - 1) / batch_size self)%nat in
  let loop := batch_loop w self tickers total (seq 0 total) [] st in
  let shown := display_results (fun sym => get_stock_news w self sym 3) 5
                 (fst loop) (snd loop) in
  tickers <> [] -> batch_size self <> 0 ->
  analyze_us_stocks w self writable (Ok cells) st
  = match fst shown with
    | Raise m => (Raise m, snd shown)
    | Ok l =>
        (Ok tt,
         match failed_requests
                 match l with
                 | [] => snd shown
                 | _ => save_results_to_csv writable l (snd shown)
                 end with
         | [] => match l with
                 | [] => snd shown
                 | _ => save_results_to_csv writable l (snd shown)
                 end
         | failed =>
             emit (EvFailureReport failed)
               match l with
               | [] => snd shown
               | _ => save_results_to_csv writable l (snd shown)
               end
         end)
    end.
Proof.
  intros tickers total loop shown Ht Hbs.
  unfold analyze_us_stocks. cbn [Tickers.get_fortune5000_tickers].
  fold tickers. subst shown loop total.
  destruct tickers as [| t ts]; [contradiction |].
  destruct (Nat.eqb_spec (batch_size self) 0) as [? | _]; [contradiction |].
  destruct (batch_loop w self (t :: ts) _ _ [] st) as [dropped st1].
  cbn [fst snd].
  destruct (display_results _ 5 dropped st1) as [[l | m] st2]; reflexivity.
Qed.

Lemma analyze_us_stocks_idle (csv : result (list string)) (st : State) :
  match Tickers.get_fortune5000_tickers csv with
  | None | Some [] => True
  | Some _ => batch_size self = 0
  end ->
  printed_rows (trace (snd (analyze_us_stocks w self writable csv st)))
  = printed_rows (trace st)
  /\ saved_files (trace (snd (analyze_us_stocks w self writable csv st)))
     = saved_files (trace st)
  /\ failed_requests (snd (analyze_us_stocks w self writable csv st))
     = failed_requests st.
Proof.
  unfold analyze_us_stocks.
  destruct (Tickers.get_fortune5000_tickers csv) as [[| t ts] |]; intros H;
    try (cbn [snd emit trace failed_requests];
         rewrite printed_rows_app, saved_files_app, !app_nil_r; now auto).
  rewrite H. cbn. auto.
Qed.

Lemma report_outputs (st : State) :
  let st' := match failed_requests st with
             | [] => st
             | failed => emit (EvFailureReport failed) st
             end in
  printed_rows (trace st') = printed_rows (trace st)
  /\ saved_files (trace st') = saved_files (trace st)
  /\ failed_requests st' = failed_requests st.
Proof.
  destruct (failed_requests st) eqn:E; cbn [emit trace failed_requests];
    rewrite ?printed_rows_app, ?saved_files_app, ?app_nil_r; auto.
Qed.

End RunShape.

Section SavedOutput.
Context {libs : Libs}.
Variables (w : World) (self : Analyzer) (writable : bool).

Lemma us_run_saves_what_it_shows (csv : result (list string)) (st : State) :
  printed_rows (trace st) = [] -> saved_files (trace st) = [] ->
  saves_what_it_shows 5 writable
    (fst (analyze_us_stocks w self writable csv st))
    (snd (analyze_us_stocks w self writable csv st)).
Proof.
  intros Hp Hs.
  assert (Hidle : match Tickers.get_fortune5000_tickers csv with
                  | None | Some [] => True
                  | Some _ => batch_size self = 0
                  end ->
                  saves_what_it_shows 5 writable
                    (fst (analyze_us_stocks w self writable csv st))
                    (snd (analyze_us_stocks w self writable csv st))).
  { intros H. destruct (analyze_us_stocks_idle w self writable csv st H)
      as (H1 & H2 & _).
    apply nothing_saved; [congruence | intros _ _; congruence]. }
  destruct csv as [cells | m]; [| now apply Hidle].
  destruct (Tickers.filter_tickers cells) as [| t ts] eqn:Et;
    [apply Hidle; cbn; now rewrite Et |].
  destruct (Nat.eq_dec (batch_size self) 0) as [Hz | Hnz];
    [apply Hidle; cbn; now rewrite Et |].
  rewrite (analyze_us_stocks_phases w self writable cells st);
    [| rewrite Et; discriminate | exact Hnz].
  rewrite Et.
  set (total := ((length (t :: ts) + batch_size self - 1) / batch_size self)%nat).
  pose proof (batch_loop_quietly w self (t :: ts) total (seq 0 total) [] st) as Hq.
  apply extends_quietly_outputs in Hq as [Hq1 Hq2].
  set (loop := batch_loop w self (t :: ts) total (seq 0 total) [] st) in *.
  rewrite Hp in Hq1. rewrite Hs in Hq2.
  pose proof (display_then_save (fun sym => get_stock_news w self sym 3) 5
                (fun sym s => get_stock_news_quietly w self sym 3 s)
                writable (fst loop) (snd loop) Hq1 Hq2) as H.
  cbv zeta in H.
  destruct (fst (display_results _ 5 (fst loop) (snd loop))) as [l | m].
  - cbn [fst snd].
    match goal with
    | |- saves_what_it_shows _ _ _ match failed_requests ?s with _ => _ end =>
        destruct (report_outputs s) as (R1 & R2 & _);
        apply (saves_what_it_shows_transfer 5 writable (Ok tt) s _ R1 R2)
    end.
    exact H.
  - cbn [fst snd]. apply nothing_saved; [exact H | discriminate].
Qed.

Lemma sp500_run_saves_what_it_shows (tickers : option (list string)) (st : State) :
  printed_rows (trace st) = [] -> saved_files (trace st) = [] ->
  saves_what_it_shows 3 writable
    (fst (SP500.analyze_sp500_stocks w (drop_threshold self) writable tickers st))
    (snd (SP500.analyze_sp500_stocks w (drop_threshold self) writable tickers st)).
Proof.
  intros Hp Hs. unfold SP500.analyze_sp500_stocks.
  destruct tickers as [[| t ts] |];
    try (apply nothing_saved; cbn [fst snd emit trace];
         rewrite ?printed_rows_app, ?saved_files_app, ?app_nil_r; now auto).
  destruct (sp500_collect_spec w self (schedule w (t :: ts)) [] st ltac:(constructor))
    as [_ Hq].
  apply extends_quietly_outputs in Hq as [Hq1 Hq2].
  destruct (SP500.collect w (drop_threshold self) (schedule w (t :: ts)) [] st)
    as [dropped st1]. cbn [snd] in Hq1, Hq2.
  rewrite Hp in Hq1. rewrite Hs in Hq2.
  pose proof (display_then_save (fun sym s => (SP500.get_stock_news w sym 3, s)) 3
                (fun sym s => extends_quietly_refl s)
                writable dropped st1 Hq1 Hq2) as H.
  cbv zeta in H.
  destruct (display_results _ 3 dropped st1) as [[l | m] st2]; cbn [fst snd] in *.
  - exact H.
  - apply nothing_saved; [exact H | discriminate].
Qed.

End SavedOutput.

(** X13: in a run of either analyzer at most one CSV file is written,
    and its rows are exactly the rows of the ranked table the run printed, in
    the same order. The file is written only when the run ends without an
    exception, the file can be written and at least one record was found; the
    first five (three for [sp500-analysis.py]) of its rows then have a
    numeric market cap and 52-week range and an [obv] and [rsi] that are not
    [None], and all its rows a numeric market cap. A run whose display raises
    writes no file. *)
Theorem saved_file_is_the_printed_table
    (libs : Libs) (w : World) (self : Analyzer) (writable : bool) (now : Q) :
  (forall csv : result (list string),
      saves_what_it_shows 5 writable
        (fst (analyze_us_stocks w self writable csv (initial_state now)))
        (snd (analyze_us_stocks w self writable csv (initial_state now))))
  /\ (forall tickers : option (list string),
        saves_what_it_shows 3 writable
          (fst (SP500.analyze_sp500_stocks w (drop_threshold self) writable
                  tickers (initial_state now)))
          (snd (SP500.analyze_sp500_stocks w (drop_threshold self) writable
                  tickers (initial_state now)))).
Proof.
  split.
  - intros csv. now apply us_run_saves_what_it_shows.
  - intros tickers. now apply sp500_run_saves_what_it_shows.
Qed.

(** ** Every ticker is analysed once *)

Section WholeRun.
Context {libs : Libs}.
Variables (w : World) (self : Analyzer) (writable : bool).
Hypothesis fair : forall l : list string, Permutation l (schedule w l).
Hypothesis batch_size_positive : (0 < batch_size self)%nat.

Lemma batch_loop_covers (tickers : list string) (st : State) :
  let total := ((length tickers + batch_size self - 1) / batch_size self)%nat in
  let loop := batch_loop w self tickers total (seq 0 total) [] st in
  Permutation (fst loop) (omap (record_of w self) tickers)
  /\ exists appended,
       failed_requests (snd loop) = failed_requests st ++ appended
       /\ Permutation appended (List.filter (raises_error w self) tickers).
Proof.
  intros total loop.
  pose proof (batch_loop_outcome w self fair tickers total (seq 0 total) [] st) as H.
  cbv zeta in H.
  rewrite (batches_concat (batch_size self) total tickers batch_size_positive) in H;
    [exact H |].
  now apply total_batches_cover.
Qed.

Lemma us_run_covers (cells : list string) (now : Q) :
  let run := analyze_us_stocks w self writable (Ok cells) (initial_state now) in
  let tickers := Tickers.filter_tickers cells in
  Permutation (failed_requests (snd run)) (List.filter (raises_error w self) tickers)
  /\ (fst run = Ok tt ->
      Permutation (printed_rows (trace (snd run))) (omap (record_of w self) tickers)).
Proof.
  intros run tickers. subst run.
  destruct tickers as [| t ts] eqn:Et.
  { unfold analyze_us_stocks. cbn [Tickers.get_fortune5000_tickers].
    fold tickers. rewrite Et. cbn. auto. }
  rewrite (analyze_us_stocks_phases w self writable cells (initial_state now));
    [| fold tickers; rewrite Et; discriminate | lia].
  fold tickers. rewrite Et.
  set (total := ((length (t :: ts) + batch_size self - 1) / batch_size self)%nat).
  destruct (batch_loop_covers (t :: ts) (initial_state now))
    as (Hrec & appended & Hfail & Happ).
  fold total in Hrec, Hfail.
  pose proof (batch_loop_quietly w self (t :: ts) total (seq 0 total) []
                (initial_state now)) as Hq.
  apply extends_quietly_outputs in Hq as [Hq1 _].
  set (loop := batch_loop w self (t :: ts) total (seq 0 total) []
                 (initial_state now)) in *.
  cbn [initial_state failed_requests app trace printed_rows] in Hfail, Hq1.
  pose proof (display_results_failed (fun sym => get_stock_news w self sym 3) 5
                (fun sym s => get_stock_news_failed w self sym 3 s)
                (fst loop) (snd loop)) as Hdf.
  pose proof (display_results_shown (fun sym => get_stock_news w self sym 3) 5
                (fun sym s => get_stock_news_quietly w self sym 3 s)
                (fst loop)) as Hshown.
  pose proof (display_results_ok (fun sym => get_stock_news w self sym 3) 5
                (fst loop)) as Hok.
  set (shown := display_results _ 5 (fst loop) (snd loop)) in *.
  destruct (fst shown) as [l | m] eqn:E.
  - cbn [fst snd].
    match goal with
    | |- context [match failed_requests ?s with _ => _ end] =>
        destruct (report_outputs s) as (R1 & _ & R3);
        cbv zeta in R1, R3; rewrite R1, R3
    end.
    assert (Hst3 : failed_requests
                     match l with
                     | [] => snd shown
                     | _ :: _ => save_results_to_csv writable l (snd shown)
                     end = failed_requests (snd shown)
                   /\ printed_rows
                        (trace match l with
                               | [] => snd shown
                               | _ :: _ => save_results_to_csv writable l (snd shown)
                               end) = printed_rows (trace (snd shown))).
    { destruct l; [auto |]. unfold save_results_to_csv.
      destruct writable; cbn [emit trace failed_requests];
        rewrite ?printed_rows_app, ?app_nil_r; auto. }
    destruct Hst3 as [-> ->]. rewrite Hdf, Hfail. split; [exact Happ |].
    intros _. pose proof (Hshown l (snd loop) E) as Hsh. fold shown in Hsh.
    rewrite Hsh, Hq1. cbn [app].
    destruct (Hok l (snd loop) E) as (-> & _).
    now rewrite <- sort_by_change_perm.
  - cbn [fst snd]. rewrite Hdf, Hfail. split; [exact Happ | discriminate].
Qed.

End WholeRun.

(** X14: in a run of [analyze_us_stocks] over the tickers of the CSV
    file (with a positive batch size and a pool that completes every task it
    is given), every ticker is analysed exactly once, whatever the number of
    batches: the failure list at the end holds exactly the tickers whose
    analysis raised, and, when the run ends normally, the rows of the ranked
    table are exactly the records of the tickers that qualified. *)
Theorem run_reports_every_qualifying_ticker
    (libs : Libs) (w : World) (self : Analyzer) (writable : bool)
    (cells : list string) (now : Q) :
  (forall l : list string, Permutation l (schedule w l)) ->
  (0 < batch_size self)%nat ->
  let run := analyze_us_stocks w self writable (Ok cells) (initial_state now) in
  let tickers := Tickers.filter_tickers cells in
  Permutation (failed_requests (snd run)) (List.filter (raises_error w self) tickers)
  /\ (fst run = Ok tt ->
      Permutation (printed_rows (trace (snd run))) (omap (record_of w self) tickers)).
Proof. intros fair Hbs. now apply us_run_covers. Qed.

Lemma run_reports_every_qualifying_ticker_witness :
  let w := Examples.serving Examples.fourteen_bars Examples.no_info in
  let self := new_analyzer (-1)%float "ultra_conservative" in
  let run := analyze_us_stocks (libs := TaModel.libs) w self true
               (Ok Examples.eleven_tickers) (initial_state Examples.t0) in
  (forall l : list string, Permutation l (schedule w l))
  /\ (0 < batch_size self)%nat
  /\ fst run = Ok tt
  /\ failed_requests (snd run) = []
  /\ length (printed_rows (trace (snd run))) = 11
  /\ Permutation (printed_rows (trace (snd run)))
       (omap (record_of (libs := TaModel.libs) w self) Examples.eleven_tickers).
Proof.
  intros w self run.
  assert (H1 : forall l : list string, Permutation l (schedule w l))
    by (intros l; apply Permutation_refl).
  assert (H2 : (0 < batch_size self)%nat) by (vm_compute; lia).
  assert (H3 : fst run = Ok tt) by (vm_compute; reflexivity).
  split; [exact H1 |]. split; [exact H2 |]. split; [exact H3 |].
  split; [vm_compute; reflexivity |]. split; [vm_compute; reflexivity |].
  exact (proj2 (run_reports_every_qualifying_ticker TaModel.libs w self true
                  Examples.eleven_tickers Examples.t0 H1 H2) H3).
Defined.

(** ** The configuration of an analyzer *)

Lemma get_config_cases (preset : string) :
  In (Config.get_config preset)
    [Config.aggressive; Config.balanced; Config.conservative;
     Config.ultra_conservative].
Proof.
  destruct (in_dec String.string_dec preset valid_presets) as [Hin | Hout].
  - simpl in Hin. destruct Hin as [<- | [<- | [<- | [<- | []]]]];
      vm_compute; tauto.
  - unfold Config.get_config. rewrite (PRESETS_unknown preset Hout).
    right. now left.
Qed.

Lemma new_analyzer_batch_size (threshold : float) (preset : string) :
  (10 <= batch_size (new_analyzer threshold preset))%nat.
Proof.
  unfold new_analyzer. cbn [batch_size].
  destruct (get_config_cases preset) as [<- | [<- | [<- | [<- | []]]]];
    vm_compute; lia.
Qed.

(** X15: whatever the preset name given to [__init__] (one of the four
    or any other), the analyzer gets a usable configuration: 10 to 100
    tickers per batch, 1 to 5 workers, and delay ranges whose lower bound is
    positive and not above the upper bound, the request delay being 0.2 to
    5 s. So the batch arithmetic of [analyze_us_stocks] never divides by
    zero. *)
Theorem analyzer_config_well_formed (threshold : float) (preset : string) :
  let a := new_analyzer threshold preset in
  (10 <= batch_size a <= 100)%nat
  /\ (1 <= max_workers a <= 5)%nat
  /\ ((1 # 5) <= fst (delay_range a) <= snd (delay_range a))%Q
  /\ (snd (delay_range a) <= 5)%Q
  /\ (1 <= fst (inter_batch_delay a) <= snd (inter_batch_delay a))%Q
  /\ drop_threshold a = threshold
  /\ (batch_size a =? 0)%nat = false.
Proof.
  unfold new_analyzer. cbn [batch_size max_workers delay_range inter_batch_delay
                             drop_threshold].
  destruct (get_config_cases preset) as [<- | [<- | [<- | [<- | []]]]];
    cbn; repeat split; try lia; try lra; try reflexivity;
    try (vm_compute; discriminate).
Qed.

(** ** Records that cannot be shown *)

Section ShortWindowRun.
Context {libs : Libs}.
Variables (w : World) (self : Analyzer).

Lemma record_of_served (sym : string) (hist : History) (i : Info) :
  history w sym 0 = Ok hist -> info w sym 0 = Ok i -> (2 <= length hist)%nat ->
  record_of w self sym
  = match analyze_window self sym hist i with
    | Ok r => r
    | Raise _ => None
    end.
Proof.
  intros Hh Hi Hl. unfold record_of, symbol_outcome, Config.max_retries.
  cbn [wrapped_outcome]. now rewrite (fetch_stock_data_served w sym hist i Hh Hi Hl).
Qed.

Lemma omap_all_some {A B} (f : A -> option B) (P : B -> Prop) (l : list A) :
  (forall x, In x l -> exists y, f x = Some y /\ P y) ->
  length (omap f l) = length l /\ Forall P (omap f l).
Proof.
  induction l as [| x l IH]; intros H; [split; [reflexivity | constructor] |].
  destruct IH as [IH1 IH2]; [intros y Hy; apply H; now right |].
  destruct (H x) as (y & Hy & Py); [now left |]. cbn [omap list_omap]. rewrite Hy.
  cbn [length]. split; [f_equal; exact IH1 | constructor; [exact Py | exact IH2]].
Qed.

End ShortWindowRun.

(** X16: when, for every ticker of the list, the provider serves a
    window of 2 to 13 bars whose change is at or below the threshold of
    [main], -1 % (the windows and the attributes may differ from one ticker
    to the other), and the pool completes every task, every record has
    [obv] and [rsi] [None], so the detailed entry of the first record raises
    a [TypeError]: a run started from [main] over a ticker list that is not
    empty ends on ["An error occurred"] and saves no CSV file. *)
Theorem short_windows_abort_the_run
    (libs : Libs) (w : World) (preset : string) (writable : bool)
    (cells : list string) (now : Q) :
  (forall sym, In sym (Tickers.filter_tickers cells) ->
     exists (hist : History) (i : Info) (prev cur : float),
       history w sym 0 = Ok hist /\ info w sym 0 = Ok i
       /\ (2 <= length hist < 14)%nat
       /\ nth_error (closes hist) (length hist - 2) = Some prev
       /\ nth_error (closes hist) (length hist - 1) = Some cur
       /\ PrimFloat.leb (pct_change cur prev) (-1)%float = true) ->
  (forall l : list string, Permutation l (schedule w l)) ->
  Tickers.filter_tickers cells <> [] ->
  let st := run_preset w preset writable (Ok cells) now in
  saved_files (trace st) = []
  /\ exists m, last (trace st) = Some (EvUnexpectedError m).
Proof.
  intros Hserved fair Hne st. subst st. unfold run_preset.
  set (self := new_analyzer (-1)%float preset).
  assert (Hbs : (0 < batch_size self)%nat).
  { pose proof (new_analyzer_batch_size (-1)%float preset). fold self in H. lia. }
  rewrite (analyze_us_stocks_phases w self writable cells (initial_state now));
    [| exact Hne | lia].
  set (tickers := Tickers.filter_tickers cells) in *.
  set (total := ((length tickers + batch_size self - 1) / batch_size self)%nat).
  destruct (batch_loop_covers w self fair Hbs tickers (initial_state now))
    as (Hrec & _).
  fold total in Hrec.
  pose proof (batch_loop_quietly w self tickers total (seq 0 total) []
                (initial_state now)) as Hquiet.
  apply extends_quietly_outputs in Hquiet as [Hq1 Hq2].
  set (loop := batch_loop w self tickers total (seq 0 total) []
                 (initial_state now)) in *.
  cbn [initial_state trace printed_rows saved_files] in Hq1, Hq2.
  (* every record lacks the indicators *)
  assert (Hall : forall sym, In sym tickers -> exists r,
             record_of w self sym = Some r /\ ~ prints_in_detail r).
  { intros sym Hin.
    destruct (Hserved sym Hin) as (hist & i & prev & cur & Hh & Hi & [Hlo Hhi]
                                   & Hp & Hc & Hq).
    rewrite (record_of_served w self sym hist i Hh Hi Hlo).
    destruct (analyze_window_spec self sym hist i prev cur Hlo Hp Hc) as [Hyes _].
    destruct (Hyes Hq) as (r & -> & _ & Ht & _). exists r. split; [reflexivity |].
    rewrite format_detail_needs, Ht, (indicators_null_below_14 hist Hhi).
    cbn. tauto. }
  destruct (omap_all_some (record_of w self) (fun r => ~ prints_in_detail r)
              tickers Hall) as [Hlen Hnone].
  assert (Hsorted : exists r rest, sort_by_change (fst loop) = r :: rest
                                   /\ ~ prints_in_detail r).
  { assert (Hperm : Permutation (sort_by_change (fst loop))
                      (omap (record_of w self) tickers)).
    { now rewrite <- sort_by_change_perm. }
    destruct (sort_by_change (fst loop)) as [| r rest].
    - apply Permutation_length in Hperm. rewrite Hlen in Hperm.
      destruct tickers; [contradiction | discriminate Hperm].
    - exists r, rest. split; [reflexivity |].
      symmetry in Hperm.
      pose proof (Permutation_Forall Hperm Hnone) as HF.
      now inversion HF. }
  destruct Hsorted as (r & rest & Hs & Hr).
  destruct (display_results_stops (fun sym => get_stock_news w self sym 3) 5
              (fst loop) rest r (snd loop) ltac:(lia) Hs Hr) as [m Hm].
  pose proof (display_then_save (fun sym => get_stock_news w self sym 3) 5
                (fun sym s => get_stock_news_quietly w self sym 3 s)
                writable (fst loop) (snd loop) Hq1 Hq2) as Hsave.
  cbv zeta in Hsave. rewrite Hm in *. cbn [emit trace].
  rewrite saved_files_app, Hsave, last_snoc. split; [reflexivity | eauto].
Qed.

Lemma short_windows_abort_the_run_witness :
  let w := Scenarios.two_windows in
  let cells := ["AAPL"; "MSFT"] in
  let st := run_preset (libs := TaModel.libs) w "balanced" true (Ok cells)
              Examples.t0 in
  (forall sym, In sym (Tickers.filter_tickers cells) ->
     exists (hist : History) (i : Info) (prev cur : float),
       history w sym 0 = Ok hist /\ info w sym 0 = Ok i
       /\ (2 <= length hist < 14)%nat
       /\ nth_error (closes hist) (length hist - 2) = Some prev
       /\ nth_error (closes hist) (length hist - 1) = Some cur
       /\ PrimFloat.leb (pct_change cur prev) (-1)%float = true)
  /\ Tickers.filter_tickers cells <> []
  /\ map symbol (printed_rows (trace st)) = ["MSFT"; "AAPL"]
  /\ saved_files (trace st) = []
  /\ exists m, last (trace st) = Some (EvUnexpectedError m).
Proof.
  intros w cells st.
  assert (H1 : forall sym, In sym (Tickers.filter_tickers cells) ->
            exists (hist : History) (i : Info) (prev cur : float),
              history w sym 0 = Ok hist /\ info w sym 0 = Ok i
              /\ (2 <= length hist < 14)%nat
              /\ nth_error (closes hist) (length hist - 2) = Some prev
              /\ nth_error (closes hist) (length hist - 1) = Some cur
              /\ PrimFloat.leb (pct_change cur prev) (-1)%float = true).
  { assert (Ht : Tickers.filter_tickers cells = ["AAPL"; "MSFT"])
      by (vm_compute; reflexivity).
    intros sym Hin. rewrite Ht in Hin. destruct Hin as [<- | [<- | []]].
    - exists Examples.drop_12, Examples.no_info, 100%float, 88%float.
      repeat split; simpl; lia.
    - exists Scenarios.steep, Scenarios.named, 100%float, 50%float.
      repeat split; simpl; lia. }
  assert (H3 : Tickers.filter_tickers cells <> []) by (vm_compute; discriminate).
  split; [exact H1 |]. split; [exact H3 |].
  split; [vm_compute; reflexivity |].
  exact (short_windows_abort_the_run TaModel.libs w "balanced" true cells
           Examples.t0 H1 (fun l => Permutation_refl l) H3).
Defined.

(** ** Properties kept by every step of a run

    A relation between the state before and the state after that holds
    across the throttle, the backoff, the pause between batches and the
    passive events holds across a whole run. *)

Section RunInvariant.
Context {libs : Libs}.
Variables (w : World) (self : Analyzer) (writable : bool).
Variable R : State -> State -> Prop.
Hypothesis R_refl : forall st, R st st.
Hypothesis R_trans : forall a b c, R a b -> R b c -> R a c.
Hypothesis R_throttle : forall st, R st (throttle w self st).
Hypothesis R_advance : forall d st, R st (advance d st).
Hypothesis R_back_off : forall attempt st, R st (back_off w attempt st).
Hypothesis R_pause :
  forall current total st, R st (inter_batch_pause w current total st).
Hypothesis R_emit : forall e st, passive e = true -> R st (emit e st).
Hypothesis R_failure : forall sym st, R st (record_failure sym st).

Lemma before_call_kept (st : State) : R st (before_call w self st).
Proof. unfold before_call. eapply R_trans; [apply R_throttle | apply R_advance]. Qed.

Lemma attempts_kept {A} (func : nat -> result (option A))
    (remaining attempt : nat) (st : State) :
  R st (snd (attempts w self func remaining attempt st)).
Proof.
  revert attempt st. induction remaining as [| n IH]; intros attempt st.
  - simpl. now apply R_emit.
  - rewrite attempts_step.
    destruct (func attempt) as [v | msg]; cbn [snd]; [apply before_call_kept |].
    destruct (is_rate_limit_error msg); cbn [snd]; [| apply before_call_kept].
    eapply R_trans; [apply before_call_kept |].
    eapply R_trans; [apply R_back_off | apply IH].
Qed.

Lemma on_error_kept (sym msg : string) (st : State) : R st (on_error sym msg st).
Proof.
  unfold on_error. eapply R_trans; [| apply R_failure]. now apply R_emit.
Qed.

Lemma analyze_single_stock_kept (sym : string) (st : State) :
  R st (snd (analyze_single_stock w self sym st)).
Proof.
  unfold analyze_single_stock, rate_limited_request.
  pose proof (attempts_kept (fetch_stock_data w sym) Config.max_retries 0 st) as H.
  destruct (attempts w self (fetch_stock_data w sym) Config.max_retries 0 st)
    as [[[[hist i] |] | msg] st']; cbn [snd] in *; try exact H.
  - destruct (analyze_window self sym hist i); cbn [snd]; [exact H |].
    eapply R_trans; [exact H | apply on_error_kept].
  - eapply R_trans; [exact H | apply on_error_kept].
Qed.

Lemma get_stock_news_kept (sym : string) (n : nat) (st : State) :
  R st (snd (get_stock_news w self sym n st)).
Proof.
  unfold get_stock_news, rate_limited_request.
  pose proof (attempts_kept (fetch_news w sym) Config.max_retries 0 st) as H.
  destruct (attempts w self (fetch_news w sym) Config.max_retries 0 st)
    as [[[items |] | msg] st']; exact H.
Qed.

Lemma run_tasks_kept (order : list string) (st : State) :
  R st (snd (run_tasks w self order st)).
Proof.
  revert st. induction order as [| t rest IH]; intros st; cbn [run_tasks];
    [apply R_refl |].
  pose proof (analyze_single_stock_kept t st) as H1.
  destruct (analyze_single_stock w self t st) as [r st1].
  specialize (IH st1). destruct (run_tasks w self rest st1) as [rs st2].
  cbn [snd] in *. eapply R_trans; eassumption.
Qed.

Lemma batch_loop_kept (tickers : list string) (total_batches : nat)
    (indices : list nat) (dropped : list AnalysisRecord) (st : State) :
  R st (snd (batch_loop w self tickers total_batches indices dropped st)).
Proof.
  revert dropped st. induction indices as [| k rest IH]; intros dropped st;
    cbn [batch_loop]; [apply R_refl |].
  unfold process_batch.
  pose proof (run_tasks_kept
                (schedule w (firstn (batch_size self)
                               (skipn (k * batch_size self) tickers))) st) as H1.
  destruct (run_tasks w self _ st) as [rs st1]. cbn [snd] in H1.
  eapply R_trans; [exact H1 |].
  eapply R_trans; [apply R_pause | apply IH].
Qed.

Lemma print_rows_kept (rows : list AnalysisRecord) (st : State) :
  R st (snd (print_rows rows st)).
Proof.
  revert st. induction rows as [| r rest IH]; intros st; cbn [print_rows];
    [apply R_refl |].
  destruct (format_number (market_cap r)); [| apply R_refl].
  eapply R_trans; [| apply IH]. now apply R_emit.
Qed.

Lemma print_details_kept (n : nat) (rows : list AnalysisRecord) (st : State) :
  R st (snd (print_details (fun sym => get_stock_news w self sym n) rows st)).
Proof.
  revert st. induction rows as [| r rest IH]; intros st; cbn [print_details];
    [apply R_refl |].
  destruct (format_detail r); [| apply R_refl].
  pose proof (get_stock_news_kept (symbol r) n st) as H.
  destruct (get_stock_news w self (symbol r) n st) as [items st1]. cbn [snd] in H.
  eapply R_trans; [exact H |].
  eapply R_trans; [| apply IH]. now apply R_emit.
Qed.

Lemma display_results_kept (n top_n : nat) (dropped : list AnalysisRecord)
    (st : State) :
  R st (snd (display_results (fun sym => get_stock_news w self sym n) top_n
               dropped st)).
Proof.
  unfold display_results. destruct dropped as [| x rest];
    [now apply R_emit |].
  pose proof (print_rows_kept (sort_by_change (x :: rest)) st) as H1.
  destruct (print_rows (sort_by_change (x :: rest)) st) as [[[] | m] st1];
    [| exact H1].
  pose proof (print_details_kept n (firstn top_n (sort_by_change (x :: rest))) st1)
    as H2.
  destruct (print_details _ _ st1) as [[[] | m] st2]; cbn [snd] in *;
    eapply R_trans; eassumption.
Qed.

Lemma analyze_us_stocks_kept (csv : result (list string)) (st : State) :
  R st (snd (analyze_us_stocks w self writable csv st)).
Proof.
  unfold analyze_us_stocks.
  destruct (Tickers.get_fortune5000_tickers csv) as [[| t ts] |];
    try (now apply R_emit).
  destruct (batch_size self =? 0)%nat; [apply R_refl |].
  set (total := (_ / _)%nat).
  pose proof (batch_loop_kept (t :: ts) total (seq 0 total) [] st) as H1.
  destruct (batch_loop w self (t :: ts) total (seq 0 total) [] st)
    as [dropped st1]. cbn [snd] in H1.
  pose proof (display_results_kept 3 5 dropped st1) as H2.
  destruct (display_results _ 5 dropped st1) as [[l | m] st2]; cbn [snd] in *.
  - eapply R_trans; [exact H1 |]. eapply R_trans; [exact H2 |].
    set (st3 := match l with
                | [] => st2
                | _ :: _ => save_results_to_csv writable l st2
                end).
    assert (H3 : R st2 st3).
    { subst st3. destruct l; [apply R_refl |]. unfold save_results_to_csv.
      destruct writable; [now apply R_emit | apply R_refl]. }
    eapply R_trans; [exact H3 |].
    destruct (failed_requests st3); [apply R_refl | now apply R_emit].
  - eapply R_trans; eassumption.
Qed.

End RunInvariant.

(** ** Every sleep has a positive duration *)

Lemma sleeps_accepted_refl (st : State) : sleeps_accepted st st.
Proof. exists []. split; [unfold events_since; now rewrite app_nil_r | constructor]. Qed.

Lemma sleeps_accepted_trans (a b c : State) :
  sleeps_accepted a b -> sleeps_accepted b c -> sleeps_accepted a c.
Proof.
  unfold sleeps_accepted, events_since.
  intros (e1 & H1 & F1) (e2 & H2 & F2). exists (e1 ++ e2).
  split; [now rewrite H2, H1, <- app_assoc | now apply Forall_app].
Qed.

Lemma sleeps_accepted_same_trace (st st' : State) :
  trace st' = trace st -> sleeps_accepted st st'.
Proof.
  intros H. exists []. split; [unfold events_since; now rewrite app_nil_r |
                               constructor].
Qed.

Lemma sleeps_accepted_emit (e : Event) (st : State) :
  passive e = true -> sleeps_accepted st (emit e st).
Proof.
  intros H. exists [e]. split; [reflexivity |].
  constructor; [| constructor]. destruct e; try exact I. discriminate H.
Qed.

Lemma sleeps_accepted_positive (st st' : State) :
  sleeps_accepted st st' ->
  Forall (fun d => (0 < d)%Q) (sleeps (trace st)) ->
  Forall (fun d => (0 < d)%Q) (sleeps (trace st')).
Proof.
  intros (evs & -> & F) H0. revert H0. generalize (trace st). intros tr H0.
  induction tr as [| e tr IH]; simpl.
  - induction F as [| e evs He _ IHF]; simpl; [constructor |].
    destruct e; try exact IHF. constructor; [exact He | exact IHF].
  - destruct e; simpl in H0; try (apply IH; exact H0).
    inversion H0; subst. constructor; [assumption | now apply IH].
Qed.

Lemma power_of_two_positive (n : nat) : (0 < inject_Z (2 ^ Z.of_nat n))%Q.
Proof.
  assert (0 < 2 ^ Z.of_nat n)%Z by (apply Z.pow_pos_nonneg; lia).
  unfold Qlt. simpl. lia.
Qed.

Section SleepDurations.
Variables (w : World) (self : Analyzer).
Hypothesis random_unit : forall n, (0 <= random w n <= 1)%Q.

Lemma sleeps_accepted_throttle (st : State) :
  sleeps_accepted st (throttle w self st).
Proof.
  unfold throttle, throttle_wait, uniform, sleeps_accepted, events_since.
  destruct (delay_range self) as [lo hi].
  destruct (Qltb _ _) eqn:E; cbn [sleep emit advance stamp_request trace];
    rewrite <- ?app_assoc; eexists; (split; [reflexivity |]);
    repeat constructor.
  apply Qltb_true in E. unfold sleep_accepted.
  cbn [clock last_request_time draws] in *.
  set (min_delay := qplus lo _) in *. rewrite qminus_eq in E. rewrite !qminus_eq.
  lra.
Qed.

Lemma sleeps_accepted_back_off (attempt : nat) (st : State) :
  sleeps_accepted st (back_off w attempt st).
Proof.
  exists [EvUniform 0 1 (fst (uniform w (0, 1)%Q st));
          EvRateLimited (S attempt)
            (qplus (qmult Config.exponential_backoff_base
                      (inject_Z (2 ^ Z.of_nat attempt)))
               (fst (uniform w (0, 1)%Q st)));
          EvSleep (qplus (qmult Config.exponential_backoff_base
                            (inject_Z (2 ^ Z.of_nat attempt)))
                     (fst (uniform w (0, 1)%Q st)))].
  split; [apply back_off_trace |]. repeat constructor.
  unfold sleep_accepted.
  pose proof (back_off_delay_bounds w random_unit attempt st) as H.
  pose proof (power_of_two_positive attempt). cbv zeta in H. lra.
Qed.

Lemma sleeps_accepted_pause (current total : nat) (st : State) :
  sleeps_accepted st (inter_batch_pause w current total st).
Proof.
  unfold inter_batch_pause. destruct (_ <? _)%nat; [| apply sleeps_accepted_refl].
  unfold sleeps_accepted, events_since. cbn [uniform sleep emit advance trace].
  rewrite <- app_assoc. eexists. split; [reflexivity |]. repeat constructor.
  unfold sleep_accepted. rewrite qplus_eq, qmult_eq, qminus_eq.
  pose proof (random_unit (draws st)). lra.
Qed.

End SleepDurations.

(** X17: in a run of [analyze_us_stocks] (with [random.random()] in
    [0, 1]) every duration passed to [time.sleep] is positive, in the
    throttle, in the backoff and between batches, so no sleep raises the
    [ValueError] of a negative duration. *)
Theorem every_sleep_is_positive
    (libs : Libs) (w : World) (self : Analyzer) (writable : bool)
    (csv : result (list string)) (now : Q) :
  (forall n, (0 <= random w n <= 1)%Q) ->
  Forall (fun d => (0 < d)%Q)
    (sleeps (trace (snd (analyze_us_stocks w self writable csv
                           (initial_state now))))).
Proof.
  intros Hrand.
  apply (sleeps_accepted_positive (initial_state now)); [| constructor].
  apply (analyze_us_stocks_kept w self writable sleeps_accepted).
  - apply sleeps_accepted_refl.
  - apply sleeps_accepted_trans.
  - apply sleeps_accepted_throttle.
  - intros d st. now apply sleeps_accepted_same_trace.
  - now apply sleeps_accepted_back_off.
  - now apply sleeps_accepted_pause.
  - apply sleeps_accepted_emit.
  - intros sym st. now apply sleeps_accepted_same_trace.
Qed.

Lemma every_sleep_is_positive_witness :
  let w := Examples.refusing in
  let st := snd (analyze_us_stocks (libs := TaModel.libs) w
                   Examples.balanced_analyzer true (Ok ["AAPL"; "MSFT"])
                   (initial_state Examples.t0)) in
  (forall n, (0 <= random w n <= 1)%Q)
  /\ length (sleeps (trace st)) = 6
  /\ Forall (fun d => (0 < d)%Q) (sleeps (trace st)).
Proof.
  intros w st.
  assert (H : forall n, (0 <= random w n <= 1)%Q).
  { intros n. split; vm_compute; discriminate. }
  split; [exact H |]. split; [vm_compute; reflexivity |].
  exact (every_sleep_is_positive TaModel.libs w Examples.balanced_analyzer true
           (Ok ["AAPL"; "MSFT"]) Examples.t0 H).
Defined.

(** ** Spacing of all the calls of a run with one worker *)

Lemma throttle_inv_transfer (gap : Q) (st st' : State) :
  request_times (trace st') = request_times (trace st) ->
  last_request_time st' = last_request_time st ->
  throttle_inv gap st -> throttle_inv gap st'.
Proof. unfold throttle_inv. now intros -> ->. Qed.

Lemma passive_request_times (e : Event) (tr : list Event) :
  passive e = true -> request_times (tr ++ [e]) = request_times tr.
Proof.
  intros H. rewrite request_times_app.
  destruct e; try discriminate H; simpl; now rewrite app_nil_r.
Qed.

Lemma inter_batch_pause_keeps_inv (w : World) (gap : Q) (current total : nat)
    (st : State) :
  throttle_inv gap st -> throttle_inv gap (inter_batch_pause w current total st).
Proof.
  unfold inter_batch_pause. destruct (_ <? _)%nat; [| auto].
  apply throttle_inv_transfer; [| reflexivity].
  cbn [uniform sleep emit advance trace]. rewrite !request_times_app. simpl.
  now rewrite !app_nil_r.
Qed.

Section WholeRunSpacing.
Context {libs : Libs}.
Variables (w : World) (self : Analyzer) (writable : bool).
Hypothesis random_nonneg : forall n, (0 <= random w n)%Q.
Hypothesis range_ordered : (fst (delay_range self) <= snd (delay_range self))%Q.

Lemma us_run_keeps_inv (csv : result (list string)) (st : State) :
  throttle_inv (fst (delay_range self)) st ->
  throttle_inv (fst (delay_range self))
    (snd (analyze_us_stocks w self writable csv st)).
Proof.
  apply (analyze_us_stocks_kept w self writable
           (fun a b => throttle_inv (fst (delay_range self)) a ->
                       throttle_inv (fst (delay_range self)) b)).
  - auto.
  - auto.
  - intros s. now apply throttle_keeps_inv.
  - intros d s. now apply throttle_inv_transfer.
  - intros attempt s. now apply back_off_keeps_inv.
  - intros current total s. apply inter_batch_pause_keeps_inv.
  - intros e s He. apply throttle_inv_transfer; [| reflexivity].
    now apply passive_request_times.
  - intros sym s. now apply throttle_inv_transfer.
Qed.

End WholeRunSpacing.

(** X18: the presets [conservative] and [ultra_conservative] give the
    pool a single worker, so the wrapped calls of a run are made one after
    the other; then the passes through the throttle of a whole run of
    [analyze_us_stocks], those of the analysis ([fetch_stock_data]) and
    those for the news of the records shown ([fetch_news]), are at least the
    lower bound of the preset's delay range apart (1 s and 2 s). The spacing
    is between wrapped calls: the [history] and [info] requests that one
    [fetch_stock_data] makes follow each other after a single pass. *)
Theorem single_worker_presets_space_every_call
    (libs : Libs) (w : World) (threshold : float) (preset : string)
    (writable : bool) (csv : result (list string)) (now : Q) :
  (forall n, (0 <= random w n)%Q) ->
  preset = "conservative" \/ preset = "ultra_conservative" ->
  let self := new_analyzer threshold preset in
  max_workers self = 1
  /\ (1 <= fst (delay_range self))%Q
  /\ spaced (fst (delay_range self))
       (request_times
          (trace (snd (analyze_us_stocks w self writable csv (initial_state now))))).
Proof.
  intros Hrand Hpreset self.
  assert (Hcfg : max_workers self = 1
                 /\ (1 <= fst (delay_range self))%Q
                 /\ (fst (delay_range self) <= snd (delay_range self))%Q).
  { subst self. destruct Hpreset as [-> | ->]; vm_compute;
      repeat split; discriminate. }
  destruct Hcfg as (Hw & Hlo & Hord).
  split; [exact Hw |]. split; [exact Hlo |].
  apply (us_run_keeps_inv w self writable Hrand Hord csv (initial_state now)).
  split; exact I.
Qed.

Lemma single_worker_presets_space_every_call_witness :
  let w := Scenarios.newsy Examples.fourteen_bars in
  let self := Scenarios.conservative_analyzer in
  let st := snd (analyze_us_stocks (libs := TaModel.libs) w self true
                   (Ok ["AAPL"; "MSFT"]) (initial_state Examples.t0)) in
  (forall n, (0 <= random w n)%Q)
  /\ length (request_times (trace st)) = 4
  /\ spaced 1 (request_times (trace st)).
Proof.
  intros w self st.
  assert (H : forall n, (0 <= random w n)%Q) by (intros n; vm_compute; discriminate).
  split; [exact H |]. split; [vm_compute; reflexivity |].
  exact (proj2 (proj2 (single_worker_presets_space_every_call TaModel.libs w
                         (-1)%float "conservative" true (Ok ["AAPL"; "MSFT"])
                         Examples.t0 H (or_introl eq_refl)))).
Defined.

(** ** The preset given on the command line *)

Lemma lower_char_idempotent (c : ascii) :
  Py.lower_char (Py.lower_char c) = Py.lower_char c.
Proof. destruct c as [[] [] [] [] [] [] [] []]; reflexivity. Qed.

Lemma lower_idempotent (s : string) : Py.lower (Py.lower s) = Py.lower s.
Proof.
  induction s as [| c s IH]; simpl; [reflexivity |].
  now rewrite lower_char_idempotent, IH.
Qed.

Lemma valid_presets_are_keys (preset : string) :
  existsb (String.eqb preset) valid_presets = true
  <-> is_Some (Config.PRESETS !! preset).
Proof.
  split.
  - intros H. apply existsb_exists in H as (p & Hin & Heq).
    apply String.eqb_eq in Heq. subst p. now apply PRESETS_known.
  - intros Hs. destruct (in_dec String.string_dec preset valid_presets) as [Hin | Hout].
    + apply existsb_exists. exists preset. split; [exact Hin | apply String.eqb_refl].
    + rewrite (PRESETS_unknown preset Hout) in Hs. now destruct Hs.
Qed.

Lemma valid_preset_accepted {libs : Libs} (w : World) (prog preset : string)
    (writable : bool) (csv : result (list string)) (now : Q) :
  In preset valid_presets ->
  main w [prog; preset] writable csv now = run_preset w preset writable csv now.
Proof.
  simpl. intros [<- | [<- | [<- | [<- | []]]]]; reflexivity.
Qed.

(** X19: [main] of [fortune5000-analysis.py] lower-cases its first
    argument and ignores the others; it runs the analysis with that preset
    exactly when the lower-cased name is a key of [PRESETS], the
    configuration used being the entry of that key, never the fallback of
    [get_config]; any other name only prints ["Invalid preset"], with no
    request made; without an argument the preset is [balanced]. *)
Theorem main_accepts_exactly_the_presets
    (libs : Libs) (w : World) (argv : list string) (writable : bool)
    (csv : result (list string)) (now : Q) :
  match argv with
  | prog :: arg :: rest =>
      let preset := Py.lower arg in
      main w argv writable csv now = main w [prog; preset] writable csv now
      /\ match Config.PRESETS !! preset with
         | Some config =>
             main w argv writable csv now = run_preset w preset writable csv now
             /\ Config.get_config preset = config
         | None =>
             main w argv writable csv now
             = emit (EvInvalidPreset preset) (initial_state now)
             /\ request_count (main w argv writable csv now) = 0
         end
  | _ => main w argv writable csv now = run_preset w "balanced" writable csv now
  end.
Proof.
  destruct argv as [| prog [| arg rest]]; try reflexivity.
  cbv zeta. split.
  - unfold main. now rewrite lower_idempotent.
  - pose proof (valid_presets_are_keys (Py.lower arg)) as Hkeys.
    unfold main. unfold Config.get_config.
    destruct (Config.PRESETS !! Py.lower arg) as [config |].
    + rewrite (proj2 Hkeys); [auto | eauto].
    + destruct (existsb _ valid_presets); [| auto].
      destruct (proj1 Hkeys eq_refl) as [? H]. discriminate H.
Qed.

(** ** [run_analysis.py] *)

Section Launcher.

Lemma interactive_children (inputs : list RunAnalysis.Input) :
  let out := RunAnalysis.interactive inputs in
  (RunAnalysis.subprocesses (fst out) = [] 
   \/ exists preset, In preset valid_presets /\ snd out = Ok tt
                     /\ RunAnalysis.subprocesses (fst out)
                        = [[RunAnalysis.script; preset]])
  /\ (forall m, snd out = Raise m -> RunAnalysis.subprocesses (fst out) = []).
Proof.
  induction inputs as [| [s |] rest IH]; cbn [RunAnalysis.interactive].
  - split; [now left | reflexivity].
  - destruct (String.eqb _ "1");
      [split; [right; exists "aggressive"; simpl; tauto | discriminate] |].
    destruct (String.eqb _ "2");
      [split; [right; exists "balanced"; simpl; tauto | discriminate] |].
    destruct (String.eqb _ "3");
      [split; [right; exists "conservative"; simpl; tauto | discriminate] |].
    destruct (String.eqb _ "4");
      [split; [right; exists "ultra_conservative"; simpl; tauto | discriminate] |].
    destruct (String.eqb _ "5").
    + destruct (RunAnalysis.interactive rest) as [out r]. exact IH.
    + destruct (String.eqb _ "6"); [split; [now left | discriminate] |].
      destruct (RunAnalysis.interactive rest) as [out r]. exact IH.
  - split; [now left | discriminate].
Qed.

Lemma main_children (argv : list string) (inputs : list RunAnalysis.Input) :
  let out := RunAnalysis.main argv inputs in
  (RunAnalysis.subprocesses (fst out) = []
   \/ exists preset, In preset valid_presets /\ snd out = Ok tt
                     /\ RunAnalysis.subprocesses (fst out)
                        = [[RunAnalysis.script; preset]])
  /\ (forall m, snd out = Raise m -> RunAnalysis.subprocesses (fst out) = []).
Proof.
  assert (Hi : forall argv', (length argv' <= 1)%nat ->
             RunAnalysis.main argv' inputs
             = (RunAnalysis.Title :: RunAnalysis.Menu
                  :: fst (RunAnalysis.interactive inputs),
                snd (RunAnalysis.interactive inputs))).
  { intros [| a [| b r]] Hl; simpl in *; try lia;
      now destruct (RunAnalysis.interactive inputs). }
  destruct argv as [| prog [| arg rest]].
  - rewrite Hi by (simpl; lia). apply interactive_children.
  - rewrite Hi by (simpl; lia). apply interactive_children.
  - cbn [RunAnalysis.main].
    destruct (Config.PRESETS !! Py.lower arg) eqn:E.
    + split; [| discriminate]. right. exists (Py.lower arg).
      split; [| auto].
      destruct (in_dec String.string_dec (Py.lower arg) valid_presets)
        as [Hin | Hout]; [exact Hin |].
      rewrite (PRESETS_unknown _ Hout) in E. discriminate E.
    + destruct (existsb _ _); (split; [now left | discriminate]).
Qed.

End Launcher.

(** X20: [run_analysis.py] starts [fortune5000-analysis.py] at most
    once, and only with a preset name that the [main] of that script accepts
    (a key of [PRESETS], already in lower case), so the child never answers
    ["Invalid preset"]; and when the script ends on the [EOFError] of an
    exhausted input, which its loop does not catch, no child was started. *)
Theorem run_analysis_starts_one_valid_child
    (argv : list string) (inputs : list RunAnalysis.Input) :
  let out := RunAnalysis.main argv inputs in
  (length (RunAnalysis.subprocesses (fst out)) <= 1)%nat
  /\ Forall (fun child =>
               exists preset,
                 child = [RunAnalysis.script; preset]
                 /\ is_Some (Config.PRESETS !! preset)
                 /\ snd out = Ok tt
                 /\ forall (libs : Libs) (w : World) (writable : bool)
                           (csv : result (list string)) (now : Q),
                      main w child writable csv now
                      = run_preset w preset writable csv now)
       (RunAnalysis.subprocesses (fst out))
  /\ (forall m, snd out = Raise m -> RunAnalysis.subprocesses (fst out) = []).
Proof.
  intros out. destruct (main_children argv inputs) as [Hc Hr]. fold out in Hc, Hr.
  split; [| split; [| exact Hr]].
  - destruct Hc as [-> | (p & _ & _ & ->)]; simpl; lia.
  - destruct Hc as [-> | (p & Hin & Hok & ->)]; constructor; [| constructor].
    exists p. split; [reflexivity |]. split; [now apply PRESETS_known |].
    split; [exact Hok |].
    intros libs w writable csv now. now apply valid_preset_accepted.
Qed.

(** ** The last trading day *)

(** X21: for a date from 0001-01-04 on, [get_last_trading_day] returns
    a day from Monday to Friday, before today and at most three days back,
    at the same time of day; every day between it and today is a Saturday or
    a Sunday, so it is the latest weekday before today. *)
Theorem last_trading_day_is_a_weekday (today : Calendar.datetime) :
  (4 <= Calendar.toordinal today <= Calendar.max_ordinal)%Z ->
  exists day,
    Calendar.get_last_trading_day today = Ok day
    /\ (0 <= Calendar.weekday day <= 4)%Z
    /\ (Calendar.toordinal today - 3 <= Calendar.toordinal day
        < Calendar.toordinal today)%Z
    /\ Calendar.microsecond_of_day day = Calendar.microsecond_of_day today
    /\ forall o, (Calendar.toordinal day < o < Calendar.toordinal today)%Z ->
                 (5 <= (o + 6) mod 7)%Z.
Proof.
  intros [Hlo Hhi]. unfold Calendar.get_last_trading_day, Calendar.minus_days,
    Calendar.weekday, Calendar.max_ordinal in *.
  destruct (Z.eqb_spec ((Calendar.toordinal today + 6) mod 7) 0) as [H0 | H0];
    [| destruct (Z.eqb_spec ((Calendar.toordinal today + 6) mod 7) 6) as [H6 | H6]];
    match goal with
    | |- context [(?a <? 1)%Z || (?b <? ?a)%Z] =>
        destruct (Z.ltb_spec a 1); [lia |];
        destruct (Z.ltb_spec b a); [lia |]
    end;
    cbn [orb]; eexists; (split; [reflexivity |]);
    cbn [Calendar.toordinal Calendar.microsecond_of_day];
    (split; [| split; [lia | split; [reflexivity |]]]);
    try (intros o Ho); Z.div_mod_to_equations; lia.
Qed.

Lemma last_trading_day_is_a_weekday_witness :
  (4 <= Calendar.toordinal Scenarios.a_wednesday <= Calendar.max_ordinal)%Z
  /\ exists day,
       Calendar.get_last_trading_day Scenarios.a_wednesday = Ok day
       /\ (0 <= Calendar.weekday day <= 4)%Z.
Proof.
  assert (H : (4 <= Calendar.toordinal Scenarios.a_wednesday
               <= Calendar.max_ordinal)%Z) by (vm_compute; split; discriminate).
  split; [exact H |].
  destruct (last_trading_day_is_a_weekday Scenarios.a_wednesday H)
    as (day & Hd & Hw & _).
  exists day. split; [exact Hd | exact Hw].
Defined.

(** ** Market cap categories of [comparison-analysis.py] *)

Lemma SFltb_not_leb (x y : spec_float) : SFltb x y = true -> SFleb y x = false.
Proof.
  unfold SFleb, SFltb, SFcompare.
  destruct x as [[]|[]| |[] mx ex], y as [[]|[]| |[] my ey];
    intros H; try reflexivity; try discriminate; FloatOrder.compare_cases.
Qed.

Lemma ltb_not_leb (x y : float) :
  PrimFloat.ltb x y = true -> PrimFloat.leb y x = false.
Proof.
  rewrite FloatAxioms.ltb_spec. intros H. apply SFltb_not_leb in H.
  destruct (PrimFloat.leb y x) eqn:E; [| reflexivity].
  rewrite FloatAxioms.leb_spec in E. congruence.
Qed.

(** A number is at or above a threshold, or below it, or it is nan and
    every comparison with it is false. *)
Lemma threshold_cases (t c : float) :
  PrimFloat.is_nan t = false ->
  (PrimFloat.leb t c = true /\ PrimFloat.ltb c t = false
   /\ PrimFloat.is_nan c = false)
  \/ (PrimFloat.leb t c = false /\ PrimFloat.ltb c t = true
      /\ PrimFloat.is_nan c = false)
  \/ (PrimFloat.leb t c = false /\ PrimFloat.ltb c t = false
      /\ PrimFloat.is_nan c = true).
Proof.
  intros Ht. destruct (PrimFloat.is_nan c) eqn:Hc.
  - right. right. split; [| split; [| reflexivity]].
    + destruct (PrimFloat.leb t c) eqn:E; [| reflexivity].
      apply FloatOrder.leb_not_nan in E as [_ E]. congruence.
    + destruct (PrimFloat.ltb c t) eqn:E; [| reflexivity].
      apply FloatOrder.ltb_leb, FloatOrder.leb_not_nan in E as [E _]. congruence.
  - destruct (PrimFloat.ltb c t) eqn:E.
    + right. left. split; [now apply ltb_not_leb | auto].
    + left. split; [now apply FloatOrder.leb_total | auto].
Qed.

Lemma categorize_cases (c : float) :
  let category := Comparison.categorize_market_cap c in
  (category = "Mega Cap (>$200B)"
   /\ PrimFloat.leb 200000000000 c = true /\ PrimFloat.leb 10000000000 c = true
   /\ PrimFloat.leb 2000000000 c = true /\ PrimFloat.ltb c 10000000000 = false
   /\ PrimFloat.ltb c 200000000000 = false /\ PrimFloat.ltb c 2000000000 = false
   /\ PrimFloat.is_nan c = false)
  \/ (category = "Large Cap ($10B-$200B)"
      /\ PrimFloat.leb 200000000000 c = false /\ PrimFloat.leb 10000000000 c = true
      /\ PrimFloat.leb 2000000000 c = true /\ PrimFloat.ltb c 10000000000 = false
      /\ PrimFloat.ltb c 200000000000 = true /\ PrimFloat.ltb c 2000000000 = false
      /\ PrimFloat.is_nan c = false)
  \/ (category = "Mid Cap ($2B-$10B)"
      /\ PrimFloat.leb 200000000000 c = false /\ PrimFloat.leb 10000000000 c = false
      /\ PrimFloat.leb 2000000000 c = true /\ PrimFloat.ltb c 10000000000 = true
      /\ PrimFloat.ltb c 200000000000 = true /\ PrimFloat.ltb c 2000000000 = false
      /\ PrimFloat.is_nan c = false)
  \/ (category = "Small Cap (<$2B)"
      /\ PrimFloat.leb 200000000000 c = false /\ PrimFloat.leb 10000000000 c = false
      /\ PrimFloat.leb 2000000000 c = false /\ PrimFloat.ltb c 10000000000 = true
      /\ PrimFloat.ltb c 200000000000 = true /\ PrimFloat.ltb c 2000000000 = true
      /\ PrimFloat.is_nan c = false)
  \/ (category = "Small Cap (<$2B)"
      /\ PrimFloat.leb 200000000000 c = false /\ PrimFloat.leb 10000000000 c = false
      /\ PrimFloat.leb 2000000000 c = false /\ PrimFloat.ltb c 10000000000 = false
      /\ PrimFloat.ltb c 200000000000 = false /\ PrimFloat.ltb c 2000000000 = false
      /\ PrimFloat.is_nan c = true).
Proof.
  cbv zeta. unfold Comparison.categorize_market_cap.
  assert (H1 : PrimFloat.leb 200000000000 c = true ->
               PrimFloat.leb 10000000000 c = true)
    by (apply FloatOrder.leb_trans; reflexivity).
  assert (H2 : PrimFloat.leb 10000000000 c = true ->
               PrimFloat.leb 2000000000 c = true)
    by (apply FloatOrder.leb_trans; reflexivity).
  destruct (threshold_cases 200000000000 c eq_refl) as [(A1 & A2 & A3) | [(A1 & A2 & A3) | (A1 & A2 & A3)]];
  destruct (threshold_cases 10000000000 c eq_refl) as [(B1 & B2 & B3) | [(B1 & B2 & B3) | (B1 & B2 & B3)]];
  destruct (threshold_cases 2000000000 c eq_refl) as [(C1 & C2 & C3) | [(C1 & C2 & C3) | (C1 & C2 & C3)]];
    try congruence;
    try (specialize (H1 A1); congruence);
    try (specialize (H2 B1); congruence);
    rewrite A1, ?B1, ?C1; tauto.
Qed.

(** X22: [categorize_market_cap] puts a market cap in the band its
    label names, lower bound included and upper bound excluded; a market cap
    that is nan (an empty cell of the CSV file) is a [Small Cap]. In the
    summary report the count called large-cap is the number of companies of
    the Mega and Large bands together, the count called mid-cap is the number
    of the Mid band, and the four bands hold every company once. *)
Theorem market_cap_bands (c : float) (market_caps : list float) :
  let category := Comparison.categorize_market_cap c in
  (category = "Mega Cap (>$200B)" <-> PrimFloat.leb 200000000000 c = true)
  /\ (category = "Large Cap ($10B-$200B)"
      <-> PrimFloat.leb 10000000000 c = true
          /\ PrimFloat.ltb c 200000000000 = true)
  /\ (category = "Mid Cap ($2B-$10B)"
      <-> PrimFloat.leb 2000000000 c = true
          /\ PrimFloat.ltb c 10000000000 = true)
  /\ (category = "Small Cap (<$2B)"
      <-> PrimFloat.ltb c 2000000000 = true \/ PrimFloat.is_nan c = true)
  /\ Comparison.large_cap_count market_caps
     = (Comparison.category_count "Mega Cap (>$200B)" market_caps
        + Comparison.category_count "Large Cap ($10B-$200B)" market_caps)%nat
  /\ Comparison.mid_cap_count market_caps
     = Comparison.category_count "Mid Cap ($2B-$10B)" market_caps
  /\ (Comparison.category_count "Mega Cap (>$200B)" market_caps
      + Comparison.category_count "Large Cap ($10B-$200B)" market_caps
      + Comparison.category_count "Mid Cap ($2B-$10B)" market_caps
      + Comparison.category_count "Small Cap (<$2B)" market_caps)%nat
     = length market_caps.
Proof.
  cbv zeta. split; [| split; [| split; [| split]]].
  1-4: destruct (categorize_cases c)
         as [H | [H | [H | [H | H]]]];
       destruct H as (-> & A & B & C & D & E & F & G);
       rewrite ?A, ?B, ?C, ?D, ?E, ?F, ?G;
       (split; [intros H; try discriminate H; auto
               | intros H; try reflexivity;
                 repeat match goal with
                        | H : _ /\ _ |- _ => destruct H
                        | H : _ \/ _ |- _ => destruct H
                        end; discriminate]).
  unfold Comparison.large_cap_count, Comparison.mid_cap_count,
    Comparison.category_count.
  induction market_caps as [| x rest (IH1 & IH2 & IH3)]; [now auto |].
  cbn [List.filter].
  destruct (categorize_cases x) as [H | [H | [H | [H | H]]]];
    destruct H as (-> & A & B & C & D & E & F & G);
    rewrite ?B, ?C, ?D; cbn [String.eqb Ascii.eqb Bool.eqb andb length];
    rewrite ?IH1, ?IH2; (split; [lia | split; [lia |]]);
    cbn [length]; lia.
Qed.

(** ** A run of [sp500-analysis.py] *)

Section PlainRun.
Context {libs : Libs}.
Variables (w : World) (threshold : float).

Lemma collect_exact (order : list string) (dropped : list AnalysisRecord)
    (st : State) :
  fst (SP500.collect w threshold order dropped st)
  = dropped ++ omap (SP500.analyze_single_stock w threshold) order
  /\ trace (snd (SP500.collect w threshold order dropped st))
     = trace st ++ repeat (EvSleep (1 # 10)) (length order)
  /\ failed_requests (snd (SP500.collect w threshold order dropped st))
     = failed_requests st.
Proof.
  revert dropped st. induction order as [| t rest IH]; intros dropped st.
  - simpl. now rewrite !app_nil_r.
  - cbn [SP500.collect].
    match goal with
    | |- context [SP500.collect _ _ rest ?d ?s] =>
        destruct (IH d s) as (H1 & H2 & H3)
    end.
    rewrite H1, H2, H3. unfold sleep, emit, advance.
    cbn [trace failed_requests length repeat].
    rewrite <- app_assoc. cbn [app].
    split; [| auto].
    change (omap (SP500.analyze_single_stock w threshold) (t :: rest))
      with (match SP500.analyze_single_stock w threshold t with
            | Some r => r :: omap (SP500.analyze_single_stock w threshold) rest
            | None => omap (SP500.analyze_single_stock w threshold) rest
            end).
    destruct (SP500.analyze_single_stock w threshold t);
      [now rewrite <- app_assoc | reflexivity].
Qed.

End PlainRun.

(** X23: [analyze_sp500_stocks] analyses every ticker it is given
    once, in the order in which the pool completes them, and sleeps 0.1 s
    after each one: the records collected are exactly the records of the
    tickers whose analysis returns one, a ticker whose analysis raises or
    returns [None] being skipped without a retry or an entry in a failure
    list. When the display returns, the ranked table is this list sorted by
    percent change. *)
Theorem sp500_run_collects_every_drop
    (libs : Libs) (w : World) (threshold : float) (writable : bool)
    (tickers : list string) (st : State) :
  tickers <> [] ->
  let order := schedule w tickers in
  let found := omap (SP500.analyze_single_stock w threshold) order in
  let collected := SP500.collect w threshold order [] st in
  let run := SP500.analyze_sp500_stocks w threshold writable (Some tickers) st in
  fst collected = found
  /\ trace (snd collected)
     = trace st ++ repeat (EvSleep (1 # 10)) (length order)
  /\ failed_requests (snd run) = failed_requests st
  /\ (fst run = Ok tt ->
      printed_rows (trace (snd run))
      = printed_rows (trace st) ++ sort_by_change found).
Proof.
  intros Hne order found collected run.
  destruct (collect_exact w threshold order [] st) as (H1 & H2 & H3).
  fold collected in H1, H2, H3. cbn [app] in H1. fold found in H1.
  split; [exact H1 |]. split; [exact H2 |].
  subst run. unfold SP500.analyze_sp500_stocks.
  destruct tickers as [| t ts]; [congruence |].
  fold order. fold collected.
  destruct collected as [dropped st1]. cbn [fst snd] in H1, H2, H3. subst dropped.
  set (news := fun (sym : string) (s : State) => (SP500.get_stock_news w sym 3, s)).
  assert (Hnews : forall sym s, extends_quietly s (snd (news sym s)))
    by (intros sym s; apply extends_quietly_refl).
  assert (Hnf : forall sym s, failed_requests (snd (news sym s)) = failed_requests s)
    by reflexivity.
  pose proof (display_results_failed news 3 Hnf found st1) as Hf.
  pose proof (display_results_ok news 3 found) as Hok.
  pose proof (display_results_shown news 3 Hnews found) as Hsh.
  destruct (display_results news 3 found st1) as [[l | m] st2] eqn:E.
  - specialize (Hok l st1). specialize (Hsh l st1). rewrite E in Hok, Hsh.
    cbn [fst snd] in *. destruct (Hok eq_refl) as (Hl & _). specialize (Hsh eq_refl).
    assert (Hp1 : printed_rows (trace st1) = printed_rows (trace st)).
    { rewrite H2, printed_rows_app.
      assert (Hr : forall n, printed_rows (repeat (EvSleep (1 # 10)) n) = [])
        by (induction n; simpl; auto).
      now rewrite Hr, app_nil_r. }
    destruct l as [| a l'].
    + split; [congruence |]. intros _. rewrite Hsh, Hp1. now rewrite <- Hl.
    + cbn [save_results_to_csv]. split.
      * destruct writable; cbn [save_results_to_csv emit failed_requests]; congruence.
      * intros _. rewrite <- Hl.
        unfold save_results_to_csv.
        destruct writable; cbn [emit trace]; rewrite ?printed_rows_app;
          cbn [printed_rows]; rewrite ?app_nil_r; congruence.
  - cbn [fst snd] in *. split; [congruence | discriminate].
Qed.

Lemma sp500_run_collects_every_drop_witness :
  let w := Examples.serving Examples.fourteen_bars Examples.no_info in
  let tickers := ["AAPL"; "MSFT"] in
  let run := SP500.analyze_sp500_stocks (libs := TaModel.libs) w (-1)%float true
               (Some tickers) (initial_state Examples.t0) in
  tickers <> []
  /\ fst run = Ok tt
  /\ length (printed_rows (trace (snd run))) = 2%nat
  /\ printed_rows (trace (snd run))
     = sort_by_change
         (omap (SP500.analyze_single_stock (libs := TaModel.libs) w (-1)%float)
            (schedule w tickers)).
Proof.
  intros w tickers run.
  assert (H0 : tickers <> []) by discriminate.
  assert (H1 : fst run = Ok tt) by (vm_compute; reflexivity).
  destruct (sp500_run_collects_every_drop TaModel.libs w (-1)%float true tickers
              (initial_state Examples.t0) H0) as (_ & _ & _ & H).
  split; [exact H0 |]. split; [exact H1 |].
  split; [vm_compute; reflexivity | exact (H H1)].
Defined.

Section PlainMain.
Context {libs : Libs}.
Variables (w : World) (writable : bool).

Lemma plain_run_handled (tickers : option (list string)) (st0 : State) :
  printed_rows (trace st0) = [] -> saved_files (trace st0) = [] ->
  let run := SP500.analyze_sp500_stocks w (-1)%float writable tickers st0 in
  let final := match run with
               | (Ok _, st) => st
               | (Raise m, st) => emit (EvUnexpectedError m) st
               end in
  (saved_files (trace final) = []
   \/ saved_files (trace final) = [printed_rows (trace final)])
  /\ (fst run = Ok tt -> final = snd run)
  /\ (forall m, fst run = Raise m ->
        final = emit (EvUnexpectedError m) (snd run)
        /\ saved_files (trace final) = []).
Proof.
  intros Hp Hs run final.
  pose proof (sp500_run_saves_what_it_shows w (new_analyzer (-1)%float "balanced")
                writable tickers st0 Hp Hs) as H.
  change (drop_threshold (new_analyzer (-1)%float "balanced")) with (-1)%float in H.
  fold run in H. destruct H as (H1 & _ & _ & H4).
  subst final. destruct run as [[[] | m] st1]; cbn [fst snd] in *.
  - split; [exact H1 |]. split; [reflexivity | discriminate].
  - specialize (H4 m eq_refl).
    assert (Hsaved : saved_files (trace (emit (EvUnexpectedError m) st1)) = []).
    { cbn [emit trace]. rewrite saved_files_app, H4. reflexivity. }
    split; [left; exact Hsaved |]. split; [discriminate |].
    intros m' [= <-]. split; [reflexivity | exact Hsaved].
Qed.

End PlainMain.

(** X24: when [main] of [sp500-analysis.py] cannot read the table of
    tickers, or the table holds no symbol, it stops after at most two sleeps
    of 2 s with nothing analysed, printed or saved (after exactly two when the
    three attempts failed). Otherwise it runs the analysis on the tickers
    read; an exception of the analysis is reported as an unexpected error and
    then no CSV file was written, and a CSV file that was written holds the
    rows of the table printed. *)
Theorem sp500_main_outcomes
    (libs : Libs) (symbol_column : nat -> result (list SP500Tickers.Cell))
    (w : World) (writable : bool) (now : Q) :
  let fetch := SP500Tickers.fetch_symbols symbol_column in
  let scraped := SP500Tickers.get_sp500_tickers symbol_column (initial_state now) in
  let final := SP500Tickers.main symbol_column w writable now in
  (exists n, (n <= 2)%nat /\ trace (snd scraped) = repeat (EvSleep 2) n)
  /\ (fst scraped = None \/ fst scraped = Some [] ->
      trace final = trace (snd scraped) ++ [EvNoTickers])
  /\ ((forall k, (k < 3)%nat -> exists m, fetch k = Raise m) ->
      trace final = [EvSleep 2; EvSleep 2; EvNoTickers])
  /\ (forall tickers, fst scraped = Some tickers ->
      let run := SP500.analyze_sp500_stocks w (-1)%float writable (Some tickers)
                   (snd scraped) in
      (fst run = Ok tt -> final = snd run)
      /\ (forall m, fst run = Raise m ->
            final = emit (EvUnexpectedError m) (snd run)
            /\ saved_files (trace final) = []))
  /\ (saved_files (trace final) = []
      \/ saved_files (trace final) = [printed_rows (trace final)]).
Proof.
  intros fetch scraped final.
  assert (Hshape : exists n, (n <= 2)%nat
                             /\ trace (snd scraped) = repeat (EvSleep 2) n).
  { subst scraped. unfold SP500Tickers.get_sp500_tickers.
    cbn [SP500Tickers.scrape_attempts]. fold fetch.
    destruct (fetch 0%nat); [exists 0%nat; split; [lia | reflexivity] |].
    cbn [Nat.ltb Nat.leb].
    destruct (fetch 1%nat); [exists 1%nat; split; [lia | reflexivity] |].
    cbn [Nat.ltb Nat.leb].
    destruct (fetch 2%nat); exists 2%nat; (split; [lia | reflexivity]). }
  assert (Hquiet : printed_rows (trace (snd scraped)) = []
                   /\ saved_files (trace (snd scraped)) = []).
  { destruct Hshape as (n & _ & ->). clear. induction n; simpl; auto. }
  destruct Hquiet as [Hp Hs].
  pose proof (plain_run_handled w writable (fst scraped) (snd scraped) Hp Hs) as Hrun.
  cbv zeta in Hrun.
  assert (Hfinal : final
                   = match SP500.analyze_sp500_stocks w (-1)%float writable
                             (fst scraped) (snd scraped) with
                     | (Ok _, st) => st
                     | (Raise m, st) => emit (EvUnexpectedError m) st
                     end).
  { subst final. unfold SP500Tickers.main. fold scraped.
    now destruct scraped. }
  rewrite <- Hfinal in Hrun. destruct Hrun as (Hsaved & Hok & Hraise).
  split; [exact Hshape |]. split; [| split; [| split; [| exact Hsaved]]].
  - intros Hnone. rewrite Hfinal.
    destruct Hnone as [-> | ->]; reflexivity.
  - intros Hall. rewrite Hfinal. subst scraped.
    unfold SP500Tickers.get_sp500_tickers. cbn [SP500Tickers.scrape_attempts].
    fold fetch.
    destruct (Hall 0%nat ltac:(lia)) as [m0 ->].
    destruct (Hall 1%nat ltac:(lia)) as [m1 ->].
    destruct (Hall 2%nat ltac:(lia)) as [m2 ->].
    reflexivity.
  - intros tickers Ht. rewrite Ht in Hok, Hraise. cbv zeta. split; assumption.
Qed.
